(** * University document generator: the assembler and its content store

    A shallow embedding of [backend/enhanced_document_generator.py] (class
    [EnhancedDocumentGenerator]) and of the document routes of
    [backend/enhanced_main.py], with the properties of the design
    document stated and proved over it.

    Conventions of the embedding:
    - a Python [str] is the list of its code points ([list N]); literals of
      the source are written [py "..."];
    - a Python [dict] with string keys is a [gmap] when it is only looked
      up, and an association list where its order is observable;
    - the wall clock, the random source and the file system form the
      [world] that the code reads and writes; a computation is a function
      from a world to an outcome (a value or a raised exception) and the
      world it leaves behind. *)

From Stdlib Require Import ZArith NArith List Ascii String Lia Bool Permutation Sorted.
From stdpp Require Import base gmap list strings.

Import ListNotations.
Local Open Scope Z_scope.
Local Open Scope N_scope.
Local Open Scope nat_scope.
Local Open Scope list_scope.

Set Default Proof Using "Type".

(* ===================================================================== *)
(** * Python strings *)
(* ===================================================================== *)

Abbreviation pystr := (list N).

(** [ord c]: the code point of a character of the source text. *)
Definition ord (c : ascii) : N := N_of_ascii c.

(** A literal of the source as a Python string. *)
Fixpoint py (s : string) : pystr :=
  match s with
  | EmptyString => []
  | String c s' => ord c :: py s'
  end.

(** [<] on strings: lexicographic on code points, a proper prefix first. *)
Fixpoint str_ltb (a b : pystr) : bool :=
  match a, b with
  | _, [] => false
  | [], _ :: _ => true
  | x :: a', y :: b' => N.ltb x y || (N.eqb x y && str_ltb a' b')
  end.

(** [s.startswith(p)]. *)
Fixpoint startswith (s p : pystr) {struct p} : bool :=
  match p, s with
  | [], _ => true
  | _ :: _, [] => false
  | y :: p', x :: s' => N.eqb x y && startswith s' p'
  end.

(** [s.endswith(p)]. *)
Definition endswith (s p : pystr) : bool :=
  startswith (rev s) (rev p).

(** [p in s] for strings. *)
Fixpoint contains (s p : pystr) : bool :=
  startswith s p ||
  match s with
  | [] => false
  | _ :: s' => contains s' p
  end.

(** [s.replace(old, new)]: the occurrences of [old] are replaced from left
    to right without overlap.  [skip] counts the characters of a matched
    occurrence that are still to be dropped. *)
Fixpoint replace_from (old new : pystr) (skip : nat) (s : pystr) : pystr :=
  match s with
  | [] => []
  | c :: s' =>
      match skip with
      | S k => replace_from old new k s'
      | O =>
          if startswith s old
          then new ++ replace_from old new (length old - 1) s'
          else c :: replace_from old new 0 s'
      end
  end.

Definition replace (s old new : pystr) : pystr :=
  match old with
  | [] => new ++ flat_map (fun c => c :: new) s
  | _ :: _ => replace_from old new 0 s
  end.

(** ASCII case mapping, as [str.upper] and [str.title] act on the strings
    of the two tables, which are all ASCII. *)
Definition is_lower (c : N) : bool := (N.leb 97 c && N.leb c 122)%N.
Definition is_upper (c : N) : bool := (N.leb 65 c && N.leb c 90)%N.
Definition to_upper (c : N) : N := if is_lower c then (c - 32)%N else c.
Definition to_lower (c : N) : N := if is_upper c then (c + 32)%N else c.

Definition upper (s : pystr) : pystr := map to_upper s.

(** [str.title]: a cased character is upper-cased after an uncased one and
    lower-cased after a cased one. *)
Fixpoint title_from (previous_is_cased : bool) (s : pystr) : pystr :=
  match s with
  | [] => []
  | c :: s' =>
      let cased := is_lower c || is_upper c in
      (if previous_is_cased then to_lower c else to_upper c)
        :: title_from cased s'
  end.

Definition str_title (s : pystr) : pystr := title_from false s.

(** [str.lower], on ASCII as above. *)
Definition lower (s : pystr) : pystr := map to_lower s.

(** The characters that [str.isspace] accepts: the ones that [str.strip]
    without argument removes. *)
Definition is_space (c : N) : bool :=
  ((N.leb 9 c && N.leb c 13) || (N.leb 28 c && N.leb c 32) ||
   N.eqb c 133 || N.eqb c 160 || N.eqb c 5760 ||
   (N.leb 8192 c && N.leb c 8202) || N.eqb c 8232 || N.eqb c 8233 ||
   N.eqb c 8239 || N.eqb c 8287 || N.eqb c 12288)%N.

Fixpoint lstrip (s : pystr) : pystr :=
  match s with
  | [] => []
  | c :: s' => if is_space c then lstrip s' else s
  end.

(** [s.strip()]. *)
Definition strip (s : pystr) : pystr := rev (lstrip (rev (lstrip s))).

(* ===================================================================== *)
(** * Printing numbers *)
(* ===================================================================== *)

(** The digit characters of base 10 and of lower-case base 16. *)
Definition digit_char (d : N) : N :=
  if N.ltb d 10 then (48 + d)%N else (87 + d)%N.

(** The digits of [n] in [base], most significant first, in front of
    [acc]; [fuel] bounds the number of digits. *)
Fixpoint digits_from (base : N) (fuel : nat) (n : N) (acc : pystr) : pystr :=
  match fuel with
  | O => acc
  | S fuel' =>
      let acc' := digit_char (n mod base) :: acc in
      if N.eqb (n / base) 0 then acc'
      else digits_from base fuel' (n / base) acc'
  end.

Definition digits (base n : N) : pystr :=
  digits_from base (S (N.size_nat n)) n [].

(** ['%0<width>d' % n] and ['%0<width>x' % n] for a number that is not
    negative: at least [width] characters, zero-filled on the left. *)
Definition zero_fill (width : nat) (s : pystr) : pystr :=
  repeat (ord "0") (width - length s) ++ s.

Definition fmt_0d (width : nat) (n : N) : pystr := zero_fill width (digits 10 n).
Definition fmt_0x (width : nat) (n : N) : pystr := zero_fill width (digits 16 n).

(* ===================================================================== *)
(** * datetime *)
(* ===================================================================== *)

Record datetime := {
  year : N; month : N; day : N;
  hour : N; minute : N; second : N; microsecond : N
}.

(** The ranges a [datetime] object keeps; the year has four digits. *)
Definition valid_datetime (d : datetime) : Prop :=
  (1000 <= year d <= 9999 /\ 1 <= month d <= 12 /\ 1 <= day d <= 31 /\
   hour d <= 23 /\ minute d <= 59 /\ second d <= 59 /\
   microsecond d <= 999999)%N.

Definition month_names : list pystr :=
  map py ["January"; "February"; "March"; "April"; "May"; "June"; "July";
          "August"; "September"; "October"; "November"; "December"]%string.

(** One directive of [strftime] (C locale). *)
Definition strftime_directive (c : N) (d : datetime) : pystr :=
  if N.eqb c (ord "Y") then fmt_0d 4 (year d)
  else if N.eqb c (ord "m") then fmt_0d 2 (month d)
  else if N.eqb c (ord "d") then fmt_0d 2 (day d)
  else if N.eqb c (ord "H") then fmt_0d 2 (hour d)
  else if N.eqb c (ord "M") then fmt_0d 2 (minute d)
  else if N.eqb c (ord "S") then fmt_0d 2 (second d)
  else if N.eqb c (ord "B") then nth (N.to_nat (month d) - 1) month_names []
  else if N.eqb c (ord "%") then [ord "%"]
  else [ord "%"; c].

(** [d.strftime(fmt)]. *)
Fixpoint strftime (d : datetime) (fmt : pystr) : pystr :=
  match fmt with
  | [] => []
  | c :: rest =>
      if N.eqb c (ord "%") then
        match rest with
        | [] => [c]
        | k :: rest' => strftime_directive k d ++ strftime d rest'
        end
      else c :: strftime d rest
  end.

(** [d.isoformat()]: the fraction is printed only when it is not zero. *)
Definition isoformat (d : datetime) : pystr :=
  fmt_0d 4 (year d) ++ py "-" ++ fmt_0d 2 (month d) ++ py "-" ++
  fmt_0d 2 (day d) ++ py "T" ++ fmt_0d 2 (hour d) ++ py ":" ++
  fmt_0d 2 (minute d) ++ py ":" ++ fmt_0d 2 (second d) ++
  (if N.eqb (microsecond d) 0 then [] else py "." ++ fmt_0d 6 (microsecond d)).

(* ===================================================================== *)
(** * uuid *)
(* ===================================================================== *)

(** [uuid.UUID(bytes=..., version=4)]: the 128-bit integer of sixteen random
    bytes with the variant and version bits forced. *)
Definition UUID_version4 (random : Z) : Z :=
  let int := (random mod 2 ^ 128)%Z in
  let int := Z.land int (Z.lnot (Z.shiftl 0xc000 48)) in
  let int := Z.lor int (Z.shiftl 0x8000 48) in
  let int := Z.land int (Z.lnot (Z.shiftl 0xf000 64)) in
  Z.lor int (Z.shiftl 4 76).

(** [str(u)]: thirty-two hexadecimal digits in groups of 8-4-4-4-12. *)
Definition str_uuid (u : Z) : pystr :=
  let hex := fmt_0x 32 (Z.to_N u) in
  firstn 8 hex ++ py "-" ++ firstn 4 (skipn 8 hex) ++ py "-" ++
  firstn 4 (skipn 12 hex) ++ py "-" ++ firstn 4 (skipn 16 hex) ++ py "-" ++
  skipn 20 hex.


(* ===================================================================== *)
(** * Exceptions and outcomes *)
(* ===================================================================== *)

(** The subclasses of [OSError] that the file operations raise, and the
    plain [OSError] of errno ENAMETOOLONG. *)
Inductive oserror :=
| FileNotFoundError
| FileExistsError
| NotADirectoryError
| IsADirectoryError
| ENAMETOOLONG.

Inductive exn :=
| ValueError (message : pystr)
| KeyError (key : pystr)
| IndexError (message : pystr)
| OSError (kind : oserror) (filename : pystr)
| HTTPException (status_code : N) (detail : pystr)
| Unmodelled (what : pystr).

Inductive outcome (A : Type) :=
| Return (a : A)
| Raise (e : exn).

Arguments Return {A} a.
Arguments Raise {A} e.

Definition outcome_map {A B} (f : A -> B) (o : outcome A) : outcome B :=
  match o with
  | Return a => Return (f a)
  | Raise e => Raise e
  end.

Definition outcome_bind {A B} (o : outcome A) (f : A -> outcome B) : outcome B :=
  match o with
  | Return a => f a
  | Raise e => Raise e
  end.

(** [d[key]] on a dictionary with string keys. *)
Definition getitem {V} (d : gmap pystr V) (key : pystr) : outcome V :=
  match d !! key with
  | Some v => Return v
  | None => Raise (KeyError key)
  end.

(** [l[i]] on a list. *)
Definition list_getitem {V} (l : list V) (i : nat) : outcome V :=
  match l !! i with
  | Some v => Return v
  | None => Raise (IndexError (py "list index out of range"))
  end.

(* ===================================================================== *)
(** * Encoding text: UTF-8, XML text and file names *)
(* ===================================================================== *)

Definition is_surrogate (c : N) : bool := (N.leb 0xD800 c && N.leb c 0xDFFF)%N.

(** The surrogates that the error handler surrogateescape of file names
    turns into one byte each. *)
Definition is_escaped (c : N) : bool := (N.leb 0xDC80 c && N.leb c 0xDCFF)%N.

Fixpoint surrogates (s : pystr) : nat :=
  match s with
  | [] => 0
  | c :: s' => if is_surrogate c then S (surrogates s') else 0
  end.

(** The failure of [s.encode('utf-8')]: the start and the end of the run
    of surrogates that the UnicodeEncodeError reports, and the character
    at its start.  With [escape] the escaped surrogates are encoded, as
    [os.fsencode] does. *)
Fixpoint encode_error (escape : bool) (s : pystr) (pos : nat)
    : option (nat * nat * N) :=
  match s with
  | [] => None
  | c :: s' =>
      if is_surrogate c && negb (escape && is_escaped c)
      then Some (pos, pos + 1 + surrogates s', c)
      else encode_error escape s' (S pos)
  end.

(** [str(e)] of that UnicodeEncodeError, which is a ValueError. *)
Definition UnicodeEncodeError (r : nat * nat * N) : exn :=
  let '(start, stop, c) := r in
  ValueError
    (py "'utf-8' codec can't encode " ++
     (if Nat.eqb stop (S start)
      then py "character '\u" ++ fmt_0x 4 c ++ py "' in position " ++
           digits 10 (N.of_nat start)
      else py "characters in position " ++ digits 10 (N.of_nat start) ++
           py "-" ++ digits 10 (N.of_nat (stop - 1))) ++
     py ": surrogates not allowed").

(** The number of bytes of the encoded file name. *)
Definition encoded_size (c : N) : nat :=
  if N.ltb c 0x80 then 1
  else if N.ltb c 0x800 then 2
  else if is_surrogate c then 1
  else if N.ltb c 0x10000 then 3
  else 4.

Definition fs_size (s : pystr) : nat :=
  foldr (fun c n => encoded_size c + n) 0 s.

(** The characters that libxml2 takes in the text of an element, the
    surrogates apart, which do not get that far. *)
Definition xml_char (c : N) : bool :=
  (N.eqb c 9 || N.eqb c 10 || N.eqb c 13 ||
   (N.leb 32 c && negb (N.eqb c 0xFFFE) && negb (N.eqb c 0xFFFF)))%N.

(** lxml's [element.text = s]: the string is encoded, and refused when a
    character of it is none of XML. *)
Definition set_element_text (s : pystr) : outcome unit :=
  match encode_error false s 0 with
  | Some r => Raise (UnicodeEncodeError r)
  | None =>
      if forallb xml_char s then Return tt
      else Raise (ValueError (py "All strings must be XML compatible: Unicode or ASCII, no NULL bytes or control characters"))
  end.

(* ===================================================================== *)
(** * str.format with keyword arguments *)
(* ===================================================================== *)

(** Characters that start a conversion, a format specification, an
    attribute or an index inside a replacement field, or nest a field. *)
Definition field_special (c : N) : bool :=
  N.eqb c (ord "!") || N.eqb c (ord ":") || N.eqb c (ord ".") ||
  N.eqb c (ord "[") || N.eqb c (ord "{").

Definition is_digit (c : N) : bool := (N.leb 48 c && N.leb c 57)%N.

(** The value of the replacement field called [name]: an empty or numeric
    name refers to the positional arguments, of which there are none. *)
Definition field_value (kwargs : gmap pystr pystr) (name : pystr) : outcome pystr :=
  if forallb is_digit name
  then Raise (IndexError
                (py "Replacement index out of range for positional args tuple"))
  else getitem kwargs name.

(** [template.format] with keyword arguments, one pass from left to right.  [field] is
    [Some name] while the characters of a replacement field are read
    ([name] holds them in reverse).  Doubled braces are literal braces; a
    field with a conversion, a format specification, an attribute or an
    index is outside the model. *)
Fixpoint format_from (kwargs : gmap pystr pystr) (field : option pystr)
    (s : pystr) : outcome pystr :=
  match s with
  | [] =>
      match field with
      | None => Return []
      | Some _ => Raise (ValueError (py "expected '}' before end of string"))
      end
  | c :: s' =>
      match field with
      | Some name =>
          if N.eqb c (ord "}") then
            outcome_bind (field_value kwargs (rev name)) (fun v =>
            outcome_map (app v) (format_from kwargs None s'))
          else if field_special c then
            Raise (Unmodelled (py "replacement field"))
          else format_from kwargs (Some (c :: name)) s'
      | None =>
          if N.eqb c (ord "{") then
            match s' with
            | [] => Raise (ValueError (py "Single '{' encountered in format string"))
            | c' :: s'' =>
                if N.eqb c' (ord "{")
                then outcome_map (cons c) (format_from kwargs None s'')
                else format_from kwargs (Some []) s'
            end
          else if N.eqb c (ord "}") then
            match s' with
            | [] => Raise (ValueError (py "Single '}' encountered in format string"))
            | c' :: s'' =>
                if N.eqb c' (ord "}")
                then outcome_map (cons c) (format_from kwargs None s'')
                else Raise (ValueError (py "Single '}' encountered in format string"))
            end
          else outcome_map (cons c) (format_from kwargs None s')
      end
  end.

Definition format (template : pystr) (kwargs : gmap pystr pystr) : outcome pystr :=
  format_from kwargs None template.

(* ===================================================================== *)
(** * The document object of python-docx *)
(* ===================================================================== *)

(** The library is modelled by the content that the calls of the generator
    record in the document: paragraphs of runs with their character
    formatting, the page margins and header of each section, and the core
    properties.  Lengths are in English Metric Units, as the library keeps
    them.  The text of a run and of a core property goes through lxml,
    which refuses what XML cannot hold; a core property is refused when it
    is longer than 255 characters. *)

Definition Pt (points : N) : N := (points * 12700)%N.
Definition Inches (inches : N) : N := (inches * 914400)%N.

Inductive WD_ALIGN_PARAGRAPH := LEFT | CENTER | RIGHT | JUSTIFY.

Record font := {
  font_size : option N;
  font_bold : option bool;
  font_underline : option bool;
  font_name : option pystr;
  font_color_rgb : option pystr
}.

Record run := { run_text : pystr; run_font : font }.

Record paragraph := {
  alignment : option WD_ALIGN_PARAGRAPH;
  runs : list run
}.

Record section := {
  top_margin : option N; bottom_margin : option N;
  left_margin : option N; right_margin : option N;
  header_paragraphs : list paragraph
}.

Record core_properties := {
  cp_title : pystr; cp_subject : pystr; cp_author : pystr; cp_comments : pystr
}.

Record document := {
  sections : list section;
  paragraphs : list paragraph;
  core : option core_properties
}.

Definition plain_font : font :=
  {| font_size := None; font_bold := None; font_underline := None;
     font_name := None; font_color_rgb := None |}.

Definition set_size (v : N) (f : font) : font :=
  {| font_size := Some v; font_bold := font_bold f;
     font_underline := font_underline f; font_name := font_name f;
     font_color_rgb := font_color_rgb f |}.

Definition set_bold (v : bool) (f : font) : font :=
  {| font_size := font_size f; font_bold := Some v;
     font_underline := font_underline f; font_name := font_name f;
     font_color_rgb := font_color_rgb f |}.

Definition set_underline (v : bool) (f : font) : font :=
  {| font_size := font_size f; font_bold := font_bold f;
     font_underline := Some v; font_name := font_name f;
     font_color_rgb := font_color_rgb f |}.

Definition set_name (v : pystr) (f : font) : font :=
  {| font_size := font_size f; font_bold := font_bold f;
     font_underline := font_underline f; font_name := Some v;
     font_color_rgb := font_color_rgb f |}.

Definition set_color_rgb (v : option pystr) (f : font) : font :=
  {| font_size := font_size f; font_bold := font_bold f;
     font_underline := font_underline f; font_name := font_name f;
     font_color_rgb := v |}.

(** [Document()]: the default template has one section, whose header holds
    one empty paragraph, and an empty body.  A margin or the core
    properties are [None] as long as they are those of the template. *)
Definition Document : document :=
  {| sections :=
       [ {| top_margin := None; bottom_margin := None;
            left_margin := None; right_margin := None;
            header_paragraphs := [ {| alignment := None; runs := [] |} ] |} ];
     paragraphs := [];
     core := None |}.

(** [doc.add_paragraph()] followed by the settings and the single
    [add_run] that the generator applies to the new paragraph. *)
Definition add_paragraph (p : paragraph) (doc : document) : document :=
  {| sections := sections doc;
     paragraphs := paragraphs doc ++ [p];
     core := core doc |}.

Definition blank : paragraph := {| alignment := None; runs := [] |}.

Definition paragraph_of (a : option WD_ALIGN_PARAGRAPH) (text : pystr)
    (f : font) : paragraph :=
  {| alignment := a; runs := [ {| run_text := text; run_font := f |} ] |}.

Definition set_margins (s : section) : section :=
  {| top_margin := Some (Inches 1); bottom_margin := Some (Inches 1);
     left_margin := Some (Inches 1); right_margin := Some (Inches 1);
     header_paragraphs := header_paragraphs s |}.

(** The text of a paragraph: the texts of its runs, joined. *)
Definition paragraph_text (p : paragraph) : pystr :=
  flat_map run_text (runs p).

(** [run.text = text]: a tab becomes a tab element, a newline or a
    carriage return a break, and the pieces between them are set as the
    texts of the text elements, one after the other. *)
Definition is_break (c : N) : bool := (N.eqb c 9 || N.eqb c 10 || N.eqb c 13)%N.

Fixpoint run_pieces (text : pystr) : list pystr :=
  match text with
  | [] => [[]]
  | c :: text' =>
      if is_break c then [] :: run_pieces text'
      else match run_pieces text' with
           | [] => [[c]]
           | h :: t => (c :: h) :: t
           end
  end.

Fixpoint set_pieces (pieces : list pystr) : outcome unit :=
  match pieces with
  | [] => Return tt
  | piece :: pieces' =>
      outcome_bind (set_element_text piece) (fun _ => set_pieces pieces')
  end.

(** What [paragraph.add_run(text)] and [paragraph.text = text] raise. *)
Definition add_run_text (text : pystr) : outcome unit :=
  set_pieces (run_pieces text).

(** [doc.add_paragraph()], the settings of the paragraph, and its single
    [add_run(text)]. *)
Definition add_run_paragraph (a : option WD_ALIGN_PARAGRAPH) (text : pystr)
    (f : font) (doc : document) : outcome document :=
  outcome_map (fun _ => add_paragraph (paragraph_of a text f) doc)
    (add_run_text text).

(** The assignment to a core property. *)
Definition set_core_property (value : pystr) : outcome unit :=
  if Nat.ltb 255 (length value)
  then Raise (ValueError
                (py "exceeded 255 char limit for property, got:" ++
                 [10; 10]%N ++ py "'" ++ value ++ py "'"))
  else set_element_text value.

(* ===================================================================== *)
(** * The reference data of the generator *)
(* ===================================================================== *)

Record university := {
  name : pystr; address : pystr; phone : pystr; website : pystr; color : pystr
}.

Record document_template := { title : pystr; template : pystr }.

Definition university_table : list (pystr * university) :=
  [ (py "harvard",
     {| name := py "Harvard University"; address := py "Cambridge, MA 02138";
        phone := py "(617) 495-1000"; website := py "harvard.edu";
        color := py "8B0000" |});
    (py "stanford",
     {| name := py "Stanford University"; address := py "Stanford, CA 94305";
        phone := py "(650) 723-2300"; website := py "stanford.edu";
        color := py "CC0000" |});
    (py "mit",
     {| name := py "Massachusetts Institute of Technology";
        address := py "Cambridge, MA 02139"; phone := py "(617) 253-1000";
        website := py "mit.edu"; color := py "8A2BE2" |});
    (py "generic",
     {| name := py "University"; address := py "University Address";
        phone := py "University Phone"; website := py "university.edu";
        color := py "2F4F4F" |}) ].

Definition template_table : list (pystr * document_template) :=
  [ (py "bonafide",
     {| title := py "BONAFIDE CERTIFICATE";
        template := py "This is to certify that {student_name}, Roll No: {roll_number}, is a bonafide student of this institution. He/She has been studying in this institution since {admission_date} in the {course} program in the Department of {department}. This certificate is issued for the purpose of {purpose}." |});
    (py "noc",
     {| title := py "NO OBJECTION CERTIFICATE";
        template := py "This is to certify that we have no objection to {student_name}, Roll No: {roll_number}, a student of {course} program in the Department of {department}, for {purpose}. The student is in good academic standing and has no disciplinary issues." |});
    (py "character",
     {| title := py "CHARACTER CERTIFICATE";
        template := py "This is to certify that {student_name}, Roll No: {roll_number}, is a student of {course} program in the Department of {department}. During his/her stay in this institution, his/her character and conduct have been found to be satisfactory. This certificate is issued for {purpose}." |});
    (py "transfer",
     {| title := py "TRANSFER CERTIFICATE";
        template := py "This is to certify that {student_name}, Roll No: {roll_number}, was a student of this institution from {admission_date} studying {course} in the Department of {department}. He/She is now seeking transfer for {purpose}. His/Her character and conduct during the stay were satisfactory." |});
    (py "fee_structure",
     {| title := py "FEE STRUCTURE LETTER";
        template := py "This letter provides the official fee structure for {student_name}, Roll No: {roll_number}, enrolled in {course} program in the Department of {department}. This information is provided for {purpose}. Please contact the finance office for detailed fee breakdown." |});
    (py "transcript",
     {| title := py "ACADEMIC TRANSCRIPT REQUEST";
        template := py "This acknowledges the request for official academic transcripts for {student_name}, Roll No: {roll_number}, enrolled in {course} program in the Department of {department}. The transcripts are requested for {purpose}. Official transcripts will be processed within 5-7 business days." |}) ].

(** [self.universities] and [self.document_templates]. *)
Definition universities : gmap pystr university := list_to_map university_table.
Definition document_templates : gmap pystr document_template :=
  list_to_map template_table.

(* ===================================================================== *)
(** * The world: clock, random source and file system *)
(* ===================================================================== *)

Record stat_result := { st_size : N; st_ctime : Z }.

(** What a name of the file system denotes.  A regular file written by the
    generator holds the document that was saved into it. *)
Inductive inode :=
| File (st : stat_result) (content : option document)
| Directory (st : stat_result).

Definition inode_stat (i : inode) : stat_result :=
  match i with
  | File st _ => st
  | Directory st => st
  end.

Definition is_directory (i : option inode) : bool :=
  match i with
  | Some (Directory _) => true
  | _ => false
  end.

(** The file system maps the resolved names (the lists of components from
    the root) to what they denote.  There are no symbolic links, and no
    permissions or quotas: what the names allow can be written.  The
    clock and the random source are sequences of readings of which the
    next one is consumed by each call.  [local_time] is the local-time
    rule of the process, [package_size] the number of bytes of the package
    that the library writes for a document, [directory_size] the size that
    the file system reports for a new directory. *)
Record world := {
  files : gmap (list pystr) inode;
  cwd : list pystr;
  clock : nat -> Z;
  ticks : nat;
  urandom : nat -> Z;
  draws : nat;
  local_time : Z -> datetime;
  package_size : document -> N;
  directory_size : N
}.

(** [datetime.fromtimestamp(t)] is an object of the class [datetime],
    whose fields are within the ranges that the class keeps: what the
    local-time rule gives is read within them. *)
Definition in_range (d : datetime) : datetime :=
  {| year := N.max 1 (N.min (year d) 9999);
     month := N.max 1 (N.min (month d) 12);
     day := N.max 1 (N.min (day d) 31);
     hour := N.min (hour d) 23;
     minute := N.min (minute d) 59;
     second := N.min (second d) 59;
     microsecond := N.min (microsecond d) 999999 |}.

Definition fromtimestamp (w : world) (t : Z) : datetime :=
  in_range (local_time w t).

Definition with_files (fs : gmap (list pystr) inode) (w : world) : world :=
  {| files := fs; cwd := cwd w; clock := clock w; ticks := ticks w;
     urandom := urandom w; draws := draws w;
     local_time := local_time w; package_size := package_size w;
     directory_size := directory_size w |}.

Definition tick (w : world) : world :=
  {| files := files w; cwd := cwd w; clock := clock w; ticks := S (ticks w);
     urandom := urandom w; draws := draws w;
     local_time := local_time w; package_size := package_size w;
     directory_size := directory_size w |}.

Definition draw (w : world) : world :=
  {| files := files w; cwd := cwd w; clock := clock w; ticks := ticks w;
     urandom := urandom w; draws := S (draws w);
     local_time := local_time w; package_size := package_size w;
     directory_size := directory_size w |}.

(** ** Computations *)

Definition M (A : Type) : Type := world -> outcome A * world.

Definition ret {A} (a : A) : M A := fun w => (Return a, w).

Definition raise {A} (e : exn) : M A := fun w => (Raise e, w).

Definition bind {A B} (m : M A) (k : A -> M B) : M B :=
  fun w =>
    match m w with
    | (Return a, w') => k a w'
    | (Raise e, w') => (Raise e, w')
    end.

(** [try: m except Exception as e: handler(e)]. *)
Definition try_except {A} (m : M A) (handler : exn -> M A) : M A :=
  fun w =>
    match m w with
    | (Return a, w') => (Return a, w')
    | (Raise e, w') => handler e w'
    end.

Definition lift {A} (o : outcome A) : M A := fun w => (o, w).

Definition gets {A} (f : world -> A) : M A := fun w => (Return (f w), w).

Declare Scope monad_scope.
Delimit Scope monad_scope with monad.
Notation "'let*' x ':=' m 'in' k" := (bind m (fun x => k))
  (at level 10, x name, m at level 100, k at level 200) : monad_scope.
Local Open Scope monad_scope.

(** [for x in l: body(x)] with an accumulator. *)
Fixpoint for_each {A S} (l : list A) (body : S -> A -> M S) (s : S) : M S :=
  match l with
  | [] => ret s
  | x :: l' => let* s' := body s x in for_each l' body s'
  end.

(** ** time, datetime.now and uuid.uuid4 *)

Definition time_time : M Z :=
  fun w => (Return (clock w (ticks w)), tick w).

Definition datetime_now : M datetime :=
  let* t := time_time in
  let* f := gets fromtimestamp in
  ret (f t).

Definition uuid_uuid4 : M Z :=
  fun w => (Return (UUID_version4 (urandom w (draws w))), draw w).

(** ** Names *)

(** [s.split(sep)] for a separator of one character. *)
Fixpoint split_on (sep : N) (s : pystr) : list pystr :=
  match s with
  | [] => [[]]
  | c :: s' =>
      if N.eqb c sep then [] :: split_on sep s'
      else match split_on sep s' with
           | [] => [[c]]
           | h :: t => (c :: h) :: t
           end
  end.

(** The step of name resolution for one component. *)
Definition step (cur : list pystr) (c : pystr) : list pystr :=
  if bool_decide (c = []) || bool_decide (c = py ".") then cur
  else if bool_decide (c = py "..") then removelast cur
  else cur ++ [c].

(** Resolution of the components [cs] from the directory [cur]: every
    component is looked up in a directory that exists. *)
Fixpoint namei (fs : gmap (list pystr) inode) (cur : list pystr)
    (cs : list pystr) : oserror + list pystr :=
  match cs with
  | [] => inr cur
  | c :: cs' =>
      match fs !! cur with
      | Some (Directory _) => namei fs (step cur c) cs'
      | Some (File _ _) => inl NotADirectoryError
      | None => inl FileNotFoundError
      end
  end.

Definition start_of (w : world) (path : pystr) : list pystr :=
  if startswith path (py "/") then [] else cwd w.

Definition resolve (w : world) (path : pystr) : oserror + list pystr :=
  match path with
  | [] => inl FileNotFoundError
  | _ :: _ => namei (files w) (start_of w path) (split_on (ord "/") path)
  end.

(** [os.path.join(a, b)] of posixpath. *)
Definition os_path_join (a b : pystr) : pystr :=
  if startswith b (py "/") then b
  else if bool_decide (a = []) || endswith a (py "/") then a ++ b
  else a ++ py "/" ++ b.


(** ** Reading the file system *)

Definition lookup_path (w : world) (path : pystr) : option inode :=
  match resolve w path with
  | inr t => files w !! t
  | inl _ => None
  end.

Definition path_exists (w : world) (path : pystr) : bool :=
  bool_decide (is_Some (lookup_path w path)).

Definition path_isdir (w : world) (path : pystr) : bool :=
  is_directory (lookup_path w path).

Definition os_path_exists (path : pystr) : M bool :=
  gets (fun w => path_exists w path).

(** The entry of the directory [p] that the resolved name [q] is, if it
    is one. *)
Fixpoint child_of (p q : list pystr) : option pystr :=
  match p, q with
  | [], [c] => Some c
  | x :: p', y :: q' => if bool_decide (x = y) then child_of p' q' else None
  | _, _ => None
  end.

Definition entries (fs : gmap (list pystr) inode) (p : list pystr) : list pystr :=
  omap (fun kv => child_of p (fst kv)) (map_to_list fs).

(** [os.listdir(path)]: the entries come in the order of the map, which
    stands for the arbitrary order of a directory. *)
Definition os_listdir (path : pystr) : M (list pystr) :=
  fun w =>
    match resolve w path with
    | inl e => (Raise (OSError e path), w)
    | inr t =>
        match files w !! t with
        | Some (Directory _) => (Return (entries (files w) t), w)
        | Some (File _ _) => (Raise (OSError NotADirectoryError path), w)
        | None => (Raise (OSError FileNotFoundError path), w)
        end
    end.

(** [os.stat(path)]. *)
Definition os_stat (path : pystr) : M stat_result :=
  fun w =>
    match resolve w path with
    | inl e => (Raise (OSError e path), w)
    | inr t =>
        match files w !! t with
        | Some i => (Return (inode_stat i), w)
        | None => (Raise (OSError FileNotFoundError path), w)
        end
    end.

(** ** Writing the file system *)

(** The change time of an inode is set to the clock reading [now]. *)
Definition touch (now : Z) (i : inode) : inode :=
  match i with
  | File st c => File {| st_size := st_size st; st_ctime := now |} c
  | Directory st => Directory {| st_size := st_size st; st_ctime := now |}
  end.

(** A new entry [t] denoting [i]: the directory that holds it changes too. *)
Definition create (t : list pystr) (i : Z -> inode) (w : world) : world :=
  let now := clock w (ticks w) in
  tick (with_files (<[t := i now]> (alter (touch now) (removelast t) (files w))) w).

(** The entry [t] is removed from its directory. *)
Definition unlink (t : list pystr) (w : world) : world :=
  let now := clock w (ticks w) in
  tick (with_files (alter (touch now) (removelast t) (delete t (files w))) w).

Definition new_directory (w : world) (now : Z) : inode :=
  Directory {| st_size := directory_size w; st_ctime := now |}.

Definition new_file (w : world) (doc : document) (now : Z) : inode :=
  File {| st_size := package_size w doc; st_ctime := now |} (Some doc).

(** [os.makedirs] walks the components and makes every directory that is
    missing on the way.  With [exist_ok=True] a leaf that exists is
    accepted when it is a directory.  The directories made before a
    failure stay. *)
Fixpoint makedirs_from (w : world) (cur : list pystr) (cs : list pystr)
    : option oserror * world :=
  match cs with
  | [] =>
      match files w !! cur with
      | Some (Directory _) => (None, w)
      | Some (File _ _) => (Some FileExistsError, w)
      | None => (Some FileNotFoundError, w)
      end
  | c :: cs' =>
      match files w !! cur with
      | Some (Directory _) =>
          let next := step cur c in
          match files w !! next with
          | None => makedirs_from (create next (new_directory w) w) next cs'
          | Some _ => makedirs_from w next cs'
          end
      | Some (File _ _) => (Some NotADirectoryError, w)
      | None => (Some FileNotFoundError, w)
      end
  end.

(** [os.makedirs(name, exist_ok=True)]. *)
Definition os_makedirs (name : pystr) : M unit :=
  fun w =>
    match name with
    | [] => (Raise (OSError FileNotFoundError name), w)
    | _ :: _ =>
        match makedirs_from w (start_of w name) (split_on (ord "/") name) with
        | (None, w') => (Return tt, w')
        | (Some e, w') => (Raise (OSError e name), w')
        end
    end.

(** The limits of Linux on the bytes of a component and of a path. *)
Definition NAME_MAX : nat := 255.
Definition PATH_MAX : nat := 4096.

(** The resolution of a name that is to be opened: a component of more
    than [NAME_MAX] bytes is refused where it is looked up. *)
Fixpoint namei_open (fs : gmap (list pystr) inode) (cur : list pystr)
    (cs : list pystr) : oserror + list pystr :=
  match cs with
  | [] => inr cur
  | c :: cs' =>
      match fs !! cur with
      | Some (Directory _) =>
          if Nat.ltb NAME_MAX (fs_size c) then inl ENAMETOOLONG
          else namei_open fs (step cur c) cs'
      | Some (File _ _) => inl NotADirectoryError
      | None => inl FileNotFoundError
      end
  end.

Definition resolve_open (w : world) (path : pystr) : oserror + list pystr :=
  match path with
  | [] => inl FileNotFoundError
  | _ :: _ =>
      if Nat.leb PATH_MAX (fs_size path) then inl ENAMETOOLONG
      else namei_open (files w) (start_of w path) (split_on (ord "/") path)
  end.

(** [doc.save(path)]: the package is written to the file called [path],
    which is opened for writing: made, or replaced when it is there.  A
    name that cannot be encoded or holds a null character is refused
    before the file system is asked. *)
Definition docx_save (doc : document) (path : pystr) : M unit :=
  fun w =>
    match encode_error true path 0 with
    | Some r => (Raise (UnicodeEncodeError r), w)
    | None =>
        if existsb (N.eqb 0) path
        then (Raise (ValueError (py "embedded null byte")), w)
        else
          match resolve_open w path with
          | inl e => (Raise (OSError e path), w)
          | inr t =>
              match files w !! t with
              | Some (Directory _) => (Raise (OSError IsADirectoryError path), w)
              | Some (File _ _) =>
                  (Return tt,
                   tick (with_files
                           (<[t := new_file w doc (clock w (ticks w))]> (files w)) w))
              | None => (Return tt, create t (new_file w doc) w)
              end
          end
    end.

(** [os.remove(path)]. *)
Definition os_remove (path : pystr) : M unit :=
  fun w =>
    match resolve w path with
    | inl e => (Raise (OSError e path), w)
    | inr t =>
        match files w !! t with
        | Some (File _ _) => (Return tt, unlink t w)
        | Some (Directory _) => (Raise (OSError IsADirectoryError path), w)
        | None => (Raise (OSError FileNotFoundError path), w)
        end
    end.

(** ** str(e) *)

Definition errno (e : oserror) : N * pystr :=
  match e with
  | FileNotFoundError => (2%N, py "No such file or directory")
  | FileExistsError => (17%N, py "File exists")
  | NotADirectoryError => (20%N, py "Not a directory")
  | IsADirectoryError => (21%N, py "Is a directory")
  | ENAMETOOLONG => (36%N, py "File name too long")
  end.

(** [repr] of a string that holds no quote and needs no escape. *)
Definition repr (s : pystr) : pystr := py "'" ++ s ++ py "'".

Definition str_exn (e : exn) : pystr :=
  match e with
  | ValueError m => m
  | KeyError k => repr k
  | IndexError m => m
  | OSError k f =>
      py "[Errno " ++ digits 10 (fst (errno k)) ++ py "] " ++ snd (errno k) ++
      py ": " ++ repr f
  | HTTPException c d => digits 10 c ++ py ": " ++ d
  | Unmodelled m => m
  end.

(* ===================================================================== *)
(** * class EnhancedDocumentGenerator *)
(* ===================================================================== *)

Module EnhancedDocumentGenerator.

(** The dictionary returned by [generate_and_save]. *)
Record result := {
  success : bool;
  filename : pystr;
  file_path : pystr;
  download_url : pystr;
  message : pystr
}.

Definition times_new_roman : pystr := py "Times New Roman".

Definition generate_unique_filename (document_type student_name purpose : pystr)
    : M pystr :=
  let* now := datetime_now in
  let timestamp := strftime now (py "%Y%m%d_%H%M%S") in
  let* u := uuid_uuid4 in
  let unique_id := firstn 8 (str_uuid u) in
  let clean_name :=
    replace (replace student_name (py " ") (py "_")) (py "/") (py "_") in
  let clean_purpose :=
    firstn 20 (replace (replace purpose (py " ") (py "_")) (py "/") (py "_")) in
  ret (document_type ++ py "_" ++ clean_name ++ py "_" ++ clean_purpose ++
       py "_" ++ timestamp ++ py "_" ++ unique_id ++ py ".docx").

Definition add_watermark (doc : document) (text : pystr) : outcome document :=
  outcome_bind (list_getitem (sections doc) 0) (fun section =>
  outcome_bind (list_getitem (header_paragraphs section) 0) (fun _ =>
  outcome_bind (add_run_text text) (fun _ =>
  let paragraph :=
    {| alignment := Some CENTER;
       runs := [ {| run_text := text; run_font := plain_font |} ] |} in
  outcome_bind (list_getitem (runs paragraph) 0) (fun run =>
  let run :=
    {| run_text := run_text run;
       run_font :=
         set_name (py "Arial")
           (set_color_rgb None (set_size (Pt 60) (run_font run))) |} in
  let paragraph := {| alignment := alignment paragraph; runs := [run] |} in
  let section :=
    {| top_margin := top_margin section; bottom_margin := bottom_margin section;
       left_margin := left_margin section; right_margin := right_margin section;
       header_paragraphs := <[0 := paragraph]> (header_paragraphs section) |} in
  Return {| sections := <[0 := section]> (sections doc);
            paragraphs := paragraphs doc;
            core := core doc |})))).

Definition add_university_logo_placeholder (doc : document)
    (university_name : pystr) : outcome document :=
  add_run_paragraph (Some CENTER) (py "[" ++ university_name ++ py " LOGO]")
    (set_color_rgb None (set_bold true (set_size (Pt 14) plain_font)))
    doc.

Definition create_document_header (doc : document) (university_data : university)
    : outcome document :=
  outcome_bind
    (add_run_paragraph (Some CENTER) (upper (name university_data))
       (set_name times_new_roman (set_bold true (set_size (Pt 24) plain_font)))
       doc) (fun doc =>
  outcome_bind
    (add_run_paragraph (Some CENTER) (py "Office of the Registrar")
       (set_name times_new_roman (set_size (Pt 16) plain_font))
       doc) (fun doc =>
  outcome_bind
    (add_run_paragraph (Some CENTER)
       (address university_data ++ [10%N] ++ py "Tel: " ++ phone university_data)
       (set_name times_new_roman (set_size (Pt 12) plain_font))
       doc) (fun doc =>
  add_run_paragraph None (repeat (ord "_") 80) plain_font doc))).

Definition create_document_title (doc : document) (title : pystr)
    : outcome document :=
  let doc := add_paragraph blank doc in
  outcome_bind
    (add_run_paragraph (Some CENTER) title
       (set_underline true
          (set_name times_new_roman
             (set_bold true (set_size (Pt 20) plain_font))))
       doc) (fun doc =>
  Return (add_paragraph blank doc)).

(** The assignment to [body_run.font.space_after] sets an attribute of the
    proxy object and nothing of the document. *)
Definition create_document_body (doc : document) (template_text : pystr)
    (student_data : gmap pystr pystr) : outcome document :=
  add_run_paragraph (Some JUSTIFY) template_text
    (set_name times_new_roman (set_size (Pt 12) plain_font))
    doc.

Definition create_document_footer (doc : document) (university_data : university)
    (student_data : gmap pystr pystr) : M document :=
  let doc := add_paragraph blank doc in
  let* now := datetime_now in
  let current_date := strftime now (py "%B %d, %Y") in
  let body_font := set_name times_new_roman (set_size (Pt 12) plain_font) in
  let* doc :=
    lift (add_run_paragraph (Some LEFT) (py "Date: " ++ current_date) body_font
            doc) in
  let* doc :=
    lift (add_run_paragraph (Some LEFT) (py "Place: " ++ name university_data)
            body_font doc) in
  let doc := add_paragraph blank doc in
  let* doc :=
    lift (add_run_paragraph (Some RIGHT) (repeat (ord "_") 40) body_font doc) in
  let* doc :=
    lift (add_run_paragraph (Some RIGHT) (py "Registrar")
            (set_name times_new_roman (set_bold true (set_size (Pt 12) plain_font)))
            doc) in
  lift (add_run_paragraph (Some RIGHT) (name university_data)
          (set_name times_new_roman (set_size (Pt 10) plain_font))
          doc).

Definition add_document_metadata (doc : document)
    (student_data : gmap pystr pystr) (document_type : pystr) : M document :=
  let* student_name := lift (getitem student_data (py "student_name")) in
  let cp_title := str_title document_type ++ py " - " ++ student_name in
  let* _ := lift (set_core_property cp_title) in
  let cp_subject := py "University Document: " ++ document_type in
  let* _ := lift (set_core_property cp_subject) in
  let cp_author := py "University Registrar Office" in
  let* _ := lift (set_core_property cp_author) in
  let* student_name := lift (getitem student_data (py "student_name")) in
  let* now := datetime_now in
  let cp_comments :=
    py "Generated for " ++ student_name ++ py " on " ++
    strftime now (py "%Y-%m-%d %H:%M:%S") in
  let* _ := lift (set_core_property cp_comments) in
  ret {| sections := sections doc;
         paragraphs := paragraphs doc;
         core := Some {| cp_title := cp_title; cp_subject := cp_subject;
                         cp_author := cp_author; cp_comments := cp_comments |} |}.

(** The keyword arguments of the call of [format], evaluated in the order
    of the source. *)
Definition body_kwargs (formatted_name : pystr) (student_data : gmap pystr pystr)
    : outcome (gmap pystr pystr) :=
  outcome_bind (getitem student_data (py "roll_number")) (fun roll_number =>
  outcome_bind (getitem student_data (py "course")) (fun course =>
  outcome_bind (getitem student_data (py "department")) (fun department =>
  outcome_bind (getitem student_data (py "admission_date")) (fun admission_date =>
  outcome_bind (getitem student_data (py "purpose")) (fun purpose =>
  Return (list_to_map
            [ (py "student_name", formatted_name);
              (py "roll_number", roll_number);
              (py "course", course);
              (py "department", department);
              (py "admission_date", admission_date);
              (py "purpose", purpose) ])))))).

Definition generate_document (university_code document_type : pystr)
    (student_data : gmap pystr pystr) : M (document * pystr) :=
  match universities !! university_code with
  | None => raise (ValueError (py "Invalid university code: " ++ university_code))
  | Some university_data =>
  match document_templates !! document_type with
  | None => raise (ValueError (py "Invalid document type: " ++ document_type))
  | Some template_data =>
      let doc := Document in
      let doc :=
        {| sections := map set_margins (sections doc);
           paragraphs := paragraphs doc;
           core := core doc |} in
      let* doc := lift (add_watermark doc (py "OFFICIAL DOCUMENT")) in
      let* doc :=
        lift (add_university_logo_placeholder doc (name university_data)) in
      let* doc := lift (create_document_header doc university_data) in
      let* doc := lift (create_document_title doc (title template_data)) in
      let* student_name := lift (getitem student_data (py "student_name")) in
      let formatted_name := py "Mr./Ms. " ++ student_name in
      let* kwargs := lift (body_kwargs formatted_name student_data) in
      let* body_text := lift (format (template template_data) kwargs) in
      let* doc := lift (create_document_body doc body_text student_data) in
      let* doc := create_document_footer doc university_data student_data in
      let* doc := add_document_metadata doc student_data document_type in
      let* student_name := lift (getitem student_data (py "student_name")) in
      let* purpose := lift (getitem student_data (py "purpose")) in
      let* filename := generate_unique_filename document_type student_name purpose in
      ret (doc, filename)
  end
  end.

Definition save_document (doc : document) (filename output_dir : pystr) : M pystr :=
  let* _ := os_makedirs output_dir in
  let file_path := os_path_join output_dir filename in
  let* _ := docx_save doc file_path in
  ret file_path.

Definition generate_and_save (university_code document_type : pystr)
    (student_data : gmap pystr pystr) (output_dir : pystr) : M result :=
  let* r := generate_document university_code document_type student_data in
  let '(doc, filename) := r in
  let* file_path := save_document doc filename output_dir in
  ret {| success := true;
         filename := filename;
         file_path := file_path;
         download_url := py "/download/" ++ filename;
         message := py "Document generated successfully: " ++ filename |}.

(** The default value of the parameter [output_dir]. *)
Definition default_output_dir : pystr := py "generated".

End EnhancedDocumentGenerator.

(* ===================================================================== *)
(** * list.sort *)
(* ===================================================================== *)

(** [l.sort(key=key, reverse=True)] on string keys: the stable sort into
    descending order, in which elements of equal keys keep the order they
    had.  [insert_reverse] puts [x], which stood before the elements of the
    sorted list [s], behind the elements of larger keys only. *)
Fixpoint insert_reverse {A} (key : A -> pystr) (x : A) (s : list A) : list A :=
  match s with
  | [] => [x]
  | y :: s' =>
      if str_ltb (key x) (key y) then y :: insert_reverse key x s'
      else x :: s
  end.

Definition sort_reverse {A} (key : A -> pystr) (l : list A) : list A :=
  foldr (insert_reverse key) [] l.

(* ===================================================================== *)
(** * enhanced_main: the document routes *)
(* ===================================================================== *)

Module enhanced_main.

Record StudentData := {
  student_name : pystr;
  roll_number : pystr;
  course : pystr;
  department : pystr;
  year_of_study : pystr;
  admission_date : pystr;
  email : option pystr;
  phone : option pystr;
  purpose : pystr
}.

Record DocumentRequest := {
  university_code : pystr;
  document_type : pystr;
  student_data : StudentData
}.

Record DocumentResponse := {
  success : bool;
  filename : pystr;
  download_url : pystr;
  message : pystr;
  generated_at : pystr
}.

(** One element of the list returned by [list_documents]. *)
Record document_entry := {
  entry_filename : pystr;
  entry_size : N;
  entry_created_at : pystr;
  entry_download_url : pystr
}.

(** The dictionary that [generate_document] hands to the generator. *)
Definition student_dict (s : StudentData) : gmap pystr pystr :=
  list_to_map
    [ (py "student_name", student_name s);
      (py "roll_number", roll_number s);
      (py "course", course s);
      (py "department", department s);
      (py "admission_date", admission_date s);
      (py "purpose", purpose s) ].

(** POST /generate-document *)
Definition generate_document (request : DocumentRequest) : M DocumentResponse :=
  try_except
    (if negb (bool_decide (is_Some (universities !! university_code request)))
     then raise (HTTPException 400
                   (py "Invalid university code: " ++ university_code request))
     else if negb (bool_decide
                     (is_Some (document_templates !! document_type request)))
     then raise (HTTPException 400
                   (py "Invalid document type: " ++ document_type request))
     else
       let student_data := student_dict (student_data request) in
       let* result :=
         EnhancedDocumentGenerator.generate_and_save
           (university_code request) (document_type request) student_data
           EnhancedDocumentGenerator.default_output_dir in
       let* now := datetime_now in
       ret {| success := EnhancedDocumentGenerator.success result;
              filename := EnhancedDocumentGenerator.filename result;
              download_url := EnhancedDocumentGenerator.download_url result;
              message := EnhancedDocumentGenerator.message result;
              generated_at := isoformat now |})
    (fun e =>
       raise (HTTPException 500 (py "Error generating document: " ++ str_exn e))).

(** The body of the loop of [list_documents]. *)
Definition list_step (generated_dir : pystr) (documents : list document_entry)
    (filename : pystr) : M (list document_entry) :=
  if endswith filename (py ".docx") then
    let file_path := os_path_join generated_dir filename in
    let* file_stat := os_stat file_path in
    let* f := gets fromtimestamp in
    ret (documents ++
         [ {| entry_filename := filename;
              entry_size := st_size file_stat;
              entry_created_at := isoformat (f (st_ctime file_stat));
              entry_download_url := py "/download/" ++ filename |} ])
  else ret documents.

(** GET /documents *)
Definition list_documents : M (list document_entry) :=
  try_except
    (let generated_dir := py "generated" in
     let* present := os_path_exists generated_dir in
     if negb present then ret []
     else
       let* names := os_listdir generated_dir in
       let* documents := for_each names (list_step generated_dir) [] in
       ret (sort_reverse entry_created_at documents))
    (fun e =>
       raise (HTTPException 500 (py "Error listing documents: " ++ str_exn e))).

(** DELETE /documents/{filename} *)
Definition delete_document (filename : pystr) : M pystr :=
  try_except
    (let file_path := os_path_join (py "generated") filename in
     let* present := os_path_exists file_path in
     if negb present then raise (HTTPException 404 (py "Document not found"))
     else
       let* _ := os_remove file_path in
       ret (py "Document " ++ filename ++ py " deleted successfully"))
    (fun e =>
       match e with
       | HTTPException _ _ => raise e
       | _ => raise (HTTPException 500
                       (py "Error deleting document: " ++ str_exn e))
       end).

(** GET /download/{filename}: the response names the file to send. *)
Record FileResponse := {
  path : pystr;
  response_filename : pystr;
  media_type : pystr
}.

Definition download_document (filename : pystr) : M FileResponse :=
  try_except
    (let file_path := os_path_join (py "generated") filename in
     let* present := os_path_exists file_path in
     if negb present then raise (HTTPException 404 (py "Document not found"))
     else
       ret {| path := file_path;
              response_filename := filename;
              media_type :=
                py "application/vnd.openxmlformats-officedocument.wordprocessingml.document" |})
    (fun e =>
       match e with
       | HTTPException _ _ => raise e
       | _ => raise (HTTPException 500
                       (py "Error downloading document: " ++ str_exn e))
       end).

(** POST /validate-request *)
Record validation := {
  valid : bool;
  errors : list pystr
}.

Definition validate_document_request (request : DocumentRequest) : validation :=
  let errors := [] in
  let errors :=
    if negb (bool_decide (is_Some (universities !! university_code request)))
    then errors ++ [py "Invalid university code: " ++ university_code request]
    else errors in
  let errors :=
    if negb (bool_decide (is_Some (document_templates !! document_type request)))
    then errors ++ [py "Invalid document type: " ++ document_type request]
    else errors in
  let errors :=
    if bool_decide (strip (student_name (student_data request)) = [])
    then errors ++ [py "Student name is required"] else errors in
  let errors :=
    if bool_decide (strip (roll_number (student_data request)) = [])
    then errors ++ [py "Roll number is required"] else errors in
  let errors :=
    if bool_decide (course (student_data request) = [])
    then errors ++ [py "Course is required"] else errors in
  let errors :=
    if bool_decide (department (student_data request) = [])
    then errors ++ [py "Department is required"] else errors in
  let errors :=
    if bool_decide (admission_date (student_data request) = [])
    then errors ++ [py "Admission date is required"] else errors in
  let errors :=
    if bool_decide (strip (purpose (student_data request)) = [])
    then errors ++ [py "Purpose is required"] else errors in
  let errors :=
    match email (student_data request) with
    | Some e =>
        if negb (bool_decide (e = [])) && negb (contains e (py "@"))
        then errors ++ [py "Invalid email format"] else errors
    | None => errors
    end in
  {| valid := Nat.eqb (length errors) 0; errors := errors |}.

(** GET /system-info.  The two dictionaries are gone through in the order
    in which their literals list the keys. *)
Record UniversityInfo := {
  info_code : pystr;
  info_name : pystr;
  info_address : pystr;
  info_phone : pystr;
  info_website : pystr
}.

Record DocumentTypeInfo := {
  value : pystr;
  label : pystr;
  description : pystr
}.

Record SystemInfo := {
  info_universities : list UniversityInfo;
  info_document_types : list DocumentTypeInfo;
  info_courses : list pystr;
  info_departments : list pystr;
  info_year_options : list pystr
}.

Definition SAMPLE_COURSES : list pystr :=
  [ py "Bachelor of Science (B.Sc.)";
    py "Bachelor of Arts (B.A.)";
    py "Bachelor of Engineering (B.E.)";
    py "Bachelor of Technology (B.Tech)";
    py "Bachelor of Business Administration (B.B.A.)";
    py "Master of Science (M.Sc.)";
    py "Master of Arts (M.A.)";
    py "Master of Engineering (M.E.)";
    py "Master of Technology (M.Tech)";
    py "Master of Business Administration (M.B.A.)";
    py "Doctor of Philosophy (Ph.D.)";
    py "Bachelor of Medicine (M.B.B.S.)";
    py "Bachelor of Laws (L.L.B.)";
    py "Master of Laws (L.L.M.)" ].

Definition SAMPLE_DEPARTMENTS : list pystr :=
  [ py "Computer Science";
    py "Electrical Engineering";
    py "Mechanical Engineering";
    py "Civil Engineering";
    py "Chemical Engineering";
    py "Biotechnology";
    py "Mathematics";
    py "Physics";
    py "Chemistry";
    py "Biology";
    py "Economics";
    py "Business Administration";
    py "Law";
    py "Medicine";
    py "Arts and Humanities";
    py "Social Sciences" ].

Definition SAMPLE_YEAR_OPTIONS : list pystr :=
  [ py "1st Year"; py "2nd Year"; py "3rd Year"; py "4th Year"; py "5th Year";
    py "6th Year" ].

Definition get_system_info : SystemInfo :=
  {| info_universities :=
       map (fun '(code, Build_university name address phone website _) =>
              {| info_code := code;
                 info_name := name;
                 info_address := address;
                 info_phone := phone;
                 info_website := website |})
           university_table;
     info_document_types :=
       map (fun '(value, data) =>
              {| value := value;
                 label := str_title (replace (title data) (py "_") (py " "));
                 description :=
                   py "Generate " ++ lower (title data) ++ py " for students" |})
           template_table;
     info_courses := SAMPLE_COURSES;
     info_departments := SAMPLE_DEPARTMENTS;
     info_year_options := SAMPLE_YEAR_OPTIONS |}.

End enhanced_main.

(* ===================================================================== *)
(** * A sample world *)
(* ===================================================================== *)

(** Local time as UTC: the civil date of a count of microseconds since the
    epoch (the days are converted by eras of 400 years). *)
Definition utc_fromtimestamp (t : Z) : datetime :=
  let us := (t mod 1000000)%Z in
  let s := (t / 1000000)%Z in
  let sod := (s mod 86400)%Z in
  let z := (s / 86400 + 719468)%Z in
  let era := (z / 146097)%Z in
  let doe := (z - era * 146097)%Z in
  let yoe := ((doe - doe / 1460 + doe / 36524 - doe / 146096) / 365)%Z in
  let doy := (doe - (365 * yoe + yoe / 4 - yoe / 100))%Z in
  let mp := ((5 * doy + 2) / 153)%Z in
  let d := (doy - (153 * mp + 2) / 5 + 1)%Z in
  let m := (if Z.ltb mp 10 then mp + 3 else mp - 9)%Z in
  let y := (yoe + era * 400 + (if Z.leb m 2 then 1 else 0))%Z in
  {| year := Z.to_N y; month := Z.to_N m; day := Z.to_N d;
     hour := Z.to_N (sod / 3600); minute := Z.to_N (sod mod 3600 / 60);
     second := Z.to_N (sod mod 60); microsecond := Z.to_N us |}.

(** A world with an empty root directory as working directory, whose clock
    starts on 2025-03-04 at 10:20:30 and advances by one second and a half
    at each reading. *)
Definition sample_world : world :=
  {| files := {[ [] := Directory {| st_size := 4096; st_ctime := 0 |} ]};
     cwd := [];
     clock := fun n => (1741083630000000 + 1500000 * Z.of_nat n)%Z;
     ticks := 0;
     urandom := fun n => (0x3f2a9c417be84d0fa1b2c3d4e5f60718 + Z.of_nat n)%Z;
     draws := 0;
     local_time := utc_fromtimestamp;
     package_size := fun doc => (36000 + N.of_nat (length (flat_map paragraph_text (paragraphs doc))))%N;
     directory_size := 4096 |}.

Definition sample_student : gmap pystr pystr :=
  list_to_map
    [ (py "student_name", py "John Smith");
      (py "roll_number", py "CS2024001");
      (py "course", py "Bachelor of Science (B.Sc.)");
      (py "department", py "Computer Science");
      (py "admission_date", py "2023-08-15");
      (py "purpose", py "Internship application") ].

(** A content store that holds two documents and a file that is none. *)
Definition sample_store : world :=
  with_files
    (list_to_map
       [ ([], Directory {| st_size := 4096; st_ctime := 0 |});
         ([py "generated"], Directory {| st_size := 4096; st_ctime := 5 |});
         ([py "generated"; py "a.docx"],
          File {| st_size := 36711; st_ctime := 1741083630000000 |} None);
         ([py "generated"; py "notes.txt"],
          File {| st_size := 12; st_ctime := 1741083631000000 |} None);
         ([py "generated"; py "b.docx"],
          File {| st_size := 36802; st_ctime := 1741083632500000 |} None) ])
    sample_world.

(* ===================================================================== *)
(** * Vocabulary of the properties *)
(* ===================================================================== *)

(** Every space and every forward slash replaced by an underscore. *)
Definition sanitize (s : pystr) : pystr :=
  map (fun c => if N.eqb c (ord " ") || N.eqb c (ord "/") then ord "_" else c) s.

Definition is_hex (c : N) : bool :=
  is_digit c || (N.leb 97 c && N.leb c 102)%N.

(** The shape YYYYMMDD_HHMMSS. *)
Definition timestamp_form (s : pystr) : bool :=
  bool_decide (length s = 15) && forallb is_digit (firstn 8 s) &&
  bool_decide (s !! 8 = Some (ord "_")) && forallb is_digit (skipn 9 s).

Definition known_university_codes : list pystr :=
  [py "harvard"; py "stanford"; py "mit"; py "generic"].

Definition known_document_types : list pystr :=
  [py "bonafide"; py "noc"; py "character"; py "transfer"; py "fee_structure";
   py "transcript"].

Definition required_fields : list pystr :=
  [py "student_name"; py "roll_number"; py "course"; py "department";
   py "admission_date"; py "purpose"].

Definition optional_fields : list pystr :=
  [py "email"; py "phone"; py "year_of_study"].

(** A template body seen as text interleaved with placeholder tokens. *)
Inductive token :=
| Text (s : pystr)
| Placeholder (field : pystr).

(** The template text that a list of tokens stands for. *)
Definition print_token (t : token) : pystr :=
  match t with
  | Text s => s
  | Placeholder f => py "{" ++ f ++ py "}"
  end.

Definition print_tokens (ts : list token) : pystr := flat_map print_token ts.

Definition is_brace (c : N) : bool := N.eqb c (ord "{") || N.eqb c (ord "}").

(** The texts hold no brace, and the placeholders are plain names. *)
Definition token_ok (t : token) : bool :=
  match t with
  | Text s => forallb (fun c => negb (is_brace c)) s
  | Placeholder f =>
      forallb (fun c => negb (is_brace c) && negb (field_special c)) f &&
      negb (forallb is_digit f)
  end.

(** The value that takes the place of a placeholder: the field of the
    student record, the student name behind the honorific. *)
Definition placeholder_value (student_data : gmap pystr pystr) (field : pystr)
    : option pystr :=
  if bool_decide (field = py "student_name")
  then app (py "Mr./Ms. ") <$> student_data !! field
  else student_data !! field.

Definition substitute_token (student_data : gmap pystr pystr) (t : token) : pystr :=
  match t with
  | Text s => s
  | Placeholder f => default [] (placeholder_value student_data f)
  end.

Definition substitute (ts : list token) (student_data : gmap pystr pystr) : pystr :=
  flat_map (substitute_token student_data) ts.

(** The bodies of the six templates, read as text and placeholders. *)
Definition template_tokens : list (pystr * list token) :=
  [
    (py "bonafide",
     [ Text (py "This is to certify that ");
       Placeholder (py "student_name");
       Text (py ", Roll No: ");
       Placeholder (py "roll_number");
       Text (py ", is a bonafide student of this institution. He/She has been studying in this institution since ");
       Placeholder (py "admission_date");
       Text (py " in the ");
       Placeholder (py "course");
       Text (py " program in the Department of ");
       Placeholder (py "department");
       Text (py ". This certificate is issued for the purpose of ");
       Placeholder (py "purpose");
       Text (py ".") ]);
    (py "noc",
     [ Text (py "This is to certify that we have no objection to ");
       Placeholder (py "student_name");
       Text (py ", Roll No: ");
       Placeholder (py "roll_number");
       Text (py ", a student of ");
       Placeholder (py "course");
       Text (py " program in the Department of ");
       Placeholder (py "department");
       Text (py ", for ");
       Placeholder (py "purpose");
       Text (py ". The student is in good academic standing and has no disciplinary issues.") ]);
    (py "character",
     [ Text (py "This is to certify that ");
       Placeholder (py "student_name");
       Text (py ", Roll No: ");
       Placeholder (py "roll_number");
       Text (py ", is a student of ");
       Placeholder (py "course");
       Text (py " program in the Department of ");
       Placeholder (py "department");
       Text (py ". During his/her stay in this institution, his/her character and conduct have been found to be satisfactory. This certificate is issued for ");
       Placeholder (py "purpose");
       Text (py ".") ]);
    (py "transfer",
     [ Text (py "This is to certify that ");
       Placeholder (py "student_name");
       Text (py ", Roll No: ");
       Placeholder (py "roll_number");
       Text (py ", was a student of this institution from ");
       Placeholder (py "admission_date");
       Text (py " studying ");
       Placeholder (py "course");
       Text (py " in the Department of ");
       Placeholder (py "department");
       Text (py ". He/She is now seeking transfer for ");
       Placeholder (py "purpose");
       Text (py ". His/Her character and conduct during the stay were satisfactory.") ]);
    (py "fee_structure",
     [ Text (py "This letter provides the official fee structure for ");
       Placeholder (py "student_name");
       Text (py ", Roll No: ");
       Placeholder (py "roll_number");
       Text (py ", enrolled in ");
       Placeholder (py "course");
       Text (py " program in the Department of ");
       Placeholder (py "department");
       Text (py ". This information is provided for ");
       Placeholder (py "purpose");
       Text (py ". Please contact the finance office for detailed fee breakdown.") ]);
    (py "transcript",
     [ Text (py "This acknowledges the request for official academic transcripts for ");
       Placeholder (py "student_name");
       Text (py ", Roll No: ");
       Placeholder (py "roll_number");
       Text (py ", enrolled in ");
       Placeholder (py "course");
       Text (py " program in the Department of ");
       Placeholder (py "department");
       Text (py ". The transcripts are requested for ");
       Placeholder (py "purpose");
       Text (py ". Official transcripts will be processed within 5-7 business days.") ]) ].

Definition body_tokens : gmap pystr (list token) := list_to_map template_tokens.

Definition placeholders (ts : list token) : list pystr :=
  omap (fun t => match t with Placeholder f => Some f | Text _ => None end) ts.

(** The two readings that [generate_unique_filename] takes from a world. *)
Definition timestamp_of (w : world) : pystr :=
  strftime (fromtimestamp w (clock w (ticks w))) (py "%Y%m%d_%H%M%S").

Definition unique_id_of (w : world) : pystr :=
  firstn 8 (str_uuid (UUID_version4 (urandom w (draws w)))).

(** The first required field that a student record lacks. *)
Definition first_missing (student_data : gmap pystr pystr) : option pystr :=
  List.find (fun f => bool_decide (student_data !! f = None)) required_fields.

(** The title and body paragraphs as the generator formats them. *)
Definition title_paragraph (text : pystr) : paragraph :=
  paragraph_of (Some CENTER) text
    (set_underline true
       (set_name (py "Times New Roman")
          (set_bold true (set_size (Pt 20) plain_font)))).

Definition body_paragraph (text : pystr) : paragraph :=
  paragraph_of (Some JUSTIFY) text
    (set_name (py "Times New Roman") (set_size (Pt 12) plain_font)).

(** A text that lxml takes: it holds no surrogate and no character that
    XML cannot hold. *)
Definition xml_compatible (s : pystr) : bool :=
  forallb (fun c => xml_char c && negb (is_surrogate c)) s.

(** A path that [open] takes as a name: it can be encoded, holds no null
    character, is shorter than [PATH_MAX] bytes, and none of its
    components is longer than [NAME_MAX] bytes. *)
Definition openable (path : pystr) : bool :=
  negb (existsb (fun c => is_surrogate c && negb (is_escaped c)) path) &&
  negb (existsb (N.eqb 0) path) &&
  Nat.ltb (fs_size path) PATH_MAX &&
  forallb (fun c => Nat.leb (fs_size c) NAME_MAX) (split_on (ord "/") path).

(** The longest student name for which the title and the comment of the
    core properties stay within 255 characters: the comment is the name
    and 37 characters more. *)
Definition longest_name : nat := 218.

(** The document that [generate_document] composes: for the university
    [u], the template [tpl], the type code [dt], the student name [n] and
    the body text [body], with the date [date] in the footer and the time
    [stamp] in the comment. *)
Definition composed_document (u : university) (tpl : document_template)
    (dt n body : pystr) (date stamp : datetime) : document :=
  let tnr := py "Times New Roman" in
  {| sections :=
       [ {| top_margin := Some (Inches 1); bottom_margin := Some (Inches 1);
            left_margin := Some (Inches 1); right_margin := Some (Inches 1);
            header_paragraphs :=
              [ paragraph_of (Some CENTER) (py "OFFICIAL DOCUMENT")
                  (set_name (py "Arial")
                     (set_color_rgb None (set_size (Pt 60) plain_font))) ] |} ];
     paragraphs :=
       [ paragraph_of (Some CENTER) (py "[" ++ name u ++ py " LOGO]")
           (set_color_rgb None (set_bold true (set_size (Pt 14) plain_font)));
         paragraph_of (Some CENTER) (upper (name u))
           (set_name tnr (set_bold true (set_size (Pt 24) plain_font)));
         paragraph_of (Some CENTER) (py "Office of the Registrar")
           (set_name tnr (set_size (Pt 16) plain_font));
         paragraph_of (Some CENTER)
           (address u ++ [10%N] ++ py "Tel: " ++ phone u)
           (set_name tnr (set_size (Pt 12) plain_font));
         paragraph_of None (repeat (ord "_") 80) plain_font;
         blank;
         title_paragraph (title tpl);
         blank;
         body_paragraph body;
         blank;
         paragraph_of (Some LEFT)
           (py "Date: " ++ strftime date (py "%B %d, %Y"))
           (set_name tnr (set_size (Pt 12) plain_font));
         paragraph_of (Some LEFT) (py "Place: " ++ name u)
           (set_name tnr (set_size (Pt 12) plain_font));
         blank;
         paragraph_of (Some RIGHT) (repeat (ord "_") 40)
           (set_name tnr (set_size (Pt 12) plain_font));
         paragraph_of (Some RIGHT) (py "Registrar")
           (set_name tnr (set_bold true (set_size (Pt 12) plain_font)));
         paragraph_of (Some RIGHT) (name u)
           (set_name tnr (set_size (Pt 10) plain_font)) ];
     core :=
       Some {| cp_title := str_title dt ++ py " - " ++ n;
               cp_subject := py "University Document: " ++ dt;
               cp_author := py "University Registrar Office";
               cp_comments :=
                 py "Generated for " ++ n ++ py " on " ++
                 strftime stamp (py "%Y-%m-%d %H:%M:%S") |} |}.

(** A character that is neither the path separator nor a space. *)
Definition separator_free (c : N) : bool :=
  negb (N.eqb c (ord "/")) && negb (N.eqb c (ord " ")).

(** A component of a path that names an entry of a directory. *)
Definition plain (c : pystr) : bool :=
  negb (bool_decide (c = [])) && negb (bool_decide (c = py ".")) &&
  negb (bool_decide (c = py "..")) && forallb (fun x => negb (N.eqb x (ord "/"))) c.

(** The names of a file system are made of plain components. *)
Definition plain_names (w : world) : Prop :=
  forall p i, files w !! p = Some i -> Forall (fun c => plain c = true) p.

(** The directory of the content store of the routes, and what it holds
    under an entry name. *)
Definition stored (w : world) (entry : pystr) : option inode :=
  match resolve w (py "generated") with
  | inr t => if is_directory (files w !! t) then files w !! (t ++ [entry]) else None
  | inl _ => None
  end.

Definition is_docx (entry : pystr) : bool := endswith entry (py ".docx").

(** The record of the listing for the entry [c] of the directory [t]. *)
Definition entry_of (w : world) (t : list pystr) (c : pystr)
    : enhanced_main.document_entry :=
  let st := from_option inode_stat {| st_size := 0; st_ctime := 0 |}
              (files w !! (t ++ [c])) in
  {| enhanced_main.entry_filename := c;
     enhanced_main.entry_size := st_size st;
     enhanced_main.entry_created_at := isoformat (fromtimestamp w (st_ctime st));
     enhanced_main.entry_download_url := py "/download/" ++ c |}.


(** The sample world after the certificate of the sample student was
    generated and saved, and what [generate_and_save] returned. *)
Definition sample_saved : outcome EnhancedDocumentGenerator.result * world :=
  EnhancedDocumentGenerator.generate_and_save (py "harvard") (py "bonafide")
    sample_student EnhancedDocumentGenerator.default_output_dir sample_world.

Definition sample_result : EnhancedDocumentGenerator.result :=
  Eval vm_compute in
    match fst sample_saved with
    | Return r => r
    | Raise _ =>
        {| EnhancedDocumentGenerator.success := false;
           EnhancedDocumentGenerator.filename := [];
           EnhancedDocumentGenerator.file_path := [];
           EnhancedDocumentGenerator.download_url := [];
           EnhancedDocumentGenerator.message := [] |}
    end.

(** [d1 < d2] on datetimes: the earlier one, field by field. *)
Definition datetime_ltb (d1 d2 : datetime) : bool :=
  (N.ltb (year d1) (year d2) || N.eqb (year d1) (year d2) &&
  (N.ltb (month d1) (month d2) || N.eqb (month d1) (month d2) &&
  (N.ltb (day d1) (day d2) || N.eqb (day d1) (day d2) &&
  (N.ltb (hour d1) (hour d2) || N.eqb (hour d1) (hour d2) &&
  (N.ltb (minute d1) (minute d2) || N.eqb (minute d1) (minute d2) &&
  (N.ltb (second d1) (second d2) || N.eqb (second d1) (second d2) &&
   N.ltb (microsecond d1) (microsecond d2)))))))%N.

(** The number that a string of decimal digits stands for. *)
Fixpoint decimal_value (s : pystr) : N :=
  match s with
  | [] => 0
  | c :: s' => ((c - 48) * 10 ^ N.of_nat (length s') + decimal_value s')%N
  end.

(** The local time at which an entry of the store was last changed. *)
Definition entry_datetime (w : world) (i : inode) : datetime :=
  fromtimestamp w (st_ctime (inode_stat i)).

(** The order of [l.sort(reverse=True)]: no element has a smaller key than
    one that follows it. *)
Definition descending {A} (key : A -> pystr) (l : list A) : Prop :=
  StronglySorted (fun a b => str_ltb (key a) (key b) = false) l.

(** What a listing of the store of the world [w] is: its records are in
    descending order of their creation strings; there is one record for
    each entry of the store whose name ends in ".docx", and no other;
    each record carries the size of its entry and the ISO form of the
    local time of its last change; and, when the local-time rule yields
    datetimes that are valid, no record is followed by one of a later
    time. *)
Definition listing_of (w : world) (docs : list enhanced_main.document_entry)
    : Prop :=
  descending enhanced_main.entry_created_at docs /\
  NoDup (map enhanced_main.entry_filename docs) /\
  (forall entry,
     In entry (map enhanced_main.entry_filename docs) <->
     is_docx entry = true /\ is_Some (stored w entry)) /\
  Forall (fun e =>
            exists i,
              stored w (enhanced_main.entry_filename e) = Some i /\
              enhanced_main.entry_size e = st_size (inode_stat i) /\
              enhanced_main.entry_created_at e = isoformat (entry_datetime w i))
    docs /\
  ((forall t, valid_datetime (fromtimestamp w t)) ->
   StronglySorted
     (fun e1 e2 =>
        forall i1 i2,
          stored w (enhanced_main.entry_filename e1) = Some i1 ->
          stored w (enhanced_main.entry_filename e2) = Some i2 ->
          datetime_ltb (entry_datetime w i1) (entry_datetime w i2) = false)
     docs).

(** Two requests of the sample students that differ in the optional
    fields only are instances of [sample_request]. *)
Definition sample_request (email phone : option pystr) (year : pystr)
    : enhanced_main.DocumentRequest :=
  {| enhanced_main.university_code := py "mit";
     enhanced_main.document_type := py "transcript";
     enhanced_main.student_data :=
       {| enhanced_main.student_name := py "Sarah Johnson";
          enhanced_main.roll_number := py "EE2024002";
          enhanced_main.course := py "Bachelor of Engineering (B.E.)";
          enhanced_main.department := py "Electrical Engineering";
          enhanced_main.year_of_study := year;
          enhanced_main.admission_date := py "2022-09-01";
          enhanced_main.email := email;
          enhanced_main.phone := phone;
          enhanced_main.purpose := py "Study abroad program" |} |}.

(** One step of a computation whose binds are laid open. *)
Ltac run_binds := cbv beta iota zeta delta [bind lift ret outcome_bind].

(** A list of a known length is taken apart into its elements. *)
Ltac list_of_length l H :=
  repeat (destruct l as [|? l]; [discriminate H|]);
  destruct l; [|discriminate H].

(** The transfer certificate of the sample student, composed in the
    sample world, and the name proposed for its file. *)
Definition sample_composed : outcome (document * pystr) * world :=
  EnhancedDocumentGenerator.generate_document (py "stanford") (py "transfer")
    sample_student sample_world.

Definition sample_document : document * pystr :=
  Eval vm_compute in
    match fst sample_composed with
    | Return r => r
    | Raise _ => (Document, [])
    end.

(** The part of a file name that comes from the arguments of
    [generate_unique_filename]. *)
Definition stem (document_type student_name purpose : pystr) : pystr :=
  document_type ++ py "_" ++ sanitize student_name ++ py "_" ++
  firstn 20 (sanitize purpose).

(** A world in which the name of the content store is taken by a regular
    file. *)
Definition sample_blocked : world :=
  with_files
    (list_to_map
       [ ([], Directory {| st_size := 4096; st_ctime := 0 |});
         ([py "generated"], File {| st_size := 7; st_ctime := 5 |} None) ])
    sample_world.

(** The sample request served in the sample world, and its response. *)
Definition sample_served : outcome enhanced_main.DocumentResponse * world :=
  enhanced_main.generate_document (sample_request None None (py "1st Year"))
    sample_world.

Definition sample_response : enhanced_main.DocumentResponse :=
  Eval vm_compute in
    match fst sample_served with
    | Return r => r
    | Raise _ =>
        {| enhanced_main.success := false;
           enhanced_main.filename := [];
           enhanced_main.download_url := [];
           enhanced_main.message := [];
           enhanced_main.generated_at := [] |}
    end.

(** A request for a university that the table does not have. *)
Definition unknown_request : enhanced_main.DocumentRequest :=
  {| enhanced_main.university_code := py "oxford";
     enhanced_main.document_type := py "bonafide";
     enhanced_main.student_data :=
       enhanced_main.student_data (sample_request None None (py "1st Year")) |}.

(** A string of white space only, the empty string included. *)
Definition blank_string (s : pystr) : bool := forallb is_space s.

(** The complaints of the validation that are about the student fields. *)
Definition field_messages : list pystr :=
  [ py "Student name is required"; py "Roll number is required";
    py "Course is required"; py "Department is required";
    py "Admission date is required"; py "Purpose is required";
    py "Invalid email format" ].

(** A request of known codes whose student name is white space. *)
Definition blank_request : enhanced_main.DocumentRequest :=
  {| enhanced_main.university_code := py "mit";
     enhanced_main.document_type := py "noc";
     enhanced_main.student_data :=
       {| enhanced_main.student_name := py "   ";
          enhanced_main.roll_number := py "EE2024002";
          enhanced_main.course := py "Bachelor of Engineering (B.E.)";
          enhanced_main.department := py "Electrical Engineering";
          enhanced_main.year_of_study := py "3rd Year";
          enhanced_main.admission_date := py "2022-09-01";
          enhanced_main.email := Some (py "sarah.johnson");
          enhanced_main.phone := None;
          enhanced_main.purpose := py "Study abroad program" |} |}.

(** The sample student with a vertical tab in the name. *)
Definition sample_student_control : gmap pystr pystr :=
  <[py "student_name" := py "John" ++ [11%N] ++ py "Smith"]> sample_student.

(* ===================================================================== *)
(** * Running computations *)
(* ===================================================================== *)

Lemma bind_Return {A B} (m : M A) (k : A -> M B) (w w' : world) (a : A) :
  m w = (Return a, w') -> bind m k w = k a w'.
Proof. intros H. unfold bind. now rewrite H. Qed.

Lemma bind_Raise {A B} (m : M A) (k : A -> M B) (w w' : world) (e : exn) :
  m w = (Raise e, w') -> bind m k w = (Raise e, w').
Proof. intros H. unfold bind. now rewrite H. Qed.

(** A computation that returns through [bind] returned in its first part. *)
Lemma bind_inv {A B} (m : M A) (k : A -> M B) (w w' : world) (b : B) :
  bind m k w = (Return b, w') ->
  exists a w1, m w = (Return a, w1) /\ k a w1 = (Return b, w').
Proof.
  unfold bind. destruct (m w) as [[a|e] w1]; [eauto | discriminate].
Qed.

(** A computation that is seen to return, with the world it leaves. *)
Lemma run_Return {A} (m : M A) (w : world) (a : A) :
  fst (m w) = Return a -> m w = (Return a, snd (m w)).
Proof. destruct (m w); cbn; congruence. Qed.

Lemma try_except_Return {A} (m : M A) (h : exn -> M A) (w w' : world) (a : A) :
  m w = (Return a, w') -> try_except m h w = (Return a, w').
Proof. intros H. unfold try_except. now rewrite H. Qed.

Lemma try_except_Raise {A} (m : M A) (h : exn -> M A) (w w' : world) (e : exn) :
  m w = (Raise e, w') -> try_except m h w = h e w'.
Proof. intros H. unfold try_except. now rewrite H. Qed.

(* ===================================================================== *)
(** * Strings: replacement, prefixes and suffixes *)
(* ===================================================================== *)

Lemma replace_char (s : pystr) (a b : N) :
  replace s [a] [b] = map (fun c => if N.eqb c a then b else c) s.
Proof.
  unfold replace.
  induction s as [|c s IH]; [reflexivity|].
  cbn [replace_from startswith length map Nat.sub app].
  rewrite andb_true_r.
  destruct (N.eqb c a); cbn [app]; now rewrite IH.
Qed.

Lemma replace_twice_sanitize (s : pystr) :
  replace (replace s (py " ") (py "_")) (py "/") (py "_") = sanitize s.
Proof.
  change (py " ") with [ord " "]. change (py "/") with [ord "/"].
  change (py "_") with [ord "_"].
  rewrite !replace_char, map_map.
  unfold sanitize. apply map_ext. intros c.
  destruct (N.eqb c (ord " ")) eqn:E; [reflexivity|].
  cbn [orb]. reflexivity.
Qed.

Lemma sanitize_length (s : pystr) : length (sanitize s) = length s.
Proof. unfold sanitize. apply length_map. Qed.

Lemma sanitize_clean (s : pystr) :
  Forall (fun c => c <> ord " " /\ c <> ord "/") (sanitize s).
Proof.
  unfold sanitize. apply Forall_map, Forall_forall. intros c _. cbn beta.
  destruct (N.eqb c (ord " ")) eqn:E1; cbn [orb].
  - split; discriminate.
  - destruct (N.eqb c (ord "/")) eqn:E2.
    + split; discriminate.
    + apply N.eqb_neq in E1, E2. now split.
Qed.

Lemma startswith_app (p s : pystr) : startswith (p ++ s) p = true.
Proof.
  induction p as [|c p IH]; cbn; [reflexivity|].
  now rewrite N.eqb_refl, IH.
Qed.

Lemma endswith_app (s p : pystr) : endswith (s ++ p) p = true.
Proof. unfold endswith. rewrite rev_app_distr. apply startswith_app. Qed.

Lemma startswith_prefix (s p : pystr) :
  startswith s p = true <-> exists r, s = p ++ r.
Proof.
  revert s. induction p as [|c p IH]; intros s; cbn.
  - split; eauto.
  - destruct s as [|x s]; [split; [discriminate | intros [r Hr]; discriminate]|].
    rewrite andb_true_iff, N.eqb_eq, IH. split.
    + intros [-> [r ->]]. now exists r.
    + intros [r Hr]. injection Hr as -> ->. split; eauto.
Qed.

Lemma endswith_suffix (s p : pystr) :
  endswith s p = true <-> exists r, s = r ++ p.
Proof.
  unfold endswith. rewrite startswith_prefix. split.
  - intros [r Hr]. exists (rev r).
    rewrite <- (rev_involutive s), Hr, rev_app_distr, rev_involutive. reflexivity.
  - intros [r ->]. exists (rev r). apply rev_app_distr.
Qed.

Lemma contains_elem (s : pystr) (c : N) :
  contains s [c] = true <-> In c s.
Proof.
  induction s as [|x s IH]; cbn.
  - split; [discriminate | tauto].
  - rewrite andb_true_r, orb_true_iff, IH, N.eqb_eq. split; intros [H|H]; auto.
Qed.

(* ===================================================================== *)
(** * Numbers in print *)
(* ===================================================================== *)

Lemma digits_from_chars (P : N -> Prop) (base : N) (fuel : nat) :
  (0 < base)%N ->
  (forall d, (d < base)%N -> P (digit_char d)) ->
  forall n acc, Forall P acc -> Forall P (digits_from base fuel n acc).
Proof.
  intros Hbase HP. induction fuel as [|fuel IH]; intros n acc Hacc; cbn; [assumption|].
  assert (Forall P (digit_char (n mod base) :: acc)) as Hacc'.
  { constructor; [|assumption]. apply HP, N.mod_lt. lia. }
  destruct (N.eqb (n / base) 0); [assumption|]. now apply IH.
Qed.

Lemma digits_from_length (base : N) (fuel : nat) :
  (1 < base)%N ->
  forall k n acc, (n < base ^ N.of_nat (S k))%N ->
    length (digits_from base fuel n acc) <= S k + length acc.
Proof.
  intros Hbase. induction fuel as [|fuel IH]; intros k n acc Hn; cbn; [lia|].
  destruct (N.eqb (n / base) 0) eqn:E; [cbn; lia|].
  apply N.eqb_neq in E.
  destruct k as [|k].
  - exfalso. apply E. apply N.div_small. change (N.of_nat 1) with 1%N in Hn.
    now rewrite N.pow_1_r in Hn.
  - specialize (IH k (n / base)%N (digit_char (n mod base) :: acc)).
    cbn [length] in IH. etransitivity; [apply IH|lia].
    apply N.Div0.div_lt_upper_bound.
    replace (N.of_nat (S (S k))) with (N.succ (N.of_nat (S k))) in Hn by lia.
    now rewrite N.pow_succ_r' in Hn.
Qed.

Lemma zero_fill_length (width : nat) (s : pystr) :
  length s <= width -> length (zero_fill width s) = width.
Proof. intros H. unfold zero_fill. rewrite length_app, repeat_length. lia. Qed.

Lemma zero_fill_chars (P : N -> Prop) (width : nat) (s : pystr) :
  P (ord "0") -> Forall P s -> Forall P (zero_fill width s).
Proof.
  intros H0 Hs. unfold zero_fill. apply Forall_app. split; [|assumption].
  apply Forall_forall. intros x Hx. apply list_elem_of_In, repeat_spec in Hx. now subst.
Qed.

Lemma fmt_0d_length (k : nat) (n : N) :
  (n < 10 ^ N.of_nat (S k))%N -> length (fmt_0d (S k) n) = S k.
Proof.
  intros Hn. unfold fmt_0d. apply zero_fill_length. unfold digits.
  etransitivity; [apply digits_from_length with (k := k); [lia|assumption]|].
  cbn [length]. lia.
Qed.

Lemma fmt_0d_digits (width : nat) (n : N) :
  Forall (fun c => is_digit c = true) (fmt_0d width n).
Proof.
  unfold fmt_0d, digits. apply zero_fill_chars; [reflexivity|].
  apply digits_from_chars with (base := 10%N); [lia| |constructor].
  intros d Hd. unfold digit_char, is_digit.
  destruct (N.ltb_spec d 10); [|lia].
  apply andb_true_iff. split; apply N.leb_le; lia.
Qed.

Lemma fmt_0x_length (k : nat) (n : N) :
  (n < 16 ^ N.of_nat (S k))%N -> length (fmt_0x (S k) n) = S k.
Proof.
  intros Hn. unfold fmt_0x. apply zero_fill_length. unfold digits.
  etransitivity; [apply digits_from_length with (k := k); [lia|assumption]|].
  cbn [length]. lia.
Qed.

Lemma fmt_0x_hex (width : nat) (n : N) :
  Forall (fun c => is_hex c = true) (fmt_0x width n).
Proof.
  unfold fmt_0x, digits. apply zero_fill_chars; [reflexivity|].
  apply digits_from_chars with (base := 16%N); [lia| |constructor].
  intros d Hd. unfold digit_char, is_hex, is_digit.
  destruct (N.ltb_spec d 10).
  - apply orb_true_iff. left. apply andb_true_iff. split; apply N.leb_le; lia.
  - apply orb_true_iff. right. apply andb_true_iff. split; apply N.leb_le; lia.
Qed.

(** The integer of a version-4 UUID has 128 bits. *)
Lemma UUID_version4_range (random : Z) :
  (0 <= UUID_version4 random < 2 ^ 128)%Z.
Proof.
  assert (UUID_version4 random = Z.land (UUID_version4 random) (Z.ones 128)) as H.
  { apply Z.bits_inj'. intros n Hn. rewrite Z.land_spec.
    destruct (Z.ltb_spec n 128) as [Hlt|Hge].
    - rewrite Z.ones_spec_low by lia. now rewrite andb_true_r.
    - rewrite Z.ones_spec_high by lia. rewrite andb_false_r.
      unfold UUID_version4. cbv zeta.
      repeat (rewrite Z.lor_spec || rewrite Z.land_spec).
      rewrite Z.mod_pow2_bits_high by lia.
      rewrite !Z.shiftl_spec by lia.
      rewrite (Z.bits_above_log2 0x8000) by (cbn; lia).
      rewrite (Z.bits_above_log2 4) by (cbn; lia).
      reflexivity. }
  rewrite H, Z.land_ones by lia. apply Z.mod_pos_bound. lia.
Qed.

Lemma str_uuid_first8 (u : Z) :
  (0 <= u < 2 ^ 128)%Z ->
  length (firstn 8 (str_uuid u)) = 8 /\
  Forall (fun c => is_hex c = true) (firstn 8 (str_uuid u)).
Proof.
  intros Hu. unfold str_uuid.
  assert (length (fmt_0x 32 (Z.to_N u)) = 32) as Hlen.
  { apply fmt_0x_length. change (16 ^ N.of_nat 32)%N with (Z.to_N (2 ^ 128)). lia. }
  assert (length (firstn 8 (fmt_0x 32 (Z.to_N u))) = 8) as H8.
  { rewrite length_firstn. lia. }
  cbv zeta.
  rewrite firstn_app, H8, Nat.sub_diag. cbn [firstn]. rewrite app_nil_r.
  rewrite firstn_firstn. cbn [Nat.min]. split; [assumption|].
  apply Forall_take, fmt_0x_hex.
Qed.

(* ===================================================================== *)
(** * The filename *)
(* ===================================================================== *)

Lemma generate_unique_filename_run (document_type student_name purpose : pystr)
    (w : world) :
  EnhancedDocumentGenerator.generate_unique_filename
    document_type student_name purpose w =
  (Return (document_type ++ py "_" ++ sanitize student_name ++ py "_" ++
           firstn 20 (sanitize purpose) ++ py "_" ++ timestamp_of w ++ py "_" ++
           unique_id_of w ++ py ".docx"),
   draw (tick w)).
Proof.
  unfold EnhancedDocumentGenerator.generate_unique_filename.
  rewrite !replace_twice_sanitize. reflexivity.
Qed.

Lemma timestamp_of_pieces (w : world) :
  let d := fromtimestamp w (clock w (ticks w)) in
  timestamp_of w =
  fmt_0d 4 (year d) ++ fmt_0d 2 (month d) ++ fmt_0d 2 (day d) ++ py "_" ++
  fmt_0d 2 (hour d) ++ fmt_0d 2 (minute d) ++ fmt_0d 2 (second d).
Proof.
  cbv zeta. unfold timestamp_of.
  set (d := fromtimestamp w (clock w (ticks w))).
  transitivity
    (fmt_0d 4 (year d) ++ fmt_0d 2 (month d) ++ fmt_0d 2 (day d) ++ py "_" ++
     fmt_0d 2 (hour d) ++ fmt_0d 2 (minute d) ++ fmt_0d 2 (second d) ++ []);
    [reflexivity | now rewrite app_nil_r].
Qed.

Lemma timestamp_of_chars (w : world) :
  Forall (fun c => is_digit c = true \/ c = ord "_") (timestamp_of w).
Proof.
  assert (forall width n,
             Forall (fun c => is_digit c = true \/ c = ord "_") (fmt_0d width n))
    as Hfmt.
  { intros width n. eapply Forall_impl; [apply fmt_0d_digits|].
    intros c Hc. now left. }
  rewrite timestamp_of_pieces. cbv zeta.
  do 3 (apply Forall_app; split; [apply Hfmt|]).
  constructor; [now right|].
  do 2 (apply Forall_app; split; [apply Hfmt|]).
  apply Hfmt.
Qed.

Lemma timestamp_of_form (w : world) :
  valid_datetime (fromtimestamp w (clock w (ticks w))) ->
  timestamp_form (timestamp_of w) = true.
Proof.
  intros (Hy & Hm & Hd & HH & HM & HS & _).
  rewrite timestamp_of_pieces. cbv zeta.
  set (d := fromtimestamp w (clock w (ticks w))) in *.
  pose proof (fmt_0d_length 3 (year d)) as Ly.
  pose proof (fmt_0d_length 1 (month d)) as Lm.
  pose proof (fmt_0d_length 1 (day d)) as Ld.
  pose proof (fmt_0d_length 1 (hour d)) as LH.
  pose proof (fmt_0d_length 1 (minute d)) as LM.
  pose proof (fmt_0d_length 1 (second d)) as LS.
  pose proof (fmt_0d_digits 4 (year d)) as Dy.
  pose proof (fmt_0d_digits 2 (month d)) as Dm.
  pose proof (fmt_0d_digits 2 (day d)) as Dd.
  pose proof (fmt_0d_digits 2 (hour d)) as DH.
  pose proof (fmt_0d_digits 2 (minute d)) as DM.
  pose proof (fmt_0d_digits 2 (second d)) as DS.
  specialize (Ly ltac:(cbn; lia)). specialize (Lm ltac:(cbn; lia)).
  specialize (Ld ltac:(cbn; lia)). specialize (LH ltac:(cbn; lia)).
  specialize (LM ltac:(cbn; lia)). specialize (LS ltac:(cbn; lia)).
  revert Ly Lm Ld LH LM LS Dy Dm Dd DH DM DS.
  generalize (fmt_0d 4 (year d)) (fmt_0d 2 (month d)) (fmt_0d 2 (day d))
    (fmt_0d 2 (hour d)) (fmt_0d 2 (minute d)) (fmt_0d 2 (second d)).
  intros ly lm ld lH lM lS Ly Lm Ld LH LM LS Dy Dm Dd DH DM DS.
  list_of_length ly Ly. list_of_length lm Lm. list_of_length ld Ld.
  list_of_length lH LH. list_of_length lM LM. list_of_length lS LS.
  repeat match goal with H : Forall _ (_ :: _) |- _ => inversion_clear H end.
  unfold timestamp_form. cbn.
  repeat match goal with H : is_digit _ = true |- _ => rewrite H; clear H end.
  reflexivity.
Qed.

Lemma unique_id_of_hex (w : world) :
  length (unique_id_of w) = 8 /\
  Forall (fun c => is_hex c = true) (unique_id_of w).
Proof. apply str_uuid_first8, UUID_version4_range. Qed.

(** C2.  For every document type, student name and purpose (the empty
    strings included: the function always returns), the name built by
    [generate_unique_filename] is
    [<type>_<name>_<purpose>_<YYYYMMDD_HHMMSS>_<id>.docx], in which the
    name and the purpose have every space and every forward slash replaced
    by an underscore, the purpose is cut to its first 20 characters, and
    the id is 8 hexadecimal characters. *)
Theorem generate_unique_filename_form
    (document_type student_name purpose : pystr) (w : world) :
  valid_datetime (fromtimestamp w (clock w (ticks w))) ->
  exists timestamp unique_id : pystr,
    EnhancedDocumentGenerator.generate_unique_filename
      document_type student_name purpose w =
    (Return (document_type ++ py "_" ++ sanitize student_name ++ py "_" ++
             firstn 20 (sanitize purpose) ++ py "_" ++ timestamp ++ py "_" ++
             unique_id ++ py ".docx"),
     draw (tick w)) /\
    length (firstn 20 (sanitize purpose)) <= 20 /\
    firstn 20 (sanitize purpose) = sanitize (firstn 20 purpose) /\
    timestamp_form timestamp = true /\
    length unique_id = 8 /\
    Forall (fun c => is_hex c = true) unique_id.
Proof.
  intros Hvalid. exists (timestamp_of w), (unique_id_of w).
  split; [apply generate_unique_filename_run|].
  split; [rewrite length_firstn; lia|].
  split; [unfold sanitize; now rewrite firstn_map|].
  split; [now apply timestamp_of_form|].
  apply unique_id_of_hex.
Qed.

Lemma generate_unique_filename_form_witness :
  valid_datetime
    (fromtimestamp sample_world (clock sample_world (ticks sample_world))) /\
  exists timestamp unique_id : pystr,
    EnhancedDocumentGenerator.generate_unique_filename
      (py "bonafide") [] [] sample_world =
    (Return (py "bonafide" ++ py "_" ++ sanitize [] ++ py "_" ++
             firstn 20 (sanitize []) ++ py "_" ++ timestamp ++ py "_" ++
             unique_id ++ py ".docx"),
     draw (tick sample_world)) /\
    length (firstn 20 (sanitize [])) <= 20 /\
    firstn 20 (sanitize []) = sanitize (firstn 20 []) /\
    timestamp_form timestamp = true /\
    length unique_id = 8 /\
    Forall (fun c => is_hex c = true) unique_id.
Proof.
  assert (valid_datetime
            (fromtimestamp sample_world (clock sample_world (ticks sample_world))))
    as H by (vm_compute; repeat split; discriminate).
  split; [exact H|].
  exact (generate_unique_filename_form (py "bonafide") [] [] sample_world H).
Defined.

Lemma separator_free_digit (c : N) :
  is_digit c = true \/ is_hex c = true \/ c = ord "_" -> separator_free c = true.
Proof.
  unfold is_hex, is_digit, separator_free.
  intros [H|[H|H]].
  - apply andb_true_iff in H as [H1 H2]. apply N.leb_le in H1.
    apply andb_true_iff; split; apply negb_true_iff, N.eqb_neq;
      change (ord "/") with 47%N; change (ord " ") with 32%N; lia.
  - apply orb_true_iff in H as [H|H]; apply andb_true_iff in H as [H1 H2];
      apply N.leb_le in H1;
      apply andb_true_iff; split; apply negb_true_iff, N.eqb_neq;
      change (ord "/") with 47%N; change (ord " ") with 32%N; lia.
  - now subst.
Qed.

Lemma separator_free_sanitize (s : pystr) :
  Forall (fun c => separator_free c = true) (sanitize s).
Proof.
  eapply Forall_impl; [apply sanitize_clean|].
  intros c [H1 H2]. unfold separator_free.
  apply andb_true_iff; split; now apply negb_true_iff, N.eqb_neq.
Qed.

Lemma separator_free_contains (s : pystr) :
  Forall (fun c => separator_free c = true) s ->
  contains s (py "/") = false /\ contains s (py " ") = false.
Proof.
  intros H. rewrite Forall_forall in H.
  split; apply not_true_is_false; intros Hc; apply contains_elem in Hc;
    apply list_elem_of_In, H in Hc; discriminate Hc.
Qed.

(** The characters of a filename built for a document type of the table. *)
Lemma filename_separator_free (document_type student_name purpose : pystr)
    (w w' : world) :
  In document_type known_document_types ->
  Forall (fun c => separator_free c = true)
    (document_type ++ py "_" ++ sanitize student_name ++ py "_" ++
     firstn 20 (sanitize purpose) ++ py "_" ++ timestamp_of w ++ py "_" ++
     unique_id_of w' ++ py ".docx").
Proof.
  intros Htype.
  assert (Forall (fun c => separator_free c = true) (py "_")) as Hsep
    by (repeat constructor).
  apply Forall_app; split.
  { cbn in Htype.
    repeat (destruct Htype as [<-|Htype]; [repeat constructor|]).
    destruct Htype. }
  apply Forall_app; split; [exact Hsep|].
  apply Forall_app; split; [apply separator_free_sanitize|].
  apply Forall_app; split; [exact Hsep|].
  apply Forall_app; split; [apply Forall_take, separator_free_sanitize|].
  apply Forall_app; split; [exact Hsep|].
  apply Forall_app; split.
  { eapply Forall_impl; [apply timestamp_of_chars|].
    intros c [H|H]; apply separator_free_digit; auto. }
  apply Forall_app; split; [exact Hsep|].
  apply Forall_app; split; [|repeat constructor].
  eapply Forall_impl; [apply unique_id_of_hex|].
  intros c H; apply separator_free_digit; auto.
Qed.

(** C3, as the code has it.  For every student name and purpose, and every
    document type of the template table, the name built by
    [generate_unique_filename] holds no forward slash and no space. *)
Theorem generate_unique_filename_no_slash
    (document_type student_name purpose : pystr) (w : world) :
  In document_type known_document_types ->
  exists f : pystr,
    EnhancedDocumentGenerator.generate_unique_filename
      document_type student_name purpose w = (Return f, draw (tick w)) /\
    contains f (py "/") = false /\ contains f (py " ") = false.
Proof.
  intros Htype. eexists. split; [apply generate_unique_filename_run|].
  now apply separator_free_contains, filename_separator_free.
Qed.

Lemma generate_unique_filename_no_slash_witness :
  In (py "transfer") known_document_types /\
  exists f : pystr,
    EnhancedDocumentGenerator.generate_unique_filename
      (py "transfer") (py "Ann/Lee  Roe") (py "a / b") sample_world =
    (Return f, draw (tick sample_world)) /\
    contains f (py "/") = false /\ contains f (py " ") = false.
Proof.
  assert (In (py "transfer") known_document_types) as H
    by (cbn; tauto).
  split; [exact H|].
  exact (generate_unique_filename_no_slash
           (py "transfer") (py "Ann/Lee  Roe") (py "a / b") sample_world H).
Defined.

(** C3 as stated fails: a name that holds two dots and a backslash keeps
    them in the filename. *)
Lemma generate_unique_filename_keeps_dots :
  exists (f : pystr) (w' : world),
    EnhancedDocumentGenerator.generate_unique_filename
      (py "bonafide") (py ".." ++ [92%N] ++ py "..") (py "x") sample_world =
    (Return f, w') /\
    contains f (py "..") = true /\ contains f [92%N] = true.
Proof.
  eexists. eexists. split; [apply generate_unique_filename_run|].
  split; vm_compute; reflexivity.
Qed.

(* ===================================================================== *)
(** * Formatting a template *)
(* ===================================================================== *)

Lemma outcome_map_map {A B C} (f : A -> B) (g : B -> C) (o : outcome A) :
  outcome_map g (outcome_map f o) = outcome_map (fun a => g (f a)) o.
Proof. now destruct o. Qed.

Lemma outcome_map_ext {A B} (f g : A -> B) (o : outcome A) :
  (forall a, f a = g a) -> outcome_map f o = outcome_map g o.
Proof. intros H. destruct o; cbn; [now rewrite H | reflexivity]. Qed.

(** Text without braces is copied. *)
Lemma format_from_text (kwargs : gmap pystr pystr) (s rest : pystr) :
  forallb (fun c => negb (is_brace c)) s = true ->
  format_from kwargs None (s ++ rest) =
  outcome_map (app s) (format_from kwargs None rest).
Proof.
  induction s as [|c s IH]; intros Hs.
  - cbn [app]. now destruct (format_from kwargs None rest).
  - cbn [forallb] in Hs. apply andb_true_iff in Hs as [Hc Hs].
    unfold is_brace in Hc. apply negb_true_iff, orb_false_iff in Hc as [Hl Hr].
    cbn [app format_from]. rewrite Hl, Hr, (IH Hs), outcome_map_map.
    reflexivity.
Qed.

(** The characters of a field name are collected up to the closing brace. *)
Lemma format_from_name (kwargs : gmap pystr pystr) (f acc rest : pystr) :
  forallb (fun c => negb (is_brace c) && negb (field_special c)) f = true ->
  format_from kwargs (Some acc) (f ++ py "}" ++ rest) =
  outcome_bind (field_value kwargs (rev acc ++ f))
    (fun v => outcome_map (app v) (format_from kwargs None rest)).
Proof.
  revert acc. induction f as [|c f IH]; intros acc Hf.
  - cbn [app py format_from]. rewrite N.eqb_refl, app_nil_r. reflexivity.
  - cbn [forallb] in Hf. apply andb_true_iff in Hf as [Hc Hf].
    apply andb_true_iff in Hc as [Hb Hsp].
    unfold is_brace in Hb. apply negb_true_iff, orb_false_iff in Hb as [Hl Hr].
    apply negb_true_iff in Hsp.
    cbn [app format_from]. rewrite Hr, Hsp, (IH _ Hf).
    cbn [rev]. now rewrite <- app_assoc.
Qed.

(** A placeholder is replaced by the value of its keyword argument. *)
Lemma format_from_placeholder (kwargs : gmap pystr pystr) (f rest v : pystr) :
  token_ok (Placeholder f) = true ->
  kwargs !! f = Some v ->
  format_from kwargs None (print_token (Placeholder f) ++ rest) =
  outcome_map (app v) (format_from kwargs None rest).
Proof.
  intros Hok Hv. cbn [token_ok] in Hok. apply andb_true_iff in Hok as [Hf Hd].
  cbn [print_token]. rewrite <- !app_assoc.
  change (py "{" ++ f ++ py "}" ++ rest) with (ord "{" :: (f ++ py "}" ++ rest)).
  cbn [format_from]. rewrite N.eqb_refl.
  assert ((f ++ py "}" ++ rest) <> [] /\
          forall c s, f ++ py "}" ++ rest = c :: s -> N.eqb c (ord "{") = false)
    as [Hne Hfirst].
  { destruct f as [|c f]; cbn [app py].
    - split; [discriminate|]. intros c s [= <- _]. reflexivity.
    - split; [discriminate|]. intros c' s [= <- _].
      cbn [forallb] in Hf. apply andb_true_iff in Hf as [Hc _].
      apply andb_true_iff in Hc as [Hb _]. unfold is_brace in Hb.
      now apply negb_true_iff, orb_false_iff in Hb as [Hl _]. }
  destruct (f ++ py "}" ++ rest) as [|c s] eqn:E; [congruence|].
  rewrite (Hfirst c s eq_refl), <- E, (format_from_name kwargs f [] rest Hf).
  cbn [rev app]. unfold field_value.
  apply negb_true_iff in Hd. rewrite Hd. unfold getitem. rewrite Hv.
  reflexivity.
Qed.

(** Formatting the text of a list of tokens replaces every placeholder by
    its keyword argument and leaves the text as it is. *)
Lemma format_tokens (kwargs : gmap pystr pystr) (ts : list token) :
  forallb token_ok ts = true ->
  (forall f, In (Placeholder f) ts -> is_Some (kwargs !! f)) ->
  format (print_tokens ts) kwargs =
  Return (flat_map (fun t => match t with
                             | Text s => s
                             | Placeholder f => default [] (kwargs !! f)
                             end) ts).
Proof.
  unfold format, print_tokens.
  induction ts as [|t ts IH]; intros Hok Hin; [reflexivity|].
  cbn [forallb] in Hok. apply andb_true_iff in Hok as [Ht Hok].
  cbn [flat_map].
  specialize (IH Hok (fun f H => Hin f (or_intror H))).
  destruct t as [s|f].
  - cbn [print_token]. rewrite (format_from_text _ _ _ Ht), IH. reflexivity.
  - destruct (Hin f (or_introl eq_refl)) as [v Hv].
    rewrite (format_from_placeholder _ _ _ v Ht Hv), IH, Hv. reflexivity.
Qed.

(** The token lists are the templates of the table: their text is the
    template, letter for letter; no text part holds a brace; and the
    placeholders are among the six required fields. *)
Lemma template_tokens_print (code : pystr) (tpl : document_template) :
  document_templates !! code = Some tpl ->
  exists ts,
    body_tokens !! code = Some ts /\
    print_tokens ts = template tpl /\
    forallb token_ok ts = true /\
    Forall (fun f => f ∈ required_fields) (placeholders ts).
Proof.
  intros H.
  assert (In code known_document_types) as Hin.
  { destruct (decide (In code known_document_types)) as [|Hn]; [assumption|].
    exfalso. unfold document_templates in H.
    rewrite not_elem_of_list_to_map_1 in H; [discriminate|].
    rewrite list_elem_of_In. exact Hn. }
  cbn in Hin.
  repeat (destruct Hin as [<-|Hin];
          [vm_compute in H; injection H as <-; eexists;
           split; [vm_compute; reflexivity|];
           split; [vm_compute; reflexivity|];
           split; [vm_compute; reflexivity|];
           apply (bool_decide_unpack _); vm_compute; reflexivity|]).
  destruct Hin.
Qed.

(* ===================================================================== *)
(** * Texts that the library takes *)
(* ===================================================================== *)

Lemma encode_error_strict (s : pystr) :
  forall pos,
    encode_error false s pos = None <->
    forallb (fun c => negb (is_surrogate c)) s = true.
Proof.
  induction s as [|c s IH]; intros pos; cbn [encode_error forallb]; [easy|].
  destruct (is_surrogate c); cbn [negb andb]; [easy | apply IH].
Qed.

Lemma encode_error_ValueError (r : nat * nat * N) :
  exists message, UnicodeEncodeError r = ValueError message.
Proof. destruct r as [[a b] c]. eexists. reflexivity. Qed.

Lemma xml_compatible_split (s : pystr) :
  xml_compatible s =
  forallb (fun c => negb (is_surrogate c)) s && forallb xml_char s.
Proof.
  unfold xml_compatible. induction s as [|c s IH]; [reflexivity|].
  cbn [forallb]. rewrite IH.
  destruct (xml_char c), (is_surrogate c); cbn [andb negb];
    rewrite ?andb_false_r; reflexivity.
Qed.

(** lxml takes exactly the compatible texts and raises a ValueError for
    the others. *)
Lemma set_element_text_cases (s : pystr) :
  if xml_compatible s then set_element_text s = Return tt
  else exists message, set_element_text s = Raise (ValueError message).
Proof.
  rewrite xml_compatible_split. unfold set_element_text.
  destruct (encode_error false s 0) as [r|] eqn:E.
  - destruct (forallb (fun c => negb (is_surrogate c)) s) eqn:F.
    + apply (encode_error_strict s 0) in F. congruence.
    + cbn [andb]. destruct (encode_error_ValueError r) as [m ->]. eauto.
  - apply encode_error_strict in E. rewrite E. cbn [andb].
    destruct (forallb xml_char s); eauto.
Qed.

Lemma xml_compatible_app (a b : pystr) :
  xml_compatible (a ++ b) = xml_compatible a && xml_compatible b.
Proof. apply forallb_app. Qed.

Lemma run_pieces_nonempty (s : pystr) : run_pieces s <> [].
Proof.
  destruct s as [|c s]; cbn; [discriminate|].
  destruct (is_break c); [discriminate|].
  destruct (run_pieces s); discriminate.
Qed.

Lemma run_pieces_compatible (s : pystr) :
  forallb xml_compatible (run_pieces s) = xml_compatible s.
Proof.
  induction s as [|c s IH]; [reflexivity|].
  cbn [run_pieces]. change (xml_compatible (c :: s))
    with (xml_char c && negb (is_surrogate c) && xml_compatible s).
  destruct (is_break c) eqn:B.
  - cbn [forallb]. rewrite IH.
    change (xml_compatible []) with true. cbn [andb].
    unfold is_break in B.
    assert (c = 9 \/ c = 10 \/ c = 13)%N as Hc.
    { apply orb_true_iff in B as [B|B]; [apply orb_true_iff in B as [B|B]|];
        apply N.eqb_eq in B; auto. }
    destruct Hc as [->|[->| ->]]; reflexivity.
  - destruct (run_pieces s) as [|h t] eqn:E; [now apply run_pieces_nonempty in E|].
    cbn [forallb] in *. rewrite <- IH.
    change (xml_compatible (c :: h))
      with (xml_char c && negb (is_surrogate c) && xml_compatible h).
    now rewrite andb_assoc.
Qed.

Lemma set_pieces_cases (pieces : list pystr) :
  if forallb xml_compatible pieces then set_pieces pieces = Return tt
  else exists message, set_pieces pieces = Raise (ValueError message).
Proof.
  induction pieces as [|p ps IH]; [reflexivity|].
  cbn [forallb set_pieces].
  pose proof (set_element_text_cases p) as Hp.
  destruct (xml_compatible p); cbn [andb].
  - rewrite Hp. exact IH.
  - destruct Hp as [m ->]. eauto.
Qed.

(** A run takes exactly the compatible texts and raises a ValueError for
    the others. *)
Lemma add_run_text_cases (text : pystr) :
  if xml_compatible text then add_run_text text = Return tt
  else exists message, add_run_text text = Raise (ValueError message).
Proof.
  unfold add_run_text. rewrite <- run_pieces_compatible. apply set_pieces_cases.
Qed.

Lemma add_run_text_compatible (text : pystr) :
  xml_compatible text = true -> add_run_text text = Return tt.
Proof. intros H. pose proof (add_run_text_cases text) as C. now rewrite H in C. Qed.

Lemma add_run_paragraph_compatible (a : option WD_ALIGN_PARAGRAPH)
    (text : pystr) (f : font) (doc : document) :
  xml_compatible text = true ->
  add_run_paragraph a text f doc = Return (add_paragraph (paragraph_of a text f) doc).
Proof.
  intros H. unfold add_run_paragraph. now rewrite add_run_text_compatible.
Qed.

(** A core property takes exactly the compatible texts of at most 255
    characters. *)
Lemma set_core_property_cases (value : pystr) :
  if Nat.leb (length value) 255 && xml_compatible value
  then set_core_property value = Return tt
  else exists message, set_core_property value = Raise (ValueError message).
Proof.
  unfold set_core_property.
  destruct (Nat.ltb_spec 255 (length value)) as [H|H].
  - rewrite (proj2 (Nat.leb_gt _ _)) by lia. cbn [andb]. eauto.
  - rewrite (proj2 (Nat.leb_le _ _)) by lia. cbn [andb].
    apply set_element_text_cases.
Qed.

Lemma xml_compatible_Forall (P : N -> Prop) (s : pystr) :
  (forall c, P c -> xml_char c && negb (is_surrogate c) = true) ->
  Forall P s -> xml_compatible s = true.
Proof.
  intros HP Hs. unfold xml_compatible. apply forallb_forall. intros c Hc.
  rewrite Forall_forall in Hs. apply HP, Hs. now apply list_elem_of_In.
Qed.

Lemma is_digit_compatible (c : N) :
  is_digit c = true -> xml_char c && negb (is_surrogate c) = true.
Proof.
  unfold is_digit, xml_char, is_surrogate. intros H.
  apply andb_true_iff in H as [H1 H2]. apply N.leb_le in H1, H2.
  rewrite (proj2 (N.leb_le 32 c)) by lia.
  rewrite (proj2 (N.eqb_neq c 0xFFFE)) by lia.
  rewrite (proj2 (N.eqb_neq c 0xFFFF)) by lia.
  rewrite (proj2 (N.leb_gt 0xD800 c)) by lia.
  cbn. now rewrite !orb_true_r.
Qed.

Lemma fmt_0d_compatible (width : nat) (n : N) :
  xml_compatible (fmt_0d width n) = true.
Proof.
  apply (xml_compatible_Forall (fun c => is_digit c = true));
    [apply is_digit_compatible | apply fmt_0d_digits].
Qed.

Lemma month_name_compatible (k : nat) :
  xml_compatible (nth k month_names []) = true.
Proof. do 13 (destruct k as [|k]; [reflexivity|]). reflexivity. Qed.

(** The date of the footer is a text that a run takes. *)
Lemma date_compatible (d : datetime) :
  xml_compatible (py "Date: " ++ strftime d (py "%B %d, %Y")) = true.
Proof.
  transitivity
    (xml_compatible
       (py "Date: " ++ nth (N.to_nat (month d) - 1) month_names [] ++ py " " ++
        fmt_0d 2 (day d) ++ py ", " ++ fmt_0d 4 (year d) ++ [])); [reflexivity|].
  rewrite !xml_compatible_app, month_name_compatible, !fmt_0d_compatible.
  reflexivity.
Qed.

Lemma in_range_fields (d : datetime) :
  (year (in_range d) < 10 ^ 4 /\ month (in_range d) < 10 ^ 2 /\
   day (in_range d) < 10 ^ 2 /\ hour (in_range d) < 10 ^ 2 /\
   minute (in_range d) < 10 ^ 2 /\ second (in_range d) < 10 ^ 2)%N.
Proof. unfold in_range. cbn [year month day hour minute second]. lia. Qed.

(** The time of the comment has nineteen characters, which a core
    property takes. *)
Lemma stamp_text (w : world) (t : Z) :
  length (strftime (fromtimestamp w t) (py "%Y-%m-%d %H:%M:%S")) = 19 /\
  xml_compatible (strftime (fromtimestamp w t) (py "%Y-%m-%d %H:%M:%S")) = true.
Proof.
  unfold fromtimestamp. set (d := in_range (local_time w t)).
  destruct (in_range_fields (local_time w t)) as (Hy & Hm & Hd & HH & HM & HS).
  fold d in Hy, Hm, Hd, HH, HM, HS.
  assert (strftime d (py "%Y-%m-%d %H:%M:%S") =
          fmt_0d 4 (year d) ++ py "-" ++ fmt_0d 2 (month d) ++ py "-" ++
          fmt_0d 2 (day d) ++ py " " ++ fmt_0d 2 (hour d) ++ py ":" ++
          fmt_0d 2 (minute d) ++ py ":" ++ fmt_0d 2 (second d) ++ []) as ->
    by reflexivity.
  split.
  - rewrite !length_app.
    rewrite (fmt_0d_length 3 (year d)), (fmt_0d_length 1 (month d)),
      (fmt_0d_length 1 (day d)), (fmt_0d_length 1 (hour d)),
      (fmt_0d_length 1 (minute d)), (fmt_0d_length 1 (second d)) by assumption.
    reflexivity.
  - rewrite !xml_compatible_app, !fmt_0d_compatible. reflexivity.
Qed.

(* ===================================================================== *)
(** * Composition of a document *)
(* ===================================================================== *)

Import EnhancedDocumentGenerator.

(** The keyword arguments of the body hold the six fields, the student
    name behind the honorific. *)
Lemma kwargs_lookup (sd : gmap pystr pystr) (n r c d a p f : pystr) :
  sd !! py "student_name" = Some n ->
  sd !! py "roll_number" = Some r ->
  sd !! py "course" = Some c ->
  sd !! py "department" = Some d ->
  sd !! py "admission_date" = Some a ->
  sd !! py "purpose" = Some p ->
  f ∈ required_fields ->
  (list_to_map
     [ (py "student_name", py "Mr./Ms. " ++ n); (py "roll_number", r);
       (py "course", c); (py "department", d); (py "admission_date", a);
       (py "purpose", p) ] : gmap pystr pystr) !! f = placeholder_value sd f /\
  is_Some (placeholder_value sd f).
Proof.
  intros Hn Hr Hc Hd Ha Hp Hf.
  apply list_elem_of_In in Hf. unfold required_fields in Hf. cbn [In] in Hf.
  unfold placeholder_value.
  repeat (destruct Hf as [<-|Hf];
          [match goal with
           | |- context [bool_decide ?P] =>
               let b := eval vm_compute in (bool_decide P) in
               change (bool_decide P) with b; cbv iota
           end;
           rewrite ?Hn, ?Hr, ?Hc, ?Hd, ?Ha, ?Hp; split; [reflexivity | eauto]|]).
  destruct Hf.
Qed.

Lemma substitute_kwargs (kwargs sd : gmap pystr pystr) (ts : list token) :
  (forall f, f ∈ placeholders ts -> kwargs !! f = placeholder_value sd f) ->
  flat_map (fun t => match t with
                     | Text s => s
                     | Placeholder f => default [] (kwargs !! f)
                     end) ts = substitute ts sd.
Proof.
  unfold substitute. induction ts as [|t ts IH]; intros H; [reflexivity|].
  cbn [flat_map]. rewrite IH.
  - f_equal. destruct t as [s|f]; [reflexivity|]. cbn [substitute_token].
    rewrite H; [reflexivity|]. cbn. left.
  - intros f Hf. apply H. destruct t; cbn; [assumption | now right].
Qed.

Lemma add_watermark_Document :
  add_watermark
    {| sections := map set_margins (sections Document);
       paragraphs := paragraphs Document;
       core := core Document |} (py "OFFICIAL DOCUMENT") =
  Return
    {| sections :=
         [ {| top_margin := Some (Inches 1); bottom_margin := Some (Inches 1);
              left_margin := Some (Inches 1); right_margin := Some (Inches 1);
              header_paragraphs :=
                [ paragraph_of (Some CENTER) (py "OFFICIAL DOCUMENT")
                    (set_name (py "Arial")
                       (set_color_rgb None (set_size (Pt 60) plain_font))) ] |} ];
       paragraphs := [];
       core := None |}.
Proof. reflexivity. Qed.

Lemma universities_lookup (code : pystr) :
  (In code known_university_codes -> is_Some (universities !! code)) /\
  (~ In code known_university_codes -> universities !! code = None).
Proof.
  split.
  - unfold known_university_codes. cbn [In]. intros H.
    repeat (destruct H as [<-|H]; [vm_compute; eauto|]). destruct H.
  - intros H. apply not_elem_of_list_to_map_1. now rewrite list_elem_of_In.
Qed.

Lemma document_templates_lookup (code : pystr) :
  (In code known_document_types -> is_Some (document_templates !! code)) /\
  (~ In code known_document_types -> document_templates !! code = None).
Proof.
  split.
  - unfold known_document_types. cbn [In]. intros H.
    repeat (destruct H as [<-|H]; [vm_compute; eauto|]). destruct H.
  - intros H. apply not_elem_of_list_to_map_1. now rewrite list_elem_of_In.
Qed.

(** The texts that come from the table of universities are texts that a
    run takes. *)
Lemma university_texts (uc : pystr) (u : university) :
  universities !! uc = Some u ->
  xml_compatible (py "[" ++ name u ++ py " LOGO]") = true /\
  xml_compatible (upper (name u)) = true /\
  xml_compatible (address u ++ [10%N] ++ py "Tel: " ++ phone u) = true /\
  xml_compatible (py "Place: " ++ name u) = true /\
  xml_compatible (name u) = true.
Proof.
  intros Hu.
  destruct (In_dec (fun a b : pystr => decide (a = b)) uc known_university_codes)
    as [Hin|Hin].
  - unfold known_university_codes in Hin. cbn [In] in Hin.
    repeat (destruct Hin as [<-|Hin];
            [vm_compute in Hu; injection Hu as <-; repeat split; reflexivity|]).
    destruct Hin.
  - apply universities_lookup in Hin. congruence.
Qed.

(** The same for the table of templates; the type codes have at most
    thirteen characters, and every body names the student. *)
Lemma template_texts (dt : pystr) (tpl : document_template) :
  document_templates !! dt = Some tpl ->
  xml_compatible (title tpl) = true /\
  xml_compatible (str_title dt) = true /\
  length (str_title dt) <= 13 /\
  set_core_property (py "University Document: " ++ dt) = Return tt /\
  exists ts,
    body_tokens !! dt = Some ts /\ In (Placeholder (py "student_name")) ts.
Proof.
  intros Ht.
  destruct (In_dec (fun a b : pystr => decide (a = b)) dt known_document_types)
    as [Hin|Hin].
  - unfold known_document_types in Hin. cbn [In] in Hin.
    repeat (destruct Hin as [<-|Hin];
            [vm_compute in Ht; injection Ht as <-;
             split; [reflexivity|]; split; [reflexivity|];
             split; [vm_compute; lia|]; split; [reflexivity|];
             eexists; split; [vm_compute; reflexivity|]; cbn; tauto|]).
    destruct Hin.
  - apply document_templates_lookup in Hin. congruence.
Qed.

Lemma sections_add_paragraph (p : paragraph) (doc : document) :
  sections (add_paragraph p doc) = sections doc.
Proof. reflexivity. Qed.

Lemma paragraphs_add_paragraph (p : paragraph) (doc : document) :
  paragraphs (add_paragraph p doc) = paragraphs doc ++ [p].
Proof. reflexivity. Qed.

(** What [generate_document] does for known codes and a record of the
    six fields: the body, the title and the comment are the three texts
    of the caller that the library can refuse; the body is set before the
    clock is read, the title after the first reading and the comment
    after the second. *)
Lemma generate_document_run (uc dt : pystr) (sd : gmap pystr pystr)
    (w : world) (u : university) (tpl : document_template) (ts : list token)
    (n p : pystr) :
  universities !! uc = Some u ->
  document_templates !! dt = Some tpl ->
  body_tokens !! dt = Some ts ->
  Forall (fun f => is_Some (sd !! f)) required_fields ->
  sd !! py "student_name" = Some n ->
  sd !! py "purpose" = Some p ->
  generate_document uc dt sd w =
  match add_run_text (substitute ts sd) with
  | Raise e => (Raise e, w)
  | Return _ =>
      match set_core_property (str_title dt ++ py " - " ++ n) with
      | Raise e => (Raise e, tick w)
      | Return _ =>
          match
            set_core_property
              (py "Generated for " ++ n ++ py " on " ++
               strftime (fromtimestamp w (clock w (S (ticks w))))
                 (py "%Y-%m-%d %H:%M:%S"))
          with
          | Raise e => (Raise e, tick (tick w))
          | Return _ =>
              (Return
                 (composed_document u tpl dt n (substitute ts sd)
                    (fromtimestamp w (clock w (ticks w)))
                    (fromtimestamp w (clock w (S (ticks w)))),
                  dt ++ py "_" ++ sanitize n ++ py "_" ++
                  firstn 20 (sanitize p) ++ py "_" ++
                  timestamp_of (tick (tick w)) ++ py "_" ++ unique_id_of w ++
                  py ".docx"),
               draw (tick (tick (tick w))))
          end
      end
  end.
Proof.
  intros Hu Ht Hts Hall Hn Hp.
  destruct (template_tokens_print dt tpl Ht) as (ts' & Hts' & Hprint & Hok & Hph).
  rewrite Hts in Hts'. injection Hts' as <-.
  assert (exists r c d a,
            sd !! py "roll_number" = Some r /\ sd !! py "course" = Some c /\
            sd !! py "department" = Some d /\ sd !! py "admission_date" = Some a)
    as (r & c & d & a & Hr & Hc & Hd & Ha).
  { unfold required_fields in Hall.
    repeat match goal with
           | H : Forall _ (_ :: _) |- _ => apply Forall_cons in H as [[? ?] H]
           end.
    eauto 10. }
  set (kwargs := list_to_map
                   [ (py "student_name", py "Mr./Ms. " ++ n); (py "roll_number", r);
                     (py "course", c); (py "department", d);
                     (py "admission_date", a); (py "purpose", p) ]
                 : gmap pystr pystr).
  assert (forall f, f ∈ placeholders ts ->
            kwargs !! f = placeholder_value sd f /\
            is_Some (placeholder_value sd f)) as Hkw.
  { intros f Hf. apply (kwargs_lookup sd n r c d a p f); try assumption.
    rewrite Forall_forall in Hph. now apply Hph. }
  assert (format (template tpl) kwargs = Return (substitute ts sd)) as Hfmt.
  { rewrite <- Hprint, format_tokens; [|assumption|].
    - f_equal. apply substitute_kwargs. intros f Hf. now apply Hkw.
    - intros f Hf.
      assert (f ∈ placeholders ts) as Hf'.
      { apply list_elem_of_omap. exists (Placeholder f).
        split; [now apply list_elem_of_In | reflexivity]. }
      destruct (Hkw f Hf') as [-> H]. exact H. }
  destruct (university_texts uc u Hu) as (T1 & T2 & T3 & T4 & T5).
  destruct (template_texts dt tpl Ht) as (T6 & _ & _ & T7 & _).
  unfold generate_document. rewrite Hu, Ht. cbv zeta.
  rewrite add_watermark_Document.
  unfold add_university_logo_placeholder, create_document_header,
    create_document_title, create_document_body, create_document_footer,
    add_document_metadata, datetime_now, time_time, gets, body_kwargs, getitem.
  rewrite Hn, Hr, Hc, Hd, Ha, Hp.
  run_binds. rewrite (add_run_paragraph_compatible _ _ _ _ T1).
  run_binds. rewrite (add_run_paragraph_compatible _ _ _ _ T2).
  run_binds.
  rewrite (add_run_paragraph_compatible _ (py "Office of the Registrar"))
    by reflexivity.
  run_binds. rewrite (add_run_paragraph_compatible _ _ _ _ T3).
  run_binds.
  rewrite (add_run_paragraph_compatible _ (repeat (ord "_") 80)) by reflexivity.
  run_binds. rewrite (add_run_paragraph_compatible _ _ _ _ T6).
  run_binds. fold kwargs. rewrite Hfmt. run_binds.
  unfold add_run_paragraph at 1.
  destruct (add_run_text (substitute ts sd)) as [[]|e]; cbn [outcome_map];
    [|reflexivity].
  run_binds.
  rewrite (add_run_paragraph_compatible _ _ _ _ (date_compatible _)).
  run_binds. rewrite (add_run_paragraph_compatible _ _ _ _ T4).
  run_binds.
  rewrite (add_run_paragraph_compatible _ (repeat (ord "_") 40)) by reflexivity.
  run_binds.
  rewrite (add_run_paragraph_compatible _ (py "Registrar")) by reflexivity.
  run_binds. rewrite (add_run_paragraph_compatible _ _ _ _ T5).
  run_binds.
  destruct (set_core_property (str_title dt ++ py " - " ++ n)) as [[]|e];
    [|reflexivity].
  rewrite T7. clear T7. run_binds.
  change (set_core_property (py "University Registrar Office")) with (Return tt).
  run_binds.
  change (clock (tick w) (ticks (tick w))) with (clock w (S (ticks w))).
  change (fromtimestamp (tick w)) with (fromtimestamp w).
  destruct (set_core_property _) as [[]|e]; [|reflexivity].
  rewrite generate_unique_filename_run. reflexivity.
Qed.

Lemma generate_document_unknown_university (uc dt : pystr)
    (sd : gmap pystr pystr) (w : world) :
  universities !! uc = None ->
  generate_document uc dt sd w =
  (Raise (ValueError (py "Invalid university code: " ++ uc)), w).
Proof. intros H. unfold generate_document. now rewrite H. Qed.

Lemma generate_document_unknown_type (uc dt : pystr)
    (sd : gmap pystr pystr) (w : world) :
  is_Some (universities !! uc) ->
  document_templates !! dt = None ->
  generate_document uc dt sd w =
  (Raise (ValueError (py "Invalid document type: " ++ dt)), w).
Proof. intros [u Hu] H. unfold generate_document. now rewrite Hu, H. Qed.

(** A record that lacks a required field: the first lookup that fails
    raises, before the clock is read. *)
Lemma generate_document_missing (uc dt : pystr) (sd : gmap pystr pystr)
    (w : world) (f : pystr) :
  is_Some (universities !! uc) ->
  is_Some (document_templates !! dt) ->
  first_missing sd = Some f ->
  generate_document uc dt sd w = (Raise (KeyError f), w).
Proof.
  intros [u Hu] [tpl Ht].
  destruct (university_texts uc u Hu) as (T1 & T2 & T3 & _).
  destruct (template_texts dt tpl Ht) as (T6 & _).
  unfold generate_document. rewrite Hu, Ht. cbv zeta.
  rewrite add_watermark_Document.
  unfold add_university_logo_placeholder, create_document_header,
    create_document_title.
  run_binds. rewrite (add_run_paragraph_compatible _ _ _ _ T1).
  run_binds. rewrite (add_run_paragraph_compatible _ _ _ _ T2).
  run_binds.
  rewrite (add_run_paragraph_compatible _ (py "Office of the Registrar"))
    by reflexivity.
  run_binds. rewrite (add_run_paragraph_compatible _ _ _ _ T3).
  run_binds.
  rewrite (add_run_paragraph_compatible _ (repeat (ord "_") 80)) by reflexivity.
  run_binds. rewrite (add_run_paragraph_compatible _ _ _ _ T6).
  run_binds.
  unfold first_missing, required_fields, body_kwargs, getitem.
  cbn [find]. run_binds.
  destruct (sd !! py "student_name"); rewrite ?bool_decide_eq_true_2 by reflexivity;
    rewrite ?bool_decide_eq_false_2 by discriminate; [|now intros [= <-]].
  destruct (sd !! py "roll_number"); rewrite ?bool_decide_eq_true_2 by reflexivity;
    rewrite ?bool_decide_eq_false_2 by discriminate; [|now intros [= <-]].
  destruct (sd !! py "course"); rewrite ?bool_decide_eq_true_2 by reflexivity;
    rewrite ?bool_decide_eq_false_2 by discriminate; [|now intros [= <-]].
  destruct (sd !! py "department"); rewrite ?bool_decide_eq_true_2 by reflexivity;
    rewrite ?bool_decide_eq_false_2 by discriminate; [|now intros [= <-]].
  destruct (sd !! py "admission_date"); rewrite ?bool_decide_eq_true_2 by reflexivity;
    rewrite ?bool_decide_eq_false_2 by discriminate; [|now intros [= <-]].
  destruct (sd !! py "purpose"); rewrite ?bool_decide_eq_true_2 by reflexivity;
    rewrite ?bool_decide_eq_false_2 by discriminate; [|now intros [= <-]].
  discriminate.
Qed.

Lemma first_missing_spec (sd : gmap pystr pystr) :
  match first_missing sd with
  | Some f => In f required_fields /\ sd !! f = None
  | None => Forall (fun f => is_Some (sd !! f)) required_fields
  end.
Proof.
  unfold first_missing.
  destruct (find _ required_fields) as [f|] eqn:E.
  - apply find_some in E as [Hin Hf]. split; [assumption|].
    now apply bool_decide_eq_true in Hf.
  - apply Forall_forall. intros f Hf. apply list_elem_of_In in Hf.
    pose proof (find_none _ _ E f Hf) as H. cbn beta in H.
    apply bool_decide_eq_false in H.
    destruct (sd !! f); [eauto | congruence].
Qed.

Lemma required_fields_name_purpose (sd : gmap pystr pystr) :
  Forall (fun f => is_Some (sd !! f)) required_fields ->
  exists n p, sd !! py "student_name" = Some n /\ sd !! py "purpose" = Some p.
Proof.
  intros Hall. unfold required_fields in Hall.
  repeat match goal with
         | H : Forall _ (_ :: _) |- _ => apply Forall_cons in H as [[? ?] H]
         end.
  eauto.
Qed.

(** The body holds the student name, so that a body that a run takes
    holds a name that a core property takes. *)
Lemma substitute_name_compatible (ts : list token) (sd : gmap pystr pystr)
    (n : pystr) :
  In (Placeholder (py "student_name")) ts ->
  sd !! py "student_name" = Some n ->
  xml_compatible (substitute ts sd) = true ->
  xml_compatible n = true.
Proof.
  intros Hin Hn. unfold substitute.
  induction ts as [|t ts IH]; [destruct Hin|].
  cbn [flat_map]. rewrite xml_compatible_app. intros H.
  apply andb_true_iff in H as [Ht Hts].
  destruct Hin as [->|Hin]; [|now apply IH].
  unfold substitute_token, placeholder_value in Ht.
  rewrite bool_decide_eq_true_2, Hn in Ht by reflexivity.
  change (xml_compatible (py "Mr./Ms. " ++ n) = true) in Ht.
  rewrite xml_compatible_app in Ht. now apply andb_true_iff in Ht as [_ Ht].
Qed.

(** The outcome of [generate_document] for known codes and a record of
    the six fields.  It returns exactly when the body is a text that a
    run takes and the student name has at most [longest_name]
    characters; otherwise it raises a ValueError: that of the body before
    the clock is read, that of a core property after. *)
Lemma generate_document_cases (uc dt : pystr) (sd : gmap pystr pystr)
    (w : world) (u : university) (tpl : document_template) (ts : list token)
    (n p : pystr) :
  universities !! uc = Some u ->
  document_templates !! dt = Some tpl ->
  body_tokens !! dt = Some ts ->
  Forall (fun f => is_Some (sd !! f)) required_fields ->
  sd !! py "student_name" = Some n ->
  sd !! py "purpose" = Some p ->
  if xml_compatible (substitute ts sd)
  then
    if Nat.leb (length n) longest_name
    then
      generate_document uc dt sd w =
      (Return
         (composed_document u tpl dt n (substitute ts sd)
            (fromtimestamp w (clock w (ticks w)))
            (fromtimestamp w (clock w (S (ticks w)))),
          dt ++ py "_" ++ sanitize n ++ py "_" ++ firstn 20 (sanitize p) ++
          py "_" ++ timestamp_of (tick (tick w)) ++ py "_" ++ unique_id_of w ++
          py ".docx"),
       draw (tick (tick (tick w))))
    else
      exists message,
        generate_document uc dt sd w = (Raise (ValueError message), tick w) \/
        generate_document uc dt sd w =
        (Raise (ValueError message), tick (tick w))
  else
    exists message,
      generate_document uc dt sd w = (Raise (ValueError message), w).
Proof.
  intros Hu Ht Hts Hall Hn Hp.
  rewrite (generate_document_run uc dt sd w u tpl ts n p Hu Ht Hts Hall Hn Hp).
  destruct (template_texts dt tpl Ht) as (_ & Tdt & Ldt & _ & ts' & Hts' & Hin).
  rewrite Hts in Hts'. injection Hts' as <-.
  pose proof (add_run_text_cases (substitute ts sd)) as Hbody.
  destruct (xml_compatible (substitute ts sd)) eqn:Cb.
  2: { destruct Hbody as [m ->]. eauto. }
  rewrite Hbody.
  pose proof (substitute_name_compatible ts sd n Hin Hn Cb) as Cn.
  destruct (stamp_text w (clock w (S (ticks w)))) as [Ls Cs].
  pose proof (set_core_property_cases (str_title dt ++ py " - " ++ n)) as Htitle.
  pose proof (set_core_property_cases
                (py "Generated for " ++ n ++ py " on " ++
                 strftime (fromtimestamp w (clock w (S (ticks w))))
                   (py "%Y-%m-%d %H:%M:%S"))) as Hcomment.
  assert (xml_compatible (str_title dt ++ py " - " ++ n) = true) as Ct.
  { rewrite !xml_compatible_app, Tdt, Cn. reflexivity. }
  assert (xml_compatible
            (py "Generated for " ++ n ++ py " on " ++
             strftime (fromtimestamp w (clock w (S (ticks w))))
               (py "%Y-%m-%d %H:%M:%S")) = true) as Cc.
  { rewrite !xml_compatible_app, Cn, Cs. reflexivity. }
  rewrite Ct in Htitle. rewrite Cc in Hcomment.
  rewrite andb_true_r in Htitle. rewrite andb_true_r in Hcomment.
  rewrite !length_app in Htitle. rewrite !length_app, Ls in Hcomment.
  change (length (py " - ")) with 3 in Htitle.
  change (length (py "Generated for ")) with 14 in Hcomment.
  change (length (py " on ")) with 4 in Hcomment.
  unfold longest_name.
  destruct (Nat.leb_spec (length n) 218) as [L|L].
  - rewrite (proj2 (Nat.leb_le (length (str_title dt) + (3 + length n)) 255))
      in Htitle by lia.
    rewrite (proj2 (Nat.leb_le (14 + (length n + (4 + 19))) 255))
      in Hcomment by lia.
    now rewrite Htitle, Hcomment.
  - rewrite (proj2 (Nat.leb_gt (14 + (length n + (4 + 19))) 255))
      in Hcomment by lia.
    destruct Hcomment as [m Hcomment].
    destruct (Nat.leb (length (str_title dt) + (3 + length n)) 255).
    + rewrite Htitle, Hcomment. eauto.
    + destruct Htitle as [m' ->]. eauto.
Qed.

(** A record of the six fields whose body is a text that a run takes and
    whose name is not too long: the document is composed, and the three
    readings of the clock and the random draw are consumed. *)
Lemma generate_document_complete (uc dt : pystr) (sd : gmap pystr pystr)
    (w : world) (u : university) (tpl : document_template) (ts : list token)
    (n p : pystr) :
  universities !! uc = Some u ->
  document_templates !! dt = Some tpl ->
  body_tokens !! dt = Some ts ->
  Forall (fun f => is_Some (sd !! f)) required_fields ->
  sd !! py "student_name" = Some n ->
  sd !! py "purpose" = Some p ->
  xml_compatible (substitute ts sd) = true ->
  length n <= longest_name ->
  generate_document uc dt sd w =
  (Return
     (composed_document u tpl dt n (substitute ts sd)
        (fromtimestamp w (clock w (ticks w)))
        (fromtimestamp w (clock w (S (ticks w)))),
      dt ++ py "_" ++ sanitize n ++ py "_" ++ firstn 20 (sanitize p) ++
      py "_" ++ timestamp_of (tick (tick w)) ++ py "_" ++ unique_id_of w ++
      py ".docx"),
   draw (tick (tick (tick w)))).
Proof.
  intros Hu Ht Hts Hall Hn Hp Cb L.
  pose proof (generate_document_cases uc dt sd w u tpl ts n p Hu Ht Hts Hall Hn Hp)
    as H.
  now rewrite Cb, (proj2 (Nat.leb_le _ _) L) in H.
Qed.

(** What a run of [generate_document] that returns tells: both codes are
    known, the record has the six fields, the library took the body and
    the core properties, and the document is the composed one. *)
Lemma generate_document_Return (uc dt : pystr) (sd : gmap pystr pystr)
    (w w' : world) (doc : document) (fn : pystr) :
  generate_document uc dt sd w = (Return (doc, fn), w') ->
  exists u tpl ts n p,
    universities !! uc = Some u /\
    document_templates !! dt = Some tpl /\
    body_tokens !! dt = Some ts /\
    Forall (fun f => is_Some (sd !! f)) required_fields /\
    sd !! py "student_name" = Some n /\
    sd !! py "purpose" = Some p /\
    xml_compatible (substitute ts sd) = true /\
    length n <= longest_name /\
    doc = composed_document u tpl dt n (substitute ts sd)
            (fromtimestamp w (clock w (ticks w)))
            (fromtimestamp w (clock w (S (ticks w)))) /\
    fn = dt ++ py "_" ++ sanitize n ++ py "_" ++ firstn 20 (sanitize p) ++
         py "_" ++ timestamp_of (tick (tick w)) ++ py "_" ++ unique_id_of w ++
         py ".docx" /\
    w' = draw (tick (tick (tick w))).
Proof.
  intros Hrun.
  destruct (universities !! uc) as [u|] eqn:Hu.
  2: { rewrite generate_document_unknown_university in Hrun by assumption.
       discriminate Hrun. }
  destruct (document_templates !! dt) as [tpl|] eqn:Ht.
  2: { rewrite generate_document_unknown_type in Hrun by eauto.
       discriminate Hrun. }
  pose proof (first_missing_spec sd) as Hm.
  destruct (first_missing sd) as [f|] eqn:Hf.
  { rewrite (generate_document_missing uc dt sd w f) in Hrun by eauto.
    discriminate Hrun. }
  destruct (required_fields_name_purpose sd Hm) as (n & p & Hn & Hp).
  destruct (template_texts dt tpl Ht) as (_ & _ & _ & _ & ts & Hts & _).
  pose proof (generate_document_cases uc dt sd w u tpl ts n p Hu Ht Hts Hm Hn Hp)
    as H.
  exists u, tpl, ts, n, p.
  destruct (xml_compatible (substitute ts sd)).
  2: { destruct H as [m H]. rewrite H in Hrun. discriminate Hrun. }
  destruct (Nat.leb_spec (length n) longest_name) as [L|L].
  2: { destruct H as [m [H|H]]; rewrite H in Hrun; discriminate Hrun. }
  rewrite H in Hrun.
  assert ((composed_document u tpl dt n (substitute ts sd)
             (fromtimestamp w (clock w (ticks w)))
             (fromtimestamp w (clock w (S (ticks w)))),
           dt ++ py "_" ++ sanitize n ++ py "_" ++ firstn 20 (sanitize p) ++
           py "_" ++ timestamp_of (tick (tick w)) ++ py "_" ++ unique_id_of w ++
           py ".docx") = (doc, fn)) as E by congruence.
  assert (draw (tick (tick (tick w))) = w') as Ew by congruence.
  pose proof (f_equal fst E) as E1. pose proof (f_equal snd E) as E2.
  cbn [fst snd] in E1, E2. repeat split; auto.
Qed.

(** Composing a document leaves the files and the working directory. *)
Lemma generate_document_keeps_files (uc dt : pystr) (sd : gmap pystr pystr)
    (w : world) :
  files (snd (generate_document uc dt sd w)) = files w /\
  cwd (snd (generate_document uc dt sd w)) = cwd w.
Proof.
  destruct (universities !! uc) as [u|] eqn:Hu.
  2: { rewrite generate_document_unknown_university by assumption. auto. }
  destruct (document_templates !! dt) as [tpl|] eqn:Ht.
  2: { rewrite generate_document_unknown_type by eauto. auto. }
  pose proof (first_missing_spec sd) as Hm.
  destruct (first_missing sd) as [f|] eqn:Hf.
  { rewrite (generate_document_missing uc dt sd w f) by eauto. auto. }
  destruct (required_fields_name_purpose sd Hm) as (n & p & Hn & Hp).
  destruct (template_texts dt tpl Ht) as (_ & _ & _ & _ & ts & Hts & _).
  pose proof (generate_document_cases uc dt sd w u tpl ts n p Hu Ht Hts Hm Hn Hp)
    as H.
  destruct (xml_compatible (substitute ts sd)).
  2: { destruct H as [m ->]. auto. }
  destruct (Nat.leb (length n) longest_name).
  - rewrite H. auto.
  - destruct H as [m [-> | ->]]; auto.
Qed.

Lemma generate_and_save_Raise (uc dt : pystr) (sd : gmap pystr pystr)
    (output_dir : pystr) (w w' : world) (e : exn) :
  generate_document uc dt sd w = (Raise e, w') ->
  generate_and_save uc dt sd output_dir w = (Raise e, w').
Proof. intros H. unfold generate_and_save. now apply bind_Raise. Qed.

(** C1.  For a university code that is not one of harvard, stanford, mit
    and generic, or a document type that is not in the template table,
    [generate_and_save] raises the [ValueError] of the failed lookup and
    leaves the world as it was: the clock is not read, no random number is
    drawn and no file is written.  When both codes are unknown the error
    is that of the university code. *)
Theorem generate_and_save_unknown_code (uc dt : pystr) (sd : gmap pystr pystr)
    (output_dir : pystr) (w : world) :
  ~ In uc known_university_codes \/ ~ In dt known_document_types ->
  exists message,
    generate_and_save uc dt sd output_dir w = (Raise (ValueError message), w) /\
    (~ In uc known_university_codes ->
     message = py "Invalid university code: " ++ uc) /\
    (In uc known_university_codes ->
     message = py "Invalid document type: " ++ dt).
Proof.
  intros H.
  destruct (In_dec (fun a b : pystr => decide (a = b)) uc known_university_codes)
    as [Hu|Hu].
  - destruct H as [H|H]; [contradiction|].
    exists (py "Invalid document type: " ++ dt). split; [|tauto].
    apply generate_and_save_Raise, generate_document_unknown_type.
    + now apply universities_lookup.
    + now apply document_templates_lookup.
  - exists (py "Invalid university code: " ++ uc). split; [|tauto].
    apply generate_and_save_Raise, generate_document_unknown_university.
    now apply universities_lookup.
Qed.

Lemma generate_and_save_unknown_code_witness :
  (~ In (py "yale") known_university_codes \/
   ~ In (py "diploma") known_document_types) /\
  exists message,
    generate_and_save (py "yale") (py "diploma") sample_student
      default_output_dir sample_world =
    (Raise (ValueError message), sample_world) /\
    (~ In (py "yale") known_university_codes ->
     message = py "Invalid university code: " ++ py "yale") /\
    (In (py "yale") known_university_codes ->
     message = py "Invalid document type: " ++ py "diploma").
Proof.
  assert (~ In (py "yale") known_university_codes \/
          ~ In (py "diploma") known_document_types) as H.
  { left. unfold known_university_codes. cbn [In].
    intros [H|[H|[H|[H|[]]]]]; discriminate H. }
  split; [exact H|].
  exact (generate_and_save_unknown_code (py "yale") (py "diploma") sample_student
           default_output_dir sample_world H).
Defined.

(** C4.  For a known university code and a template of the table, the
    body of the template is text interleaved with placeholders
    ([print_tokens ts] is the template, letter for letter), and the body
    of the document is that text with every placeholder replaced by its
    field, the student name behind "Mr./Ms. ".  For a student record that
    supplies the six required fields, [generate_document] returns the
    document with that body paragraph when the body holds only characters
    that XML can hold and the student name has at most 218 characters;
    when the body holds another character it raises the ValueError of the
    library and leaves the world as it was; when the body is taken and the
    name is longer it raises the ValueError of a core property and writes
    nothing.  When a required field is missing it raises the [KeyError]
    of a missing field and leaves the world as it was. *)
Theorem generate_document_body (uc dt : pystr) (sd : gmap pystr pystr)
    (w : world) :
  In uc known_university_codes ->
  In dt known_document_types ->
  exists tpl ts,
    document_templates !! dt = Some tpl /\
    body_tokens !! dt = Some ts /\
    print_tokens ts = template tpl /\
    forallb token_ok ts = true /\
    (Forall (fun f => is_Some (sd !! f)) required_fields ->
     exists n,
       sd !! py "student_name" = Some n /\
       (xml_compatible (substitute ts sd) = true ->
        length n <= longest_name ->
        exists doc filename w',
          generate_document uc dt sd w = (Return (doc, filename), w') /\
          paragraphs doc !! 8 = Some (body_paragraph (substitute ts sd))) /\
       (xml_compatible (substitute ts sd) = false ->
        exists message,
          generate_document uc dt sd w = (Raise (ValueError message), w)) /\
       (xml_compatible (substitute ts sd) = true ->
        longest_name < length n ->
        exists message w',
          generate_document uc dt sd w = (Raise (ValueError message), w') /\
          files w' = files w)) /\
    (~ Forall (fun f => is_Some (sd !! f)) required_fields ->
     exists f,
       In f required_fields /\ sd !! f = None /\
       generate_document uc dt sd w = (Raise (KeyError f), w)).
Proof.
  intros Hu Ht.
  apply universities_lookup in Hu as [u Hu].
  apply document_templates_lookup in Ht as [tpl Ht].
  destruct (template_tokens_print dt tpl Ht) as (ts & Hts & Hprint & Hok & _).
  exists tpl, ts. do 4 (split; [assumption|]). split.
  - intros Hall.
    destruct (required_fields_name_purpose sd Hall) as (n & p & Hn & Hp).
    exists n. split; [exact Hn|].
    pose proof (generate_document_cases uc dt sd w u tpl ts n p Hu Ht Hts Hall
                  Hn Hp) as H.
    split; [|split].
    + intros Cb L. rewrite Cb, (proj2 (Nat.leb_le _ _) L) in H.
      do 3 eexists. split; [exact H | reflexivity].
    + intros Cb. now rewrite Cb in H.
    + intros Cb L. rewrite Cb, (proj2 (Nat.leb_gt _ _) L) in H.
      destruct H as [m [H|H]]; rewrite H; eauto.
  - intros Hmiss. pose proof (first_missing_spec sd) as Hfm.
    destruct (first_missing sd) as [f|] eqn:E; [|contradiction].
    destruct Hfm as [Hin Hf]. exists f. do 2 (split; [assumption|]).
    apply generate_document_missing; eauto.
Qed.

Lemma generate_document_body_witness :
  In (py "harvard") known_university_codes /\
  In (py "noc") known_document_types /\
  Forall (fun f => is_Some (sample_student !! f)) required_fields /\
  exists ts doc filename w',
    forallb token_ok ts = true /\
    xml_compatible (substitute ts sample_student) = true /\
    length (py "John Smith") <= longest_name /\
    generate_document (py "harvard") (py "noc") sample_student sample_world =
    (Return (doc, filename), w') /\
    paragraphs doc !! 8 = Some (body_paragraph (substitute ts sample_student)).
Proof.
  assert (In (py "harvard") known_university_codes) as Hu
    by (unfold known_university_codes; cbn [In]; tauto).
  assert (In (py "noc") known_document_types) as Ht
    by (unfold known_document_types; cbn [In]; tauto).
  assert (Forall (fun f => is_Some (sample_student !! f)) required_fields) as Hall
    by (apply (bool_decide_unpack _); vm_compute; reflexivity).
  split; [exact Hu|]. split; [exact Ht|]. split; [exact Hall|].
  destruct (generate_document_body (py "harvard") (py "noc") sample_student
              sample_world Hu Ht)
    as (tpl & ts & Htpl & Hts & Hprint & Hok & Hcomplete & _).
  destruct (Hcomplete Hall) as (n & Hn & Hreturn & _).
  assert (n = py "John Smith") as ->
    by (vm_compute in Hn; injection Hn as <-; reflexivity).
  vm_compute in Hts. injection Hts as <-.
  match type of Hreturn with
  | xml_compatible ?b = true -> _ =>
      assert (xml_compatible b = true) as Cb by (vm_compute; reflexivity)
  end.
  assert (length (py "John Smith") <= longest_name) as L
    by (unfold longest_name; cbn; lia).
  destruct (Hreturn Cb L) as (doc & filename & w' & Heq & Hbody).
  eexists _, doc, filename, w'.
  split; [exact Hok|]. split; [exact Cb|]. split; [exact L|].
  split; [exact Heq | exact Hbody].
Defined.

(** A record that supplies the six fields and that [generate_document]
    refuses: the vertical tab in the student name is no character of
    XML. *)
Lemma generate_document_refuses_control_character :
  Forall (fun f => is_Some (sample_student_control !! f)) required_fields /\
  generate_document (py "harvard") (py "bonafide") sample_student_control
    sample_world =
  (Raise (ValueError (py "All strings must be XML compatible: Unicode or ASCII, no NULL bytes or control characters")),
   sample_world).
Proof.
  assert (Forall (fun f => is_Some (sample_student_control !! f)) required_fields)
    as Hall by (apply (bool_decide_unpack _); vm_compute; reflexivity).
  split; [exact Hall|].
  assert (fst (generate_document (py "harvard") (py "bonafide")
                 sample_student_control sample_world) =
          Raise (ValueError (py "All strings must be XML compatible: Unicode or ASCII, no NULL bytes or control characters")))
    as Hfst by (vm_compute; reflexivity).
  assert (is_Some (universities !! py "harvard")) as [u Hu]
    by (vm_compute; eauto).
  assert (is_Some (document_templates !! py "bonafide")) as [tpl Ht]
    by (vm_compute; eauto).
  destruct (template_texts _ _ Ht) as (_ & _ & _ & _ & ts & Hts & _).
  destruct (required_fields_name_purpose _ Hall) as (n & p & Hn & Hp).
  pose proof (generate_document_cases (py "harvard") (py "bonafide")
                sample_student_control sample_world u tpl ts n p Hu Ht Hts Hall
                Hn Hp) as H.
  vm_compute in Hts. injection Hts as <-.
  match type of H with
  | (if ?c then _ else _) =>
      assert (c = false) as Cb by (vm_compute; reflexivity); rewrite Cb in H
  end.
  destruct H as [m H]. rewrite H in Hfst |- *. cbn [fst] in Hfst.
  now rewrite Hfst.
Qed.

(** C5.  For the university "harvard", the document type "bonafide" and
    the student John Smith of the example, the title block of the document
    reads "BONAFIDE CERTIFICATE", and the body text holds "Mr./Ms. John
    Smith", "Roll No: CS2024001" and "Internship application". *)
Theorem harvard_bonafide_example (w : world) :
  exists doc filename w' body_text,
    generate_document (py "harvard") (py "bonafide") sample_student w =
    (Return (doc, filename), w') /\
    paragraphs doc !! 6 = Some (title_paragraph (py "BONAFIDE CERTIFICATE")) /\
    paragraph_text (title_paragraph (py "BONAFIDE CERTIFICATE")) =
    py "BONAFIDE CERTIFICATE" /\
    paragraphs doc !! 8 = Some (body_paragraph body_text) /\
    paragraph_text (body_paragraph body_text) = body_text /\
    contains body_text (py "Mr./Ms. John Smith") = true /\
    contains body_text (py "Roll No: CS2024001") = true /\
    contains body_text (py "Internship application") = true.
Proof.
  eexists _, _, _, _. split.
  - apply (generate_document_complete (py "harvard") (py "bonafide")
             sample_student w).
    + vm_compute. reflexivity.
    + vm_compute. reflexivity.
    + vm_compute. reflexivity.
    + apply (bool_decide_unpack _). vm_compute. reflexivity.
    + vm_compute. reflexivity.
    + vm_compute. reflexivity.
    + vm_compute. reflexivity.
    + unfold longest_name. cbn. lia.
  - split; [reflexivity|]. split; [apply app_nil_r|].
    split; [reflexivity|]. split; [apply app_nil_r|].
    repeat split; vm_compute; reflexivity.
Qed.

(** The generator looks up the six required fields of the student record
    and nothing else of it. *)
Lemma generate_document_required_only (uc dt : pystr)
    (sd sd' : gmap pystr pystr) (w : world) :
  Forall (fun f => sd !! f = sd' !! f) required_fields ->
  generate_document uc dt sd w = generate_document uc dt sd' w.
Proof.
  unfold required_fields. intros H.
  repeat match goal with
         | H : Forall _ (_ :: _) |- _ => apply Forall_cons in H as [? H]
         end.
  unfold generate_document.
  destruct (universities !! uc) as [u|]; [|reflexivity].
  destruct (document_templates !! dt) as [tpl|]; [|reflexivity].
  unfold add_document_metadata, body_kwargs, getitem, create_document_body,
    create_document_footer.
  repeat match goal with
         | H : sd !! _ = sd' !! _ |- _ => rewrite H; clear H
         end.
  reflexivity.
Qed.

(** C9.  Two requests that agree on the university code, the document
    type and the six required student fields get the same response and
    leave the same world (the same file with the same document under the
    same name), whatever their email, phone and year of study are, when
    the clock and the random source are the same.  The generator itself
    yields the same for two student records that agree on the six required
    fields, and so for a record to which an optional field is added. *)
Theorem optional_fields_ignored (r1 r2 : enhanced_main.DocumentRequest)
    (w : world) :
  enhanced_main.university_code r1 = enhanced_main.university_code r2 ->
  enhanced_main.document_type r1 = enhanced_main.document_type r2 ->
  enhanced_main.student_name (enhanced_main.student_data r1) =
  enhanced_main.student_name (enhanced_main.student_data r2) ->
  enhanced_main.roll_number (enhanced_main.student_data r1) =
  enhanced_main.roll_number (enhanced_main.student_data r2) ->
  enhanced_main.course (enhanced_main.student_data r1) =
  enhanced_main.course (enhanced_main.student_data r2) ->
  enhanced_main.department (enhanced_main.student_data r1) =
  enhanced_main.department (enhanced_main.student_data r2) ->
  enhanced_main.admission_date (enhanced_main.student_data r1) =
  enhanced_main.admission_date (enhanced_main.student_data r2) ->
  enhanced_main.purpose (enhanced_main.student_data r1) =
  enhanced_main.purpose (enhanced_main.student_data r2) ->
  enhanced_main.generate_document r1 w = enhanced_main.generate_document r2 w /\
  (forall (sd sd' : gmap pystr pystr) (output_dir : pystr),
     Forall (fun f => sd !! f = sd' !! f) required_fields ->
     generate_and_save (enhanced_main.university_code r1)
       (enhanced_main.document_type r1) sd output_dir w =
     generate_and_save (enhanced_main.university_code r2)
       (enhanced_main.document_type r2) sd' output_dir w) /\
  (forall (sd : gmap pystr pystr) (field value output_dir : pystr),
     In field optional_fields ->
     generate_and_save (enhanced_main.university_code r1)
       (enhanced_main.document_type r1) (<[field := value]> sd) output_dir w =
     generate_and_save (enhanced_main.university_code r2)
       (enhanced_main.document_type r2) sd output_dir w).
Proof.
  intros Hu Ht Hn Hr Hc Hd Ha Hp.
  assert (forall (sd sd' : gmap pystr pystr) (output_dir : pystr),
            Forall (fun f => sd !! f = sd' !! f) required_fields ->
            generate_and_save (enhanced_main.university_code r1)
              (enhanced_main.document_type r1) sd output_dir w =
            generate_and_save (enhanced_main.university_code r2)
              (enhanced_main.document_type r2) sd' output_dir w) as Hgen.
  { intros sd sd' output_dir H. unfold generate_and_save, bind.
    now rewrite Hu, Ht, (generate_document_required_only _ _ sd sd' w H). }
  split; [|split; [exact Hgen|]].
  - unfold enhanced_main.generate_document, enhanced_main.student_dict.
    now rewrite Hu, Ht, Hn, Hr, Hc, Hd, Ha, Hp.
  - intros sd field value output_dir Hfield. apply Hgen.
    assert (Forall (fun k => k ∉ required_fields) optional_fields) as Hdisjoint
      by (apply (bool_decide_unpack _); vm_compute; reflexivity).
    rewrite Forall_forall in Hdisjoint.
    apply Forall_forall. intros f Hf. apply lookup_insert_ne.
    intros ->. now apply (Hdisjoint f); [apply list_elem_of_In|].
Qed.

Lemma optional_fields_ignored_witness :
  enhanced_main.generate_document
    (sample_request (Some (py "sarah.johnson@university.edu"))
       (Some (py "+1-555-0124")) (py "3rd Year")) sample_world =
  enhanced_main.generate_document (sample_request None None (py "1st Year"))
    sample_world.
Proof.
  exact (proj1 (optional_fields_ignored
                  (sample_request (Some (py "sarah.johnson@university.edu"))
                     (Some (py "+1-555-0124")) (py "3rd Year"))
                  (sample_request None None (py "1st Year")) sample_world
                  eq_refl eq_refl eq_refl eq_refl eq_refl eq_refl eq_refl eq_refl)).
Defined.

(* ===================================================================== *)
(** * Names and their resolution *)
(* ===================================================================== *)

Lemma plain_spec (c : pystr) :
  plain c = true <->
  c <> [] /\ c <> py "." /\ c <> py ".." /\ Forall (fun x => x <> ord "/") c.
Proof.
  unfold plain. rewrite !andb_true_iff, !negb_true_iff, !bool_decide_eq_false.
  rewrite forallb_forall, Forall_forall.
  split; intros (((H1 & H2) & H3) & H4) || intros (H1 & H2 & H3 & H4).
  - repeat split; try assumption. intros x Hx.
    apply list_elem_of_In, H4, negb_true_iff, N.eqb_neq in Hx. exact Hx.
  - repeat split; try assumption. intros x Hx.
    apply negb_true_iff, N.eqb_neq, H4, list_elem_of_In, Hx.
Qed.

Lemma step_plain (cur : list pystr) (c : pystr) :
  plain c = true -> step cur c = cur ++ [c].
Proof.
  intros (H1 & H2 & H3 & _)%plain_spec. unfold step.
  rewrite !bool_decide_eq_false_2 by assumption. reflexivity.
Qed.

Lemma split_on_nonempty (sep : N) (s : pystr) : split_on sep s <> [].
Proof.
  destruct s as [|c s]; cbn; [discriminate|].
  destruct (N.eqb c sep); [discriminate|].
  destruct (split_on sep s); discriminate.
Qed.

Lemma split_on_without (sep : N) (s : pystr) :
  Forall (fun x => x <> sep) s -> split_on sep s = [s].
Proof.
  induction 1 as [|x s Hx _ IH]; [reflexivity|].
  cbn. apply N.eqb_neq in Hx. now rewrite Hx, IH.
Qed.

Lemma split_on_app (sep : N) (a b : pystr) :
  split_on sep (a ++ sep :: b) = split_on sep a ++ split_on sep b.
Proof.
  induction a as [|x a IH]; cbn.
  - now rewrite N.eqb_refl.
  - destruct (N.eqb x sep); [now rewrite IH|].
    rewrite IH. pose proof (split_on_nonempty sep a) as Hne.
    destruct (split_on sep a); [congruence | reflexivity].
Qed.

(** The components of a split hold no separator. *)
Lemma split_on_components (sep : N) (s : pystr) :
  Forall (Forall (fun x => x <> sep)) (split_on sep s).
Proof.
  induction s as [|c s IH]; cbn; [repeat constructor|].
  destruct (N.eqb_spec c sep) as [_|Hc]; [now constructor|].
  destruct (split_on sep s) as [|h t]; [repeat constructor; assumption|].
  inversion_clear IH. constructor; [now constructor | assumption].
Qed.

Lemma namei_app (fs : gmap (list pystr) inode) (cur : list pystr)
    (cs : list pystr) (c : pystr) :
  namei fs cur (cs ++ [c]) =
  match namei fs cur cs with
  | inl e => inl e
  | inr t =>
      match fs !! t with
      | Some (Directory _) => inr (step t c)
      | Some (File _ _) => inl NotADirectoryError
      | None => inl FileNotFoundError
      end
  end.
Proof.
  revert cur. induction cs as [|c' cs IH]; intros cur; cbn [app namei].
  - destruct (fs !! cur) as [[|]|]; reflexivity.
  - destruct (fs !! cur) as [[|]|]; [reflexivity | apply IH | reflexivity].
Qed.

Lemma startswith_slash_app (d f : pystr) :
  d <> [] -> startswith (d ++ f) (py "/") = startswith d (py "/").
Proof. destruct d; [congruence | reflexivity]. Qed.

Lemma plain_not_absolute (f : pystr) :
  plain f = true -> startswith f (py "/") = false.
Proof.
  intros (H1 & _ & _ & H4)%plain_spec. destruct f as [|x f]; [congruence|].
  inversion_clear H4. cbn [startswith py]. apply N.eqb_neq in H. now rewrite H.
Qed.

(** The name of an entry [f] joined to the name of a directory resolves to
    that entry of the directory. *)
Lemma resolve_join (w : world) (d f : pystr) (t : list pystr) :
  plain f = true ->
  resolve w d = inr t ->
  is_directory (files w !! t) = true ->
  resolve w (os_path_join d f) = inr (t ++ [f]).
Proof.
  intros Hf Hd Ht.
  assert (d <> []) as Hne by (intros ->; discriminate Hd).
  pose proof (plain_not_absolute f Hf) as Hrel.
  pose proof Hf as (_ & _ & _ & Hsl)%plain_spec.
  assert (forall cs, is_directory (files w !! t) = true ->
            namei (files w) (start_of w d) cs = inr t ->
            namei (files w) (start_of w d) (cs ++ [f]) = inr (t ++ [f])) as Hstep.
  { intros cs Hdir Hcs. rewrite namei_app, Hcs.
    destruct (files w !! t) as [[|]|]; try discriminate Hdir.
    now rewrite step_plain. }
  unfold os_path_join. rewrite Hrel, (bool_decide_eq_false_2 _ Hne). cbn [orb].
  unfold resolve in Hd. destruct d as [|x d'] eqn:Ed; [congruence|]. rewrite <- Ed in *.
  destruct (endswith d (py "/")) eqn:Hend.
  - apply endswith_suffix in Hend as [d0 Hd0].
    assert (resolve w (d ++ f) =
            namei (files w) (start_of w d) (split_on (ord "/") d0 ++ [f])) as ->.
    { unfold resolve. destruct (d ++ f) eqn:E; [now destruct d|]. rewrite <- E.
      unfold start_of. rewrite startswith_slash_app by assumption.
      rewrite Hd0, <- app_assoc. change (py "/" ++ f) with (ord "/" :: f).
      rewrite split_on_app, (split_on_without _ f Hsl). reflexivity. }
    rewrite Hd0 in Hd at 2. change (py "/") with (ord "/" :: []) in Hd.
    rewrite split_on_app in Hd. change (split_on (ord "/") []) with [[] : pystr] in Hd.
    rewrite namei_app in Hd.
    destruct (namei (files w) (start_of w d) (split_on (ord "/") d0)) as [e|t0] eqn:E0;
      [discriminate|].
    destruct (files w !! t0) as [[|st]|] eqn:Et0; try discriminate Hd.
    change (step t0 []) with t0 in Hd. injection Hd as <-.
    apply Hstep; [assumption | exact E0].
  - assert (resolve w (d ++ py "/" ++ f) =
            namei (files w) (start_of w d) (split_on (ord "/") d ++ [f])) as ->.
    { unfold resolve. destruct (d ++ py "/" ++ f) eqn:E; [now destruct d|]. rewrite <- E.
      unfold start_of. rewrite startswith_slash_app by assumption.
      change (py "/" ++ f) with (ord "/" :: f).
      rewrite split_on_app, (split_on_without _ f Hsl). reflexivity. }
    now apply Hstep.
Qed.

(* ===================================================================== *)
(** * Directories and their entries *)
(* ===================================================================== *)

Lemma child_of_spec (p q : list pystr) (c : pystr) :
  child_of p q = Some c <-> q = p ++ [c].
Proof.
  revert q. induction p as [|x p IH]; intros q; cbn [child_of app].
  - destruct q as [|y [|z q]]; split; try discriminate; congruence.
  - destruct q as [|y q]; [split; discriminate|].
    destruct (decide (x = y)) as [->|Hne].
    + rewrite bool_decide_eq_true_2 by reflexivity. rewrite IH.
      split; congruence.
    + rewrite bool_decide_eq_false_2 by assumption.
      split; [discriminate | congruence].
Qed.

(** The entries of a directory are the names below it. *)
Lemma entries_spec (fs : gmap (list pystr) inode) (p : list pystr) (c : pystr) :
  c ∈ entries fs p <-> is_Some (fs !! (p ++ [c])).
Proof.
  unfold entries. rewrite list_elem_of_omap. split.
  - intros ([q i] & Hin & Hc). cbn [fst] in Hc. apply child_of_spec in Hc as ->.
    apply elem_of_map_to_list in Hin. eauto.
  - intros [i Hi]. exists (p ++ [c], i). split.
    + now apply elem_of_map_to_list.
    + now apply child_of_spec.
Qed.

Lemma entries_NoDup (fs : gmap (list pystr) inode) (p : list pystr) :
  NoDup (entries fs p).
Proof.
  unfold entries. pose proof (NoDup_fst_map_to_list fs) as H.
  induction (map_to_list fs) as [|[q i] l IH]; [constructor|].
  cbn [fmap list_fmap fst] in H. apply NoDup_cons in H as [Hq Hl].
  cbn [omap list_omap fst]. destruct (child_of p q) as [c|] eqn:E; [|now apply IH].
  apply NoDup_cons. split; [|now apply IH].
  intros ([q' i'] & Hin & Hc)%list_elem_of_omap. cbn [fst] in Hc.
  apply child_of_spec in E, Hc. subst q q'.
  apply Hq. apply list_elem_of_fmap. now exists (p ++ [c], i').
Qed.

Lemma touch_is_directory (now : Z) (i : option inode) :
  is_directory (touch now <$> i) = is_directory i.
Proof. now destruct i as [[|]|]. Qed.

Lemma removelast_ne (t : list pystr) : t <> [] -> removelast t <> t.
Proof.
  intros Hne H. apply (f_equal (@length _)) in H.
  destruct (exists_last Hne) as (l & a & ->).
  rewrite removelast_last, length_app in H. cbn in H. lia.
Qed.

(** What [create] leaves behind. *)
Lemma create_lookup (t : list pystr) (i : Z -> inode) (w : world)
    (q : list pystr) :
  files (create t i w) !! q =
  if decide (t = q) then Some (i (clock w (ticks w)))
  else if decide (removelast t = q)
       then touch (clock w (ticks w)) <$> files w !! q
       else files w !! q.
Proof.
  unfold create. cbn [files tick with_files].
  rewrite lookup_insert. destruct (decide (t = q)); [reflexivity|].
  rewrite lookup_alter. destruct (decide (removelast t = q)) as [->|]; reflexivity.
Qed.

Lemma create_keeps_directories (t : list pystr) (i : Z -> inode) (w : world)
    (q : list pystr) :
  files w !! t = None ->
  is_directory (files w !! q) = true ->
  is_directory (files (create t i w) !! q) = true.
Proof.
  intros Ht Hq. rewrite create_lookup.
  destruct (decide (t = q)) as [->|]; [now rewrite Ht in Hq|].
  destruct (decide (removelast t = q)); [now rewrite touch_is_directory|assumption].
Qed.

Lemma unlink_lookup (t : list pystr) (w : world) (q : list pystr) :
  files (unlink t w) !! q =
  if decide (removelast t = q)
  then touch (clock w (ticks w)) <$> (if decide (t = q) then None else files w !! q)
  else if decide (t = q) then None else files w !! q.
Proof.
  unfold unlink. cbn [files tick with_files].
  rewrite lookup_alter. destruct (decide (removelast t = q)) as [->|];
    rewrite lookup_delete; reflexivity.
Qed.


(** After [os.makedirs] has returned the directory is there, and so are
    the directories that were there before. *)
Lemma makedirs_from_made (w w1 : world) (cur : list pystr) (cs : list pystr) :
  makedirs_from w cur cs = (None, w1) ->
  (exists t, namei (files w1) cur cs = inr t /\
             is_directory (files w1 !! t) = true) /\
  (forall q, is_directory (files w !! q) = true ->
             is_directory (files w1 !! q) = true) /\
  cwd w1 = cwd w /\ fromtimestamp w1 = fromtimestamp w /\
  package_size w1 = package_size w.
Proof.
  revert w cur. induction cs as [|c cs IH]; intros w cur H; cbn [namei makedirs_from] in *.
  - destruct (files w !! cur) as [[|st]|] eqn:Ecur; try discriminate H.
    injection H as <-. split; [|auto]. exists cur. now rewrite Ecur.
  - destruct (files w !! cur) as [[|st]|] eqn:Ecur; try discriminate H.
    destruct (files w !! step cur c) as [i|] eqn:Enext.
    + destruct (IH _ _ H) as ((t & Hn & Ht) & Hkeep & Hcwd).
      split; [|auto]. exists t. split; [|assumption].
      specialize (Hkeep cur). rewrite Ecur in Hkeep. specialize (Hkeep eq_refl).
      destruct (files w1 !! cur) as [[|]|]; try discriminate Hkeep. assumption.
    + destruct (IH _ _ H) as ((t & Hn & Ht) & Hkeep & Hcwd & Hft & Hps).
      assert (forall q, is_directory (files w !! q) = true ->
                        is_directory (files w1 !! q) = true) as Hkeep'.
      { intros q Hq. apply Hkeep. now apply create_keeps_directories. }
      split; [|auto]. exists t. split; [|assumption].
      specialize (Hkeep' cur). rewrite Ecur in Hkeep'. specialize (Hkeep' eq_refl).
      destruct (files w1 !! cur) as [[|]|]; try discriminate Hkeep'. assumption.
Qed.

Lemma Forall_plain_removelast (p : list pystr) :
  Forall (fun c => plain c = true) p ->
  Forall (fun c => plain c = true) (removelast p).
Proof.
  intros H. destruct (decide (p = [])) as [->|Hne]; [assumption|].
  destruct (exists_last Hne) as (l & a & ->). rewrite removelast_last.
  now apply Forall_app in H as [H _].
Qed.

Lemma step_plain_names (cur : list pystr) (c : pystr) :
  Forall (fun c => plain c = true) cur ->
  Forall (fun x => x <> ord "/") c ->
  Forall (fun c => plain c = true) (step cur c).
Proof.
  intros Hcur Hc. unfold step.
  destruct (decide (c = [])) as [->|H1]; [assumption|].
  rewrite (bool_decide_eq_false_2 _ H1).
  destruct (decide (c = py ".")) as [->|H2]; [assumption|].
  rewrite (bool_decide_eq_false_2 _ H2). cbn [orb].
  destruct (decide (c = py "..")) as [->|H3].
  - rewrite bool_decide_eq_true_2 by reflexivity. now apply Forall_plain_removelast.
  - rewrite (bool_decide_eq_false_2 _ H3). apply Forall_app. split; [assumption|].
    constructor; [|constructor]. apply plain_spec. auto.
Qed.

Lemma create_plain_names (t : list pystr) (i : Z -> inode) (w : world) :
  plain_names w ->
  Forall (fun c => plain c = true) t ->
  plain_names (create t i w).
Proof.
  intros Hw Ht q j. rewrite create_lookup.
  destruct (decide (t = q)) as [<-|]; [intros _; assumption|].
  destruct (decide (removelast t = q)) as [<-|]; [|apply Hw].
  intros H. destruct (files w !! removelast t) as [k|] eqn:E; [|discriminate].
  apply (Hw _ _ E).
Qed.

Lemma makedirs_from_plain_names (w w1 : world) (cur : list pystr)
    (cs : list pystr) (e : option oserror) :
  plain_names w ->
  Forall (Forall (fun x => x <> ord "/")) cs ->
  makedirs_from w cur cs = (e, w1) ->
  plain_names w1.
Proof.
  revert w cur. induction cs as [|c cs IH]; intros w cur Hw Hcs H;
    cbn [makedirs_from] in H.
  - destruct (files w !! cur) as [[|st]|]; injection H as _ <-; assumption.
  - inversion_clear Hcs as [|? ? Hc Hcs'].
    destruct (files w !! cur) as [[|st]|] eqn:Ecur;
      try (injection H as _ <-; assumption).
    destruct (files w !! step cur c) as [i|] eqn:Enext.
    + now apply (IH w (step cur c)).
    + apply (IH _ _ (create_plain_names _ _ _ Hw
                       (step_plain_names _ _ (Hw _ _ Ecur) Hc)) Hcs' H).
Qed.

Lemma namei_directories (fs fs' : gmap (list pystr) inode) (cur : list pystr)
    (cs : list pystr) (t : list pystr) :
  (forall q, is_directory (fs !! q) = true -> is_directory (fs' !! q) = true) ->
  namei fs cur cs = inr t ->
  namei fs' cur cs = inr t.
Proof.
  intros Hkeep. revert cur. induction cs as [|c cs IH]; intros cur H;
    cbn [namei] in *; [assumption|].
  destruct (fs !! cur) as [[|st]|] eqn:E; try discriminate H.
  specialize (Hkeep cur). rewrite E in Hkeep. specialize (Hkeep eq_refl).
  destruct (fs' !! cur) as [[|]|]; try discriminate Hkeep. now apply IH.
Qed.

Lemma resolve_directories (w w' : world) (path : pystr) (t : list pystr) :
  (forall q, is_directory (files w !! q) = true ->
             is_directory (files w' !! q) = true) ->
  cwd w' = cwd w ->
  resolve w path = inr t ->
  resolve w' path = inr t.
Proof.
  intros Hkeep Hcwd. unfold resolve, start_of. rewrite Hcwd.
  destruct path; [trivial|]. now apply namei_directories.
Qed.

Lemma path_isdir_spec (w : world) (path : pystr) :
  path_isdir w path = true <->
  exists t, resolve w path = inr t /\ is_directory (files w !! t) = true.
Proof.
  unfold path_isdir, lookup_path. destruct (resolve w path) as [e|t].
  - split; [discriminate | intros (t & [=] & _)].
  - split; [eauto | now intros (t' & [= <-] & H)].
Qed.


Lemma os_makedirs_made (w w1 : world) (d : pystr) :
  os_makedirs d w = (Return tt, w1) ->
  (exists t, resolve w1 d = inr t /\ is_directory (files w1 !! t) = true) /\
  (forall q, is_directory (files w !! q) = true ->
             is_directory (files w1 !! q) = true) /\
  cwd w1 = cwd w /\ fromtimestamp w1 = fromtimestamp w /\
  package_size w1 = package_size w /\
  (plain_names w -> plain_names w1).
Proof.
  unfold os_makedirs. destruct d as [|x d']; [discriminate|].
  destruct (makedirs_from w _ _) as [[e|] w'] eqn:E; [discriminate|].
  intros [= <-].
  destruct (makedirs_from_made _ _ _ _ E) as ((t & Hn & Ht) & Hkeep & Hcwd & Hft & Hps).
  split; [|repeat split; try assumption].
  - exists t. split; [|assumption]. unfold resolve, start_of. now rewrite Hcwd.
  - intros Hw. eapply makedirs_from_plain_names; [exact Hw| |exact E].
    apply split_on_components.
Qed.

(** The names that resolution returns are made of plain components. *)
Lemma namei_plain_names (w : world) (cur : list pystr) (cs : list pystr)
    (t : list pystr) :
  plain_names w ->
  Forall (Forall (fun x => x <> ord "/")) cs ->
  Forall (fun c => plain c = true) cur ->
  namei (files w) cur cs = inr t ->
  Forall (fun c => plain c = true) t.
Proof.
  intros Hw. revert cur. induction cs as [|c cs IH]; intros cur Hcs Hcur H;
    cbn [namei] in H.
  - now injection H as <-.
  - inversion_clear Hcs. destruct (files w !! cur) as [[|st]|]; try discriminate H.
    eapply IH; [assumption| |exact H]. now apply step_plain_names.
Qed.

Lemma encode_error_escape (s : pystr) :
  forall pos,
    encode_error true s pos = None <->
    existsb (fun c => is_surrogate c && negb (is_escaped c)) s = false.
Proof.
  induction s as [|c s IH]; intros pos; cbn [encode_error existsb]; [easy|].
  cbn [andb]. destruct (is_surrogate c && negb (is_escaped c)); cbn [orb];
    [easy | apply IH].
Qed.

(** The resolution of a name to open is the resolution of the name when
    no component is too long, and no name otherwise. *)
Lemma namei_open_short (fs : gmap (list pystr) inode) (cs : list pystr) :
  forall cur,
    forallb (fun c => Nat.leb (fs_size c) NAME_MAX) cs = true ->
    namei_open fs cur cs = namei fs cur cs.
Proof.
  induction cs as [|c cs IH]; intros cur H; [reflexivity|].
  cbn [forallb] in H. apply andb_true_iff in H as [Hc Hcs].
  cbn [namei_open namei]. destruct (fs !! cur) as [[|]|]; try reflexivity.
  apply Nat.leb_le in Hc. rewrite (proj2 (Nat.ltb_ge _ _)) by lia. now apply IH.
Qed.

Lemma namei_open_inv (fs : gmap (list pystr) inode) (cs : list pystr) :
  forall cur t,
    namei_open fs cur cs = inr t ->
    forallb (fun c => Nat.leb (fs_size c) NAME_MAX) cs = true /\
    namei fs cur cs = inr t.
Proof.
  induction cs as [|c cs IH]; intros cur t H; [now split|].
  cbn [namei_open namei forallb] in *.
  destruct (fs !! cur) as [[|]|]; try discriminate H.
  destruct (Nat.ltb_spec NAME_MAX (fs_size c)) as [L|L]; [discriminate H|].
  rewrite (proj2 (Nat.leb_le _ _) L). cbn [andb]. now apply IH.
Qed.

Lemma resolve_open_openable (w : world) (path : pystr) :
  openable path = true -> resolve_open w path = resolve w path.
Proof.
  unfold openable, resolve_open, resolve. intros H.
  apply andb_true_iff in H as [H Hc]. apply andb_true_iff in H as [_ Hp].
  destruct path as [|x path]; [reflexivity|].
  apply Nat.ltb_lt in Hp. rewrite (proj2 (Nat.leb_gt _ _)) by lia.
  now apply namei_open_short.
Qed.

(** A name that [doc.save] does not refuse is one that can be opened. *)
Lemma docx_save_openable (doc : document) (path : pystr) (w w' : world) :
  docx_save doc path w = (Return tt, w') -> openable path = true.
Proof.
  unfold docx_save, openable.
  destruct (encode_error true path 0) as [r|] eqn:E; [discriminate|].
  apply encode_error_escape in E. rewrite E.
  destruct (existsb (N.eqb 0) path); [discriminate|]. cbn [negb andb].
  unfold resolve_open. destruct path as [|x path]; [discriminate|].
  destruct (Nat.leb_spec PATH_MAX (fs_size (x :: path))) as [L|L]; [discriminate|].
  rewrite (proj2 (Nat.ltb_lt _ _) L). cbn [andb].
  destruct (namei_open _ _ _) as [e|t] eqn:N; [discriminate|].
  intros _. now apply namei_open_inv in N as [N _].
Qed.

Lemma docx_save_resolve (doc : document) (path : pystr) (w : world) :
  openable path = true ->
  docx_save doc path w =
  match resolve w path with
  | inl e => (Raise (OSError e path), w)
  | inr t =>
      match files w !! t with
      | Some (Directory _) => (Raise (OSError IsADirectoryError path), w)
      | Some (File _ _) =>
          (Return tt,
           tick (with_files
                   (<[t := new_file w doc (clock w (ticks w))]> (files w)) w))
      | None => (Return tt, create t (new_file w doc) w)
      end
  end.
Proof.
  intros H. unfold docx_save. rewrite (resolve_open_openable w path H).
  unfold openable in H.
  apply andb_true_iff in H as [H _]. apply andb_true_iff in H as [H _].
  apply andb_true_iff in H as [He Hz].
  apply negb_true_iff in He, Hz.
  now rewrite (proj2 (encode_error_escape path 0) He), Hz.
Qed.

(** What [doc.save] leaves behind when the name can be opened, resolves
    to [t] and [t] is not a directory. *)
Lemma docx_save_run (doc : document) (path : pystr) (w : world)
    (t : list pystr) :
  openable path = true ->
  resolve w path = inr t ->
  is_directory (files w !! t) = false ->
  exists w',
    docx_save doc path w = (Return tt, w') /\
    files w' !! t = Some (new_file w doc (clock w (ticks w))) /\
    (forall q, is_directory (files w !! q) = true ->
               is_directory (files w' !! q) = true) /\
    cwd w' = cwd w /\ fromtimestamp w' = fromtimestamp w /\
    (plain_names w -> Forall (fun c => plain c = true) t -> plain_names w').
Proof.
  intros Ho Hr Ht. rewrite (docx_save_resolve doc path w Ho), Hr.
  destruct (files w !! t) as [[st c|st]|] eqn:E; [|discriminate|].
  - eexists. split; [reflexivity|]. cbn [files tick with_files cwd fromtimestamp].
    split; [apply lookup_insert_eq|]. split; [|split; [reflexivity|split; [reflexivity|]]].
    + intros q Hq. destruct (decide (t = q)) as [<-|Hne].
      * now rewrite E in Hq.
      * now rewrite lookup_insert_ne.
    + intros Hw Hpl q j. cbn [files tick with_files].
      destruct (decide (t = q)) as [<-|Hne]; [intros _; assumption|].
      rewrite lookup_insert_ne by assumption. apply Hw.
  - eexists. split; [reflexivity|].
    split; [rewrite create_lookup; now rewrite decide_True|].
    split; [intros q Hq; now apply create_keeps_directories|].
    split; [reflexivity|]. split; [reflexivity|].
    intros Hw Hpl. now apply create_plain_names.
Qed.

(** [save_document] once [os.makedirs] has returned: the file is written
    under the name [filename] in the directory and the joined name is
    returned. *)
Lemma save_document_run (doc : document) (f d : pystr) (w w1 : world) :
  plain f = true ->
  openable (os_path_join d f) = true ->
  os_makedirs d w = (Return tt, w1) ->
  path_isdir w1 (os_path_join d f) = false ->
  exists t w2,
    save_document doc f d w = (Return (os_path_join d f), w2) /\
    resolve w2 d = inr t /\
    resolve w2 (os_path_join d f) = inr (t ++ [f]) /\
    is_directory (files w2 !! t) = true /\
    files w2 !! (t ++ [f]) = Some (new_file w1 doc (clock w1 (ticks w1))) /\
    cwd w2 = cwd w /\ fromtimestamp w2 = fromtimestamp w /\
    (forall q, is_directory (files w !! q) = true ->
               is_directory (files w2 !! q) = true) /\
    (plain_names w -> plain_names w2).
Proof.
  intros Hf Ho Hmk Hnd.
  destruct (os_makedirs_made _ _ _ Hmk)
    as ((t & Hr & Ht) & Hkeep & Hcwd & Hft & Hps & Hpl).
  pose proof (resolve_join w1 d f t Hf Hr Ht) as Hj.
  assert (is_directory (files w1 !! (t ++ [f])) = false) as Hnd'.
  { unfold path_isdir, lookup_path in Hnd. now rewrite Hj in Hnd. }
  destruct (docx_save_run doc _ w1 _ Ho Hj Hnd')
    as (w2 & Hsave & Hlook & Hkeep2 & Hcwd2 & Hft2 & Hpl2).
  exists t, w2.
  assert (resolve w2 d = inr t) as Hr2
    by (eapply resolve_directories; eauto).
  assert (is_directory (files w2 !! t) = true) as Ht2 by auto.
  split.
  { unfold save_document. rewrite (bind_Return _ _ _ _ _ Hmk).
    now rewrite (bind_Return _ _ _ _ _ Hsave). }
  split; [assumption|].
  split; [now apply resolve_join|].
  split; [assumption|]. split; [assumption|].
  split; [congruence|]. split; [congruence|].
  split; [auto|].
  intros Hw. apply Hpl2; [auto|].
  assert (Forall (fun c => plain c = true) t) as Hplt.
  { destruct (files w1 !! t) as [i|] eqn:E; [|discriminate Ht]. apply (Hpl Hw _ _ E). }
  apply Forall_app. split; [assumption|]. now repeat constructor.
Qed.







(** A base directory that is missing from an existing working directory
    is made. *)
Lemma os_makedirs_fresh (w : world) (d : pystr) :
  plain d = true ->
  is_directory (files w !! cwd w) = true ->
  files w !! (cwd w ++ [d]) = None ->
  os_makedirs d w =
  (Return tt, create (cwd w ++ [d]) (new_directory w) w) /\
  path_isdir (create (cwd w ++ [d]) (new_directory w) w) d = true.
Proof.
  intros Hd Hcwd Hnone.
  pose proof Hd as (Hne & _ & _ & Hsl)%plain_spec.
  assert (os_makedirs d w =
          (Return tt, create (cwd w ++ [d]) (new_directory w) w)) as Hmk.
  { unfold os_makedirs. destruct d as [|x d'] eqn:Ed; [congruence|]. rewrite <- Ed in *.
    unfold start_of. rewrite (plain_not_absolute d Hd), (split_on_without _ d Hsl).
    cbn [makedirs_from].
    destruct (files w !! cwd w) as [[|st]|] eqn:E; try discriminate Hcwd.
    rewrite (step_plain _ _ Hd), Hnone, create_lookup, decide_True by reflexivity.
    reflexivity. }
  split; [exact Hmk|].
  now destruct (os_makedirs_made _ _ _ Hmk) as (H%path_isdir_spec & _).
Qed.

(* ===================================================================== *)
(** * The order of strings and the sort *)
(* ===================================================================== *)

Lemma str_ltb_irrefl (a : pystr) : str_ltb a a = false.
Proof.
  induction a as [|x a IH]; [reflexivity|].
  cbn. now rewrite N.ltb_irrefl, N.eqb_refl, IH.
Qed.

Lemma str_ltb_trans (a b c : pystr) :
  str_ltb a b = true -> str_ltb b c = true -> str_ltb a c = true.
Proof.
  revert b c. induction a as [|x a IH]; intros [|y b] [|z c]; cbn;
    try discriminate; try reflexivity.
  rewrite !orb_true_iff, !andb_true_iff, !N.ltb_lt, !N.eqb_eq.
  intros [Hxy|[-> Hab]] [Hyz|[-> Hbc]].
  - left. lia.
  - now left.
  - now left.
  - right. split; [reflexivity|]. now apply (IH b c).
Qed.

Lemma str_ltb_connex (a b : pystr) :
  str_ltb a b = false -> str_ltb b a = false -> a = b.
Proof.
  revert b. induction a as [|x a IH]; intros [|y b]; cbn;
    try discriminate; try reflexivity.
  rewrite !orb_false_iff, !andb_false_iff, !N.ltb_ge, !N.eqb_neq.
  intros [Hxy Hab] [Hyx Hba].
  assert (x = y) as -> by lia.
  f_equal. apply IH; [destruct Hab | destruct Hba]; congruence.
Qed.

(** A string below another is below, or above, any third one. *)
Lemma str_ltb_between (x y z : pystr) :
  str_ltb x z = true -> str_ltb x y = true \/ str_ltb y z = true.
Proof.
  intros Hxz. destruct (str_ltb x y) eqn:Hxy; [now left|]. right.
  destruct (str_ltb y x) eqn:Hyx.
  - now apply (str_ltb_trans y x z).
  - now rewrite <- (str_ltb_connex x y Hxy Hyx).
Qed.

Section Sort.
Context {A : Type} (key : A -> pystr).

Lemma insert_reverse_Permutation (x : A) (s : list A) :
  Permutation (insert_reverse key x s) (x :: s).
Proof.
  induction s as [|y s IH]; cbn; [reflexivity|].
  destruct (str_ltb (key x) (key y)); [|reflexivity].
  rewrite IH. apply perm_swap.
Qed.

Lemma sort_reverse_Permutation (l : list A) :
  Permutation (sort_reverse key l) l.
Proof.
  induction l as [|x l IH]; cbn; [reflexivity|].
  unfold sort_reverse in IH. now rewrite insert_reverse_Permutation, IH.
Qed.

Lemma insert_reverse_descending (x : A) (s : list A) :
  descending key s -> descending key (insert_reverse key x s).
Proof.
  unfold descending. induction 1 as [|y s Hs IH Hy]; cbn.
  - repeat constructor.
  - destruct (str_ltb (key x) (key y)) eqn:Hxy.
    + constructor; [assumption|].
      eapply Permutation_Forall;
        [symmetry; apply insert_reverse_Permutation|].
      constructor; [|assumption].
      destruct (str_ltb (key y) (key x)) eqn:Hyx; [|reflexivity].
      pose proof (str_ltb_trans _ _ _ Hxy Hyx) as H.
      now rewrite str_ltb_irrefl in H.
    + constructor; [now constructor|].
      constructor; [assumption|].
      eapply Forall_impl; [exact Hy|]. intros z Hyz. cbn beta in *.
      destruct (str_ltb (key x) (key z)) eqn:Hxz; [|reflexivity].
      destruct (str_ltb_between _ (key y) _ Hxz); congruence.
Qed.

(** The list sorted by [sort(key=..., reverse=True)] is in descending
    order of the keys and holds the elements it held. *)
Lemma sort_reverse_descending (l : list A) :
  descending key (sort_reverse key l).
Proof.
  induction l as [|x l IH]; cbn; [constructor|].
  now apply insert_reverse_descending.
Qed.
End Sort.

(* ===================================================================== *)
(** * ISO timestamps compare as the datetimes they print *)
(* ===================================================================== *)

Lemma decimal_value_bound (s : pystr) :
  Forall (fun c => is_digit c = true) s ->
  (decimal_value s < 10 ^ N.of_nat (length s))%N.
Proof.
  induction 1 as [|c s Hc _ IH]; cbn [decimal_value length]; [cbn; lia|].
  unfold is_digit in Hc. apply andb_true_iff in Hc as [H1 H2].
  apply N.leb_le in H1, H2.
  replace (N.of_nat (S (length s))) with (N.succ (N.of_nat (length s))) by lia.
  rewrite N.pow_succ_r'. nia.
Qed.

Lemma decimal_value_snoc (s : pystr) (c : N) :
  decimal_value (s ++ [c]) = (10 * decimal_value s + (c - 48))%N.
Proof.
  induction s as [|x s IH]; cbn [app decimal_value length].
  - cbn. lia.
  - rewrite IH, length_app. cbn [length].
    replace (N.of_nat (length s + 1)) with (N.succ (N.of_nat (length s))) by lia.
    rewrite N.pow_succ_r'. lia.
Qed.

Lemma decimal_value_zeros (n : nat) (s : pystr) :
  decimal_value (repeat (ord "0") n ++ s) = decimal_value s.
Proof.
  induction n as [|n IH]; [reflexivity|].
  cbn [repeat app decimal_value]. rewrite IH.
  change (ord "0" - 48)%N with 0%N. lia.
Qed.

(** The digits that are printed stand for the number. *)
Lemma digits_from_value (fuel : nat) (n : N) (acc : pystr) :
  (n < 10 ^ N.of_nat fuel)%N -> fuel <> 0 ->
  exists ds, digits_from 10 fuel n acc = ds ++ acc /\ decimal_value ds = n.
Proof.
  revert n acc. induction fuel as [|fuel IH]; intros n acc Hn Hfuel; [congruence|].
  cbn [digits_from].
  assert (n = 10 * (n / 10) + n mod 10)%N as Hdm
    by (apply N.div_mod; discriminate).
  assert (n mod 10 < 10)%N as Hr by (apply N.mod_lt; discriminate).
  assert (n / 10 < 10 ^ N.of_nat fuel)%N as Hq.
  { apply N.Div0.div_lt_upper_bound.
    replace (N.of_nat (S fuel)) with (N.succ (N.of_nat fuel)) in Hn by lia.
    now rewrite N.pow_succ_r' in Hn. }
  set (q := (n / 10)%N) in *. set (r := (n mod 10)%N) in *.
  clearbody q r.
  assert (digit_char r - 48 = r)%N as Hd.
  { unfold digit_char. destruct (N.ltb_spec r 10); lia. }
  destruct (N.eqb_spec q 0) as [Hz|Hnz].
  - exists [digit_char r]. split; [reflexivity|].
    cbn [decimal_value length]. rewrite Hd.
    change (10 ^ N.of_nat 0)%N with 1%N. lia.
  - assert (fuel <> 0) as Hf.
    { intros ->. change (10 ^ N.of_nat 0)%N with 1%N in Hq. lia. }
    destruct (IH q (digit_char r :: acc) Hq Hf) as (ds & -> & Hv).
    exists (ds ++ [digit_char r]). split; [now rewrite <- app_assoc|].
    rewrite decimal_value_snoc, Hv, Hd. lia.
Qed.

Lemma size_nat_pow10 (n : N) : (n < 10 ^ N.of_nat (S (N.size_nat n)))%N.
Proof.
  assert (forall p, (N.pos p < 10 ^ N.of_nat (Pos.size_nat p))%N) as H.
  { induction p as [p IH|p IH|]; cbn [Pos.size_nat].
    - replace (N.of_nat (S (Pos.size_nat p)))
        with (N.succ (N.of_nat (Pos.size_nat p))) by lia.
      rewrite N.pow_succ_r'. lia.
    - replace (N.of_nat (S (Pos.size_nat p)))
        with (N.succ (N.of_nat (Pos.size_nat p))) by lia.
      rewrite N.pow_succ_r'. lia.
    - cbn. lia. }
  replace (N.of_nat (S (N.size_nat n))) with (N.succ (N.of_nat (N.size_nat n)))
    by lia.
  rewrite N.pow_succ_r'. destruct n as [|p]; [cbn; lia|].
  specialize (H p). cbn [N.size_nat]. lia.
Qed.

Lemma fmt_0d_value (width : nat) (n : N) : decimal_value (fmt_0d width n) = n.
Proof.
  unfold fmt_0d, zero_fill, digits. rewrite decimal_value_zeros.
  destruct (digits_from_value (S (N.size_nat n)) n [] (size_nat_pow10 n))
    as (ds & -> & Hv); [discriminate|].
  now rewrite app_nil_r.
Qed.

(** Strings of digits of one length compare as their numbers do. *)
Lemma str_ltb_digits (a b s t : pystr) :
  length a = length b ->
  Forall (fun c => is_digit c = true) a ->
  Forall (fun c => is_digit c = true) b ->
  str_ltb (a ++ s) (b ++ t) =
  N.ltb (decimal_value a) (decimal_value b) ||
  (N.eqb (decimal_value a) (decimal_value b) && str_ltb s t).
Proof.
  revert b. induction a as [|x a IH]; intros [|y b] Hlen Ha Hb;
    try discriminate Hlen.
  - cbn [app decimal_value]. now destruct (str_ltb s t).
  - injection Hlen as Hlen.
    apply Forall_cons in Ha as [Hx Ha]. apply Forall_cons in Hb as [Hy Hb].
    pose proof (decimal_value_bound a Ha) as Hva.
    pose proof (decimal_value_bound b Hb) as Hvb.
    cbn [app str_ltb decimal_value]. rewrite (IH b Hlen Ha Hb), <- Hlen.
    unfold is_digit in Hx, Hy.
    apply andb_true_iff in Hx as [Hx1 Hx2]. apply andb_true_iff in Hy as [Hy1 Hy2].
    apply N.leb_le in Hx1, Hx2, Hy1, Hy2. rewrite <- Hlen in Hvb.
    set (P := (10 ^ N.of_nat (length a))%N) in *.
    set (va := decimal_value a) in *. set (vb := decimal_value b) in *.
    destruct (N.ltb_spec x y) as [Hxy|Hxy].
    + assert (((x - 48) * P + va < (y - 48) * P + vb)%N) as Hlt by nia.
      apply N.ltb_lt in Hlt. now rewrite Hlt.
    + destruct (N.eqb_spec x y) as [->|Hne].
      * cbn [orb andb].
        destruct (N.ltb_spec va vb) as [Hv|Hv].
        -- assert (((y - 48) * P + va < (y - 48) * P + vb)%N) as Hlt by lia.
           apply N.ltb_lt in Hlt. now rewrite Hlt.
        -- assert (((y - 48) * P + va <? (y - 48) * P + vb)%N = false) as ->
             by (apply N.ltb_ge; lia).
           cbn [orb].
           destruct (N.eqb_spec va vb) as [->|Hvne].
           ++ now rewrite N.eqb_refl.
           ++ assert (((y - 48) * P + va =? (y - 48) * P + vb)%N = false) as ->
                by (apply N.eqb_neq; lia).
              reflexivity.
      * cbn [orb andb].
        assert (((y - 48) * P + vb < (x - 48) * P + va)%N) as Hgt by nia.
        assert (((x - 48) * P + va <? (y - 48) * P + vb)%N = false) as ->
          by (apply N.ltb_ge; lia).
        assert (((x - 48) * P + va =? (y - 48) * P + vb)%N = false) as ->
          by (apply N.eqb_neq; lia).
        reflexivity.
Qed.

(** Two numbers printed in one width compare as they do. *)
Lemma str_ltb_fmt_0d (k : nat) (a b : N) (s t : pystr) :
  (a < 10 ^ N.of_nat (S k))%N -> (b < 10 ^ N.of_nat (S k))%N ->
  str_ltb (fmt_0d (S k) a ++ s) (fmt_0d (S k) b ++ t) =
  N.ltb a b || (N.eqb a b && str_ltb s t).
Proof.
  intros Ha Hb.
  rewrite str_ltb_digits, !fmt_0d_value; [reflexivity| |apply fmt_0d_digits..].
  now rewrite !fmt_0d_length.
Qed.

Lemma str_ltb_cons (c : N) (s t : pystr) :
  str_ltb (c :: s) (c :: t) = str_ltb s t.
Proof. cbn. now rewrite N.ltb_irrefl, N.eqb_refl. Qed.

(** The ISO forms of two datetimes compare as the datetimes do. *)
Lemma isoformat_ltb (d1 d2 : datetime) :
  valid_datetime d1 -> valid_datetime d2 ->
  str_ltb (isoformat d1) (isoformat d2) = datetime_ltb d1 d2.
Proof.
  intros (Hy1 & Hm1 & Hd1 & HH1 & HM1 & HS1 & Hu1)
         (Hy2 & Hm2 & Hd2 & HH2 & HM2 & HS2 & Hu2).
  assert (str_ltb
            (if N.eqb (microsecond d1) 0 then []
             else ord "." :: fmt_0d 6 (microsecond d1))
            (if N.eqb (microsecond d2) 0 then []
             else ord "." :: fmt_0d 6 (microsecond d2)) =
          N.ltb (microsecond d1) (microsecond d2)) as Hfrac.
  { destruct (N.eqb_spec (microsecond d1) 0) as [E1|E1];
      destruct (N.eqb_spec (microsecond d2) 0) as [E2|E2].
    - rewrite E1, E2. reflexivity.
    - rewrite E1. cbn [str_ltb]. symmetry. apply N.ltb_lt. lia.
    - rewrite E2. cbn [str_ltb]. symmetry. apply N.ltb_ge. lia.
    - rewrite str_ltb_cons.
      rewrite <- (app_nil_r (fmt_0d 6 (microsecond d1))),
              <- (app_nil_r (fmt_0d 6 (microsecond d2))).
      rewrite (str_ltb_fmt_0d 5) by (cbn; lia). cbn [str_ltb].
      now rewrite andb_false_r, orb_false_r. }
  unfold isoformat, datetime_ltb.
  change (py "-") with [ord "-"]. change (py "T") with [ord "T"].
  change (py ":") with [ord ":"]. change (py "." ++ fmt_0d 6 (microsecond d1))
    with (ord "." :: fmt_0d 6 (microsecond d1)).
  change (py "." ++ fmt_0d 6 (microsecond d2))
    with (ord "." :: fmt_0d 6 (microsecond d2)).
  cbn [app].
  rewrite (str_ltb_fmt_0d 3) by (cbn; lia). rewrite str_ltb_cons.
  rewrite (str_ltb_fmt_0d 1) by (cbn; lia). rewrite str_ltb_cons.
  rewrite (str_ltb_fmt_0d 1) by (cbn; lia). rewrite str_ltb_cons.
  rewrite (str_ltb_fmt_0d 1) by (cbn; lia). rewrite str_ltb_cons.
  rewrite (str_ltb_fmt_0d 1) by (cbn; lia). rewrite str_ltb_cons.
  rewrite (str_ltb_fmt_0d 1) by (cbn; lia).
  now rewrite Hfrac.
Qed.

(* ===================================================================== *)
(** * The listing of the content store *)
(* ===================================================================== *)

Lemma list_step_run (w : world) (t : list pystr)
    (acc : list enhanced_main.document_entry) (c : pystr) :
  plain_names w ->
  resolve w (py "generated") = inr t ->
  is_directory (files w !! t) = true ->
  is_Some (files w !! (t ++ [c])) ->
  enhanced_main.list_step (py "generated") acc c w =
  (Return (acc ++ (if is_docx c then [entry_of w t c] else [])), w).
Proof.
  intros Hw Hr Ht [i Hi]. unfold enhanced_main.list_step, is_docx.
  destruct (endswith c (py ".docx")); [|now rewrite app_nil_r].
  assert (plain c = true) as Hc.
  { pose proof (Hw _ _ Hi) as H. now apply Forall_app in H as [_ [H _]%Forall_cons]. }
  unfold os_stat, bind, gets, ret.
  rewrite (resolve_join w _ c t Hc Hr Ht), Hi.
  unfold entry_of. rewrite Hi. reflexivity.
Qed.

Lemma for_each_list_step (w : world) (t : list pystr) (names : list pystr)
    (acc : list enhanced_main.document_entry) :
  plain_names w ->
  resolve w (py "generated") = inr t ->
  is_directory (files w !! t) = true ->
  Forall (fun c => is_Some (files w !! (t ++ [c]))) names ->
  for_each names (enhanced_main.list_step (py "generated")) acc w =
  (Return (acc ++ map (entry_of w t) (List.filter is_docx names)), w).
Proof.
  intros Hw Hr Ht. revert acc. induction names as [|c names IH]; intros acc Hall.
  - cbn. now rewrite app_nil_r.
  - apply Forall_cons in Hall as [Hc Hall]. cbn [for_each].
    rewrite (bind_Return _ _ _ _ _ (list_step_run w t acc c Hw Hr Ht Hc)).
    rewrite (IH _ Hall). cbn [List.filter].
    destruct (is_docx c); cbn [map]; now rewrite <- app_assoc.
Qed.

(** The listing when the store is a directory. *)
Lemma list_documents_run (w : world) (t : list pystr) :
  plain_names w ->
  resolve w (py "generated") = inr t ->
  is_directory (files w !! t) = true ->
  enhanced_main.list_documents w =
  (Return (sort_reverse enhanced_main.entry_created_at
             (map (entry_of w t) (List.filter is_docx (entries (files w) t)))),
   w).
Proof.
  intros Hw Hr Ht. unfold enhanced_main.list_documents.
  apply try_except_Return.
  assert (path_exists w (py "generated") = true) as Hex.
  { unfold path_exists, lookup_path. rewrite Hr. apply bool_decide_eq_true.
    destruct (files w !! t); [eauto | discriminate]. }
  unfold os_path_exists, gets. unfold bind at 1. rewrite Hex. cbn [negb].
  assert (os_listdir (py "generated") w = (Return (entries (files w) t), w)) as Hls.
  { unfold os_listdir. rewrite Hr.
    destruct (files w !! t) as [[|]|]; try discriminate Ht. reflexivity. }
  rewrite (bind_Return _ _ _ _ _ Hls).
  erewrite bind_Return; [reflexivity|].
  rewrite for_each_list_step with (t := t); try assumption; [reflexivity|].
  apply Forall_forall. intros c Hc. now apply entries_spec.
Qed.

(** The listing when there is no store. *)
Lemma list_documents_absent (w : world) :
  path_exists w (py "generated") = false ->
  enhanced_main.list_documents w = (Return [], w).
Proof.
  intros H. unfold enhanced_main.list_documents. apply try_except_Return.
  unfold os_path_exists, gets. unfold bind at 1. now rewrite H.
Qed.

Lemma stored_spec (w : world) (t : list pystr) (c : pystr) :
  resolve w (py "generated") = inr t ->
  is_directory (files w !! t) = true ->
  stored w c = files w !! (t ++ [c]).
Proof. intros Hr Ht. unfold stored. now rewrite Hr, Ht. Qed.

Lemma StronglySorted_Forall_impl {A} (R R' : A -> A -> Prop) (Q : A -> Prop)
    (l : list A) :
  (forall a b, Q a -> Q b -> R a b -> R' a b) ->
  StronglySorted R l -> Forall Q l -> StronglySorted R' l.
Proof.
  intros Himpl. induction 1 as [|a l Hl IH Ha]; intros HQ; [constructor|].
  apply Forall_cons in HQ as [Hqa HQ]. constructor; [now apply IH|].
  rewrite Forall_forall in *. intros b Hb. apply Himpl; auto.
Qed.

(** C8.  When the names of the file system are plain and "generated" is
    not a regular file, [list_documents] returns, without changing
    anything, one record for each entry of the store whose name ends in
    ".docx" and no other record; each record carries the name of its
    entry, the size of the entry and the ISO form of its creation time;
    and the records are in descending order of that creation time. *)
Theorem list_documents_sorted (w : world) :
  plain_names w ->
  (forall st c, lookup_path w (py "generated") <> Some (File st c)) ->
  exists docs,
    enhanced_main.list_documents w = (Return docs, w) /\ listing_of w docs.
Proof.
  intros Hw Hnf. unfold listing_of.
  destruct (lookup_path w (py "generated")) as [[st c|st]|] eqn:E.
  - exfalso. now apply (Hnf st c).
  - assert (exists t, resolve w (py "generated") = inr t /\
                      is_directory (files w !! t) = true) as (t & Hr & Ht).
    { apply path_isdir_spec. unfold path_isdir. now rewrite E. }
    set (names := List.filter is_docx (entries (files w) t)).
    assert (map enhanced_main.entry_filename (map (entry_of w t) names) = names)
      as Hnames.
    { rewrite map_map. cbn. apply map_id. }
    assert (Permutation
              (sort_reverse enhanced_main.entry_created_at
                 (map (entry_of w t) names))
              (map (entry_of w t) names)) as Hperm
      by apply sort_reverse_Permutation.
    exists (sort_reverse enhanced_main.entry_created_at (map (entry_of w t) names)).
    split; [exact (list_documents_run w t Hw Hr Ht)|].
    assert (Forall
              (fun e =>
                 exists i,
                   stored w (enhanced_main.entry_filename e) = Some i /\
                   enhanced_main.entry_size e = st_size (inode_stat i) /\
                   enhanced_main.entry_created_at e =
                   isoformat (entry_datetime w i))
              (sort_reverse enhanced_main.entry_created_at
                 (map (entry_of w t) names))) as Hrecords.
    { eapply Permutation_Forall; [symmetry; exact Hperm|].
      apply Forall_forall. intros e He.
      apply list_elem_of_In, in_map_iff in He as (c & <- & Hc).
      apply filter_In in Hc as [Hc _].
      apply list_elem_of_In, entries_spec in Hc as [i Hi].
      exists i. cbn [enhanced_main.entry_filename entry_of].
      rewrite (stored_spec w t c Hr Ht). unfold entry_of, entry_datetime.
      rewrite Hi. repeat split. }
    split; [apply sort_reverse_descending|].
    split.
    { rewrite Hperm, Hnames. apply NoDup_ListNoDup, List.NoDup_filter,
        NoDup_ListNoDup, entries_NoDup. }
    split.
    { intros entry. rewrite Hperm, Hnames. unfold names.
      rewrite filter_In, <- list_elem_of_In, entries_spec,
        (stored_spec w t entry Hr Ht). tauto. }
    split; [exact Hrecords|].
    intros Hvalid.
    eapply StronglySorted_Forall_impl;
      [|apply (sort_reverse_descending enhanced_main.entry_created_at)
       |exact Hrecords].
    cbn beta. intros e1 e2 (j1 & Hs1 & _ & Hc1) (j2 & Hs2 & _ & Hc2) Hdesc i1 i2 H1 H2.
    rewrite Hs1 in H1. rewrite Hs2 in H2. injection H1 as <-. injection H2 as <-.
    rewrite Hc1, Hc2 in Hdesc.
    unfold entry_datetime in *. now rewrite <- isoformat_ltb by apply Hvalid.
  - exists []. split.
    { apply list_documents_absent. unfold path_exists. rewrite E.
      apply bool_decide_eq_false. now intros [? ?]. }
    split; [constructor|]. split; [constructor|].
    split; [|split; [constructor | intros _; constructor]].
    intros entry. cbn. split; [tauto|]. intros [_ [i Hi]].
    unfold stored in Hi. unfold lookup_path in E.
    destruct (resolve w (py "generated")) as [|t]; [discriminate|].
    now rewrite E in Hi.
Qed.

Lemma sample_store_plain_names : plain_names sample_store.
Proof.
  assert (map_Forall (fun p _ => Forall (fun c => plain c = true) p)
            (files sample_store)) as H
    by (apply (bool_decide_unpack _); vm_compute; reflexivity).
  exact H.
Qed.

Lemma list_documents_sorted_witness :
  plain_names sample_store /\
  (forall st c, lookup_path sample_store (py "generated") <> Some (File st c)) /\
  exists docs,
    enhanced_main.list_documents sample_store = (Return docs, sample_store) /\
    listing_of sample_store docs.
Proof.
  pose proof sample_store_plain_names as H1.
  assert (forall st c,
            lookup_path sample_store (py "generated") <> Some (File st c)) as H2.
  { intros st c.
    assert (lookup_path sample_store (py "generated") =
            Some (Directory {| st_size := 4096; st_ctime := 5 |})) as ->
      by (vm_compute; reflexivity).
    discriminate. }
  split; [exact H1|]. split; [exact H2|].
  exact (list_documents_sorted sample_store H1 H2).
Defined.

(* ===================================================================== *)
(** * Saving, listing and deleting *)
(* ===================================================================== *)

Lemma filename_is_docx (document_type student_name purpose : pystr)
    (w w' : world) :
  is_docx (document_type ++ py "_" ++ sanitize student_name ++ py "_" ++
           firstn 20 (sanitize purpose) ++ py "_" ++ timestamp_of w ++ py "_" ++
           unique_id_of w' ++ py ".docx") = true.
Proof.
  unfold is_docx. rewrite !app_assoc. apply endswith_app.
Qed.

Lemma is_docx_plain (f : pystr) :
  is_docx f = true ->
  Forall (fun c => separator_free c = true) f ->
  plain f = true.
Proof.
  intros [r ->]%endswith_suffix Hsep. apply plain_spec.
  assert (5 <= length (r ++ py ".docx")) as Hlen
    by (rewrite length_app; cbn; lia).
  repeat split.
  - intros E. rewrite E in Hlen. cbn in Hlen. lia.
  - intros E. rewrite E in Hlen. cbn in Hlen. lia.
  - intros E. rewrite E in Hlen. cbn in Hlen. lia.
  - eapply Forall_impl; [exact Hsep|]. intros c Hc ->. discriminate Hc.
Qed.

(** A document is returned only for a document type of the table, and its
    filename is the one built from the name and the purpose of the
    record. *)
Lemma generate_document_inv (uc dt : pystr) (sd : gmap pystr pystr)
    (w w' : world) (doc : document) (fn : pystr) :
  generate_document uc dt sd w = (Return (doc, fn), w') ->
  In dt known_document_types /\
  w' = draw (tick (tick (tick w))) /\
  exists n p,
    fn = dt ++ py "_" ++ sanitize n ++ py "_" ++ firstn 20 (sanitize p) ++
         py "_" ++ timestamp_of (tick (tick w)) ++ py "_" ++
         unique_id_of w ++ py ".docx".
Proof.
  intros H.
  destruct (generate_document_Return uc dt sd w w' doc fn H)
    as (u & tpl & ts & n & p & _ & Ht & _ & _ & _ & _ & _ & _ & _ & Hfn & Hw).
  split; [|eauto].
  destruct (In_dec (fun a b : pystr => decide (a = b)) dt known_document_types)
    as [Hin|Hnin]; [assumption|].
  apply document_templates_lookup in Hnin. congruence.
Qed.

Lemma docx_save_directory (doc : document) (path : pystr) (w w' : world) :
  docx_save doc path w = (Return tt, w') -> path_isdir w path = false.
Proof.
  intros H. pose proof (docx_save_openable doc path w w' H) as Ho.
  rewrite (docx_save_resolve doc path w Ho) in H.
  unfold path_isdir, lookup_path.
  destruct (resolve w path) as [e|t]; [reflexivity|].
  destruct (files w !! t) as [[|]|]; [reflexivity | discriminate | reflexivity].
Qed.

(** What a successful [generate_and_save] into "generated" leaves in the
    store. *)
Lemma generate_and_save_stored (uc dt : pystr) (sd : gmap pystr pystr)
    (w w1 : world) (r : result) :
  plain_names w ->
  generate_and_save uc dt sd default_output_dir w = (Return r, w1) ->
  plain (filename r) = true /\
  is_docx (filename r) = true /\
  plain_names w1 /\
  exists t st c,
    resolve w1 (py "generated") = inr t /\
    is_directory (files w1 !! t) = true /\
    files w1 !! (t ++ [filename r]) = Some (File st c).
Proof.
  intros Hw H. unfold generate_and_save in H.
  apply bind_inv in H as ([doc fn] & w0 & Hgen & H).
  apply bind_inv in H as (path & w1' & Hsave & H).
  injection H as <- <-. cbn [filename].
  apply generate_document_inv in Hgen as (Hdt & -> & n & p & ->).
  set (fn := dt ++ _) in *.
  assert (is_docx fn = true) as Hdocx by apply filename_is_docx.
  assert (plain fn = true) as Hplain
    by (apply is_docx_plain; [assumption | now apply filename_separator_free]).
  split; [assumption|]. split; [assumption|].
  pose proof Hsave as Hsave'. unfold save_document in Hsave'.
  apply bind_inv in Hsave' as ([] & wa & Hmk & Hsave').
  apply bind_inv in Hsave' as ([] & wb & Hdoc & _).
  pose proof (docx_save_openable _ _ _ _ Hdoc) as Hopen.
  apply docx_save_directory in Hdoc.
  destruct (save_document_run doc fn default_output_dir _ _ Hplain Hopen Hmk Hdoc)
    as (t & w2 & Heq & Hr & _ & Ht & Hlook & _ & _ & _ & Hpl).
  rewrite Heq in Hsave. injection Hsave as _ <-.
  split; [now apply Hpl|].
  exists t. unfold new_file in Hlook. eauto 10.
Qed.

Lemma unlink_keeps_directories (t : list pystr) (w : world) (q : list pystr) :
  is_directory (files w !! t) = false ->
  is_directory (files w !! q) = true ->
  is_directory (files (unlink t w) !! q) = true.
Proof.
  intros Ht Hq. rewrite unlink_lookup.
  destruct (decide (t = q)) as [->|]; [congruence|].
  destruct (decide (removelast t = q)); [now rewrite touch_is_directory|assumption].
Qed.

Lemma unlink_plain_names (t : list pystr) (w : world) :
  plain_names w -> plain_names (unlink t w).
Proof.
  intros Hw q j. rewrite unlink_lookup.
  destruct (decide (removelast t = q)) as [<-|];
    destruct (decide (t = _)); try discriminate; [|apply Hw].
  intros H. destruct (files w !! removelast t) as [k|] eqn:E; [|discriminate].
  apply (Hw _ _ E).
Qed.

(** Deleting an entry of the store that is a regular file. *)
Lemma delete_document_run (w : world) (t : list pystr) (f : pystr)
    (st : stat_result) (c : option document) :
  resolve w (py "generated") = inr t ->
  is_directory (files w !! t) = true ->
  plain f = true ->
  files w !! (t ++ [f]) = Some (File st c) ->
  enhanced_main.delete_document f w =
  (Return (py "Document " ++ f ++ py " deleted successfully"),
   unlink (t ++ [f]) w).
Proof.
  intros Hr Ht Hf Hlook. unfold enhanced_main.delete_document.
  apply try_except_Return.
  pose proof (resolve_join w _ f t Hf Hr Ht) as Hj.
  unfold os_path_exists, gets, path_exists, lookup_path. unfold bind at 1.
  rewrite Hj, Hlook, bool_decide_eq_true_2 by eauto. cbn [negb].
  unfold os_remove, bind, ret. now rewrite Hj, Hlook.
Qed.

(** Deleting a name that the store does not hold. *)
Lemma delete_document_missing (w : world) (t : list pystr) (f : pystr) :
  resolve w (py "generated") = inr t ->
  is_directory (files w !! t) = true ->
  plain f = true ->
  files w !! (t ++ [f]) = None ->
  enhanced_main.delete_document f w =
  (Raise (HTTPException 404 (py "Document not found")), w).
Proof.
  intros Hr Ht Hf Hlook. unfold enhanced_main.delete_document.
  pose proof (resolve_join w _ f t Hf Hr Ht) as Hj.
  rewrite (try_except_Raise _ _ w w
             (HTTPException 404 (py "Document not found"))); [reflexivity|].
  unfold os_path_exists, gets, path_exists, lookup_path. unfold bind at 1.
  rewrite Hj, Hlook, bool_decide_eq_false_2 by (now intros [? ?]).
  reflexivity.
Qed.

(** C6.  After [generate_and_save] has returned for the store "generated",
    the listing holds an entry with the filename that was returned; the
    deletion of that filename returns, and afterwards the listing holds no
    such entry and a second deletion raises the HTTP error 404. *)
Theorem save_list_delete_roundtrip (uc dt : pystr) (sd : gmap pystr pystr)
    (w w1 : world) (r : result) :
  plain_names w ->
  generate_and_save uc dt sd default_output_dir w = (Return r, w1) ->
  exists docs1 message w2 docs2,
    enhanced_main.list_documents w1 = (Return docs1, w1) /\
    In (filename r) (map enhanced_main.entry_filename docs1) /\
    enhanced_main.delete_document (filename r) w1 = (Return message, w2) /\
    enhanced_main.list_documents w2 = (Return docs2, w2) /\
    ~ In (filename r) (map enhanced_main.entry_filename docs2) /\
    enhanced_main.delete_document (filename r) w2 =
    (Raise (HTTPException 404 (py "Document not found")), w2).
Proof.
  intros Hw H.
  destruct (generate_and_save_stored _ _ _ _ _ _ Hw H)
    as (Hplain & Hdocx & Hw1 & t & st & c & Hr & Ht & Hlook).
  set (f := filename r) in *.
  assert (forall w' names,
            Permutation
              (map enhanced_main.entry_filename
                 (sort_reverse enhanced_main.entry_created_at
                    (map (entry_of w' t) names))) names) as Hnames.
  { intros w' names. rewrite sort_reverse_Permutation, map_map. cbn.
    now rewrite map_id. }
  assert (is_directory (files w1 !! (t ++ [f])) = false) as Hfile
    by now rewrite Hlook.
  assert (removelast (t ++ [f]) = t) as Hparent by apply removelast_last.
  assert (resolve (unlink (t ++ [f]) w1) (py "generated") = inr t) as Hr2.
  { apply (resolve_directories w1 (unlink (t ++ [f]) w1));
      [|reflexivity|exact Hr].
    intros q. now apply unlink_keeps_directories. }
  assert (is_directory (files (unlink (t ++ [f]) w1) !! t) = true) as Ht2
    by now apply unlink_keeps_directories.
  assert (files (unlink (t ++ [f]) w1) !! (t ++ [f]) = None) as Hgone.
  { rewrite unlink_lookup, Hparent.
    rewrite decide_False by (rewrite <- Hparent at 1; apply removelast_ne;
                             now destruct t).
    now rewrite decide_True. }
  eexists _, _, _, _.
  split; [exact (list_documents_run w1 t Hw1 Hr Ht)|].
  split.
  { rewrite Hnames. apply filter_In. split; [|assumption].
    apply list_elem_of_In, entries_spec. eauto. }
  split; [exact (delete_document_run w1 t f st c Hr Ht Hplain Hlook)|].
  split; [exact (list_documents_run _ t (unlink_plain_names _ _ Hw1) Hr2 Ht2)|].
  split.
  { rewrite Hnames. intros [Hin _]%filter_In.
    apply list_elem_of_In, entries_spec in Hin as [i Hi]. congruence. }
  exact (delete_document_missing _ t f Hr2 Ht2 Hplain Hgone).
Qed.

Lemma sample_world_plain_names : plain_names sample_world.
Proof.
  assert (map_Forall (fun p _ => Forall (fun c => plain c = true) p)
            (files sample_world)) as H
    by (apply (bool_decide_unpack _); vm_compute; reflexivity).
  exact H.
Qed.

Lemma sample_saved_eq :
  generate_and_save (py "harvard") (py "bonafide") sample_student
    default_output_dir sample_world = (Return sample_result, snd sample_saved).
Proof.
  apply (run_Return
           (generate_and_save (py "harvard") (py "bonafide") sample_student
              default_output_dir)).
  vm_compute. reflexivity.
Qed.

Lemma save_list_delete_roundtrip_witness :
  plain_names sample_world /\
  generate_and_save (py "harvard") (py "bonafide") sample_student
    default_output_dir sample_world = (Return sample_result, snd sample_saved) /\
  exists docs1 message w2 docs2,
    enhanced_main.list_documents (snd sample_saved) =
    (Return docs1, snd sample_saved) /\
    In (filename sample_result) (map enhanced_main.entry_filename docs1) /\
    enhanced_main.delete_document (filename sample_result) (snd sample_saved) =
    (Return message, w2) /\
    enhanced_main.list_documents w2 = (Return docs2, w2) /\
    ~ In (filename sample_result) (map enhanced_main.entry_filename docs2) /\
    enhanced_main.delete_document (filename sample_result) w2 =
    (Raise (HTTPException 404 (py "Document not found")), w2).
Proof.
  split; [exact sample_world_plain_names|].
  split; [exact sample_saved_eq|].
  exact (save_list_delete_roundtrip (py "harvard") (py "bonafide") sample_student
           sample_world (snd sample_saved) sample_result
           sample_world_plain_names sample_saved_eq).
Defined.

(** The records of a listing that returned are of names ending in ".docx". *)
Lemma for_each_list_step_docx (names : list pystr)
    (acc docs : list enhanced_main.document_entry) (w w' : world) :
  for_each names (enhanced_main.list_step (py "generated")) acc w =
  (Return docs, w') ->
  Forall (fun e => is_docx (enhanced_main.entry_filename e) = true) acc ->
  Forall (fun e => is_docx (enhanced_main.entry_filename e) = true) docs.
Proof.
  revert acc w. induction names as [|c names IH]; intros acc w H Hacc;
    cbn [for_each] in H.
  - now injection H as <- _.
  - apply bind_inv in H as (acc' & w0 & Hstep & H).
    apply (IH _ _ H). unfold enhanced_main.list_step in Hstep.
    destruct (endswith c (py ".docx")) eqn:Hc.
    + apply bind_inv in Hstep as (st & w1 & _ & Hstep).
      apply bind_inv in Hstep as (f & w2 & _ & Hstep).
      injection Hstep as <- _. apply Forall_app. split; [assumption|].
      now repeat constructor.
    + now injection Hstep as <- _.
Qed.

Lemma list_documents_docx (w w' : world)
    (docs : list enhanced_main.document_entry) :
  enhanced_main.list_documents w = (Return docs, w') ->
  Forall (fun e => is_docx (enhanced_main.entry_filename e) = true) docs.
Proof.
  unfold enhanced_main.list_documents, try_except.
  destruct (bind _ _ w) as [[a|e] w0] eqn:E; [|discriminate].
  intros [= <- <-].
  apply bind_inv in E as (present & w1 & _ & E).
  destruct present; cbn [negb] in E; [|injection E as <- _; constructor].
  apply bind_inv in E as (names & w2 & _ & E).
  apply bind_inv in E as (documents & w3 & Hloop & E).
  injection E as <- _.
  eapply Permutation_Forall; [symmetry; apply sort_reverse_Permutation|].
  apply (for_each_list_step_docx _ _ _ _ _ Hloop). constructor.
Qed.

(** C10.  Every record of a listing that returned has a filename ending
    in ".docx", so an entry of the store whose name does not end in
    ".docx" is not listed; every name built by [generate_unique_filename]
    ends in ".docx"; and the file of a [generate_and_save] that returned
    for the store "generated" is listed. *)
Theorem listing_docx_only :
  (forall w w' docs,
     enhanced_main.list_documents w = (Return docs, w') ->
     Forall (fun e => is_docx (enhanced_main.entry_filename e) = true) docs /\
     forall entry,
       is_docx entry = false ->
       ~ In entry (map enhanced_main.entry_filename docs)) /\
  (forall document_type student_name purpose w,
     exists f,
       generate_unique_filename document_type student_name purpose w =
       (Return f, draw (tick w)) /\
       is_docx f = true) /\
  (forall uc dt sd w w1 r,
     plain_names w ->
     generate_and_save uc dt sd default_output_dir w = (Return r, w1) ->
     exists docs,
       enhanced_main.list_documents w1 = (Return docs, w1) /\
       In (filename r) (map enhanced_main.entry_filename docs)).
Proof.
  split; [|split].
  - intros w w' docs H. pose proof (list_documents_docx _ _ _ H) as Hall.
    split; [assumption|]. intros entry Hentry Hin.
    apply in_map_iff in Hin as (e & <- & He).
    rewrite Forall_forall in Hall. apply list_elem_of_In, Hall in He. congruence.
  - intros document_type student_name purpose w. eexists.
    split; [apply generate_unique_filename_run | apply filename_is_docx].
  - intros uc dt sd w w1 r Hw H.
    destruct (generate_and_save_stored _ _ _ _ _ _ Hw H)
      as (Hplain & Hdocx & Hw1 & t & st & c & Hr & Ht & Hlook).
    eexists. split; [exact (list_documents_run w1 t Hw1 Hr Ht)|].
    eapply Permutation_in;
      [apply Permutation_map; symmetry; apply sort_reverse_Permutation|].
    rewrite map_map. cbn. rewrite map_id. apply filter_In. split; [|assumption].
    apply list_elem_of_In, entries_spec. eauto.
Qed.

Lemma listing_docx_only_witness :
  exists docs,
    enhanced_main.list_documents sample_store = (Return docs, sample_store) /\
    map enhanced_main.entry_filename docs = [py "b.docx"; py "a.docx"] /\
    Forall (fun e => is_docx (enhanced_main.entry_filename e) = true) docs /\
    forall entry,
      is_docx entry = false ->
      ~ In entry (map enhanced_main.entry_filename docs).
Proof.
  assert (resolve sample_store (py "generated") = inr [py "generated"]) as Hr
    by (vm_compute; reflexivity).
  assert (is_directory (files sample_store !! [py "generated"]) = true) as Ht
    by (vm_compute; reflexivity).
  pose proof (list_documents_run sample_store _ sample_store_plain_names Hr Ht)
    as H.
  eexists. split; [exact H|].
  split; [vm_compute; reflexivity|].
  exact (proj1 listing_docx_only _ _ _ H).
Defined.

(* ===================================================================== *)
(** * The composed document: layout, page setup and metadata *)
(* ===================================================================== *)

Lemma sample_composed_eq :
  generate_document (py "stanford") (py "transfer") sample_student sample_world =
  (Return sample_document, snd sample_composed).
Proof.
  apply (run_Return
           (generate_document (py "stanford") (py "transfer") sample_student)).
  vm_compute. reflexivity.
Qed.

(** X1.  A document that [generate_document] returns has sixteen
    paragraphs in this order, with these texts and alignments: the logo
    placeholder, the upper-cased university name, the office line, the
    address and telephone on two lines, a rule of 80 underscores, an empty
    paragraph, the title of the template, an empty paragraph, the body, an
    empty paragraph, the date of the first clock reading, the place, an
    empty paragraph, a signature line of 40 underscores, "Registrar" and
    the university name. *)
Theorem generate_document_layout (uc dt : pystr) (sd : gmap pystr pystr)
    (w w' : world) (doc : document) (filename : pystr) :
  generate_document uc dt sd w = (Return (doc, filename), w') ->
  exists u tpl ts,
    universities !! uc = Some u /\
    document_templates !! dt = Some tpl /\
    body_tokens !! dt = Some ts /\
    map paragraph_text (paragraphs doc) =
    [ py "[" ++ name u ++ py " LOGO]";
      upper (name u);
      py "Office of the Registrar";
      address u ++ [10%N] ++ py "Tel: " ++ phone u;
      repeat (ord "_") 80;
      [];
      title tpl;
      [];
      substitute ts sd;
      [];
      py "Date: " ++
      strftime (fromtimestamp w (clock w (ticks w))) (py "%B %d, %Y");
      py "Place: " ++ name u;
      [];
      repeat (ord "_") 40;
      py "Registrar";
      name u ] /\
    map alignment (paragraphs doc) =
    [ Some CENTER; Some CENTER; Some CENTER; Some CENTER; None; None;
      Some CENTER; None; Some JUSTIFY; None; Some LEFT; Some LEFT; None;
      Some RIGHT; Some RIGHT; Some RIGHT ].
Proof.
  intros Hrun.
  destruct (generate_document_Return uc dt sd w w' doc filename Hrun)
    as (u & tpl & ts & n & p & Hu & Ht & Hts & _ & _ & _ & _ & _ & -> & _).
  exists u, tpl, ts.
  split; [exact Hu|]. split; [exact Ht|]. split; [exact Hts|].
  unfold composed_document, title_paragraph, body_paragraph, paragraph_of, blank.
  cbn [paragraphs map paragraph_text alignment runs flat_map run_text].
  rewrite !app_nil_r. split; reflexivity.
Qed.

Lemma generate_document_layout_witness :
  generate_document (py "stanford") (py "transfer") sample_student sample_world =
  (Return sample_document, snd sample_composed) /\
  exists u tpl ts,
    universities !! py "stanford" = Some u /\
    document_templates !! py "transfer" = Some tpl /\
    body_tokens !! py "transfer" = Some ts /\
    map paragraph_text (paragraphs (fst sample_document)) =
    [ py "[" ++ name u ++ py " LOGO]";
      upper (name u);
      py "Office of the Registrar";
      address u ++ [10%N] ++ py "Tel: " ++ phone u;
      repeat (ord "_") 80;
      [];
      title tpl;
      [];
      substitute ts sample_student;
      [];
      py "Date: March 04, 2025";
      py "Place: " ++ name u;
      [];
      repeat (ord "_") 40;
      py "Registrar";
      name u ] /\
    map alignment (paragraphs (fst sample_document)) =
    [ Some CENTER; Some CENTER; Some CENTER; Some CENTER; None; None;
      Some CENTER; None; Some JUSTIFY; None; Some LEFT; Some LEFT; None;
      Some RIGHT; Some RIGHT; Some RIGHT ].
Proof.
  split; [exact sample_composed_eq|].
  exact (generate_document_layout (py "stanford") (py "transfer") sample_student
           sample_world (snd sample_composed) (fst sample_document)
           (snd sample_document) sample_composed_eq).
Defined.

(** X2.  A document that [generate_document] returns has one section,
    whose four margins are one inch and whose header holds one centred
    paragraph: the watermark text "OFFICIAL DOCUMENT" in Arial of 60
    points, with no colour set. *)
Theorem generate_document_page_setup (uc dt : pystr) (sd : gmap pystr pystr)
    (w w' : world) (doc : document) (filename : pystr) :
  generate_document uc dt sd w = (Return (doc, filename), w') ->
  sections doc =
  [ {| top_margin := Some (Inches 1); bottom_margin := Some (Inches 1);
       left_margin := Some (Inches 1); right_margin := Some (Inches 1);
       header_paragraphs :=
         [ {| alignment := Some CENTER;
              runs :=
                [ {| run_text := py "OFFICIAL DOCUMENT";
                     run_font :=
                       {| font_size := Some (Pt 60); font_bold := None;
                          font_underline := None;
                          font_name := Some (py "Arial");
                          font_color_rgb := None |} |} ] |} ] |} ].
Proof.
  intros Hrun.
  destruct (generate_document_Return uc dt sd w w' doc filename Hrun)
    as (u & tpl & ts & n & p & _ & _ & _ & _ & _ & _ & _ & _ & -> & _).
  reflexivity.
Qed.

Lemma generate_document_page_setup_witness :
  generate_document (py "stanford") (py "transfer") sample_student sample_world =
  (Return sample_document, snd sample_composed) /\
  sections (fst sample_document) =
  [ {| top_margin := Some (Inches 1); bottom_margin := Some (Inches 1);
       left_margin := Some (Inches 1); right_margin := Some (Inches 1);
       header_paragraphs :=
         [ {| alignment := Some CENTER;
              runs :=
                [ {| run_text := py "OFFICIAL DOCUMENT";
                     run_font :=
                       {| font_size := Some (Pt 60); font_bold := None;
                          font_underline := None;
                          font_name := Some (py "Arial");
                          font_color_rgb := None |} |} ] |} ] |} ].
Proof.
  split; [exact sample_composed_eq|].
  exact (generate_document_page_setup (py "stanford") (py "transfer")
           sample_student sample_world (snd sample_composed)
           (fst sample_document) (snd sample_document) sample_composed_eq).
Defined.

(** X3.  A document that [generate_document] returns has its core
    properties set: the title is the title-cased type code, " - " and the
    student name as given, without the honorific; the subject names the
    type code; the author is the registrar office; the comment carries
    the student name and the second clock reading, which is one reading
    after the date of the footer and one before the timestamp of the file
    name. *)
Theorem generate_document_core_properties (uc dt : pystr)
    (sd : gmap pystr pystr) (w w' : world) (doc : document) (filename : pystr) :
  generate_document uc dt sd w = (Return (doc, filename), w') ->
  exists n p,
    sd !! py "student_name" = Some n /\
    sd !! py "purpose" = Some p /\
    core doc =
    Some {| cp_title := str_title dt ++ py " - " ++ n;
            cp_subject := py "University Document: " ++ dt;
            cp_author := py "University Registrar Office";
            cp_comments :=
              py "Generated for " ++ n ++ py " on " ++
              strftime (fromtimestamp w (clock w (S (ticks w))))
                (py "%Y-%m-%d %H:%M:%S") |} /\
    filename =
    dt ++ py "_" ++ sanitize n ++ py "_" ++ firstn 20 (sanitize p) ++ py "_" ++
    strftime (fromtimestamp w (clock w (S (S (ticks w))))) (py "%Y%m%d_%H%M%S") ++
    py "_" ++ unique_id_of w ++ py ".docx".
Proof.
  intros Hrun.
  destruct (generate_document_Return uc dt sd w w' doc filename Hrun)
    as (u & tpl & ts & n & p & _ & _ & _ & _ & Hn & Hp & _ & _ & -> & Hfn & _).
  exists n, p. split; [exact Hn|]. split; [exact Hp|].
  split; [reflexivity | exact Hfn].
Qed.

Lemma generate_document_core_properties_witness :
  generate_document (py "stanford") (py "transfer") sample_student sample_world =
  (Return sample_document, snd sample_composed) /\
  exists n p,
    sample_student !! py "student_name" = Some n /\
    sample_student !! py "purpose" = Some p /\
    core (fst sample_document) =
    Some {| cp_title := str_title (py "transfer") ++ py " - " ++ n;
            cp_subject := py "University Document: " ++ py "transfer";
            cp_author := py "University Registrar Office";
            cp_comments :=
              py "Generated for " ++ n ++ py " on " ++
              strftime
                (fromtimestamp sample_world
                   (clock sample_world (S (ticks sample_world))))
                (py "%Y-%m-%d %H:%M:%S") |} /\
    snd sample_document =
    py "transfer" ++ py "_" ++ sanitize n ++ py "_" ++ firstn 20 (sanitize p) ++
    py "_" ++
    strftime
      (fromtimestamp sample_world (clock sample_world (S (S (ticks sample_world)))))
      (py "%Y%m%d_%H%M%S") ++
    py "_" ++ unique_id_of sample_world ++ py ".docx".
Proof.
  split; [exact sample_composed_eq|].
  exact (generate_document_core_properties (py "stanford") (py "transfer")
           sample_student sample_world (snd sample_composed)
           (fst sample_document) (snd sample_document) sample_composed_eq).
Defined.

(** X4.  Composing a document never writes: whatever the arguments and
    whatever the outcome, [generate_document] leaves the files and the
    working directory as they were.  When it returns, it has read the
    clock three times and drawn one random number. *)
Theorem generate_document_reads_only (uc dt : pystr) (sd : gmap pystr pystr)
    (w : world) :
  files (snd (generate_document uc dt sd w)) = files w /\
  cwd (snd (generate_document uc dt sd w)) = cwd w /\
  match fst (generate_document uc dt sd w) with
  | Return _ =>
      ticks (snd (generate_document uc dt sd w)) = ticks w + 3 /\
      draws (snd (generate_document uc dt sd w)) = draws w + 1
  | Raise _ => True
  end.
Proof.
  destruct (generate_document_keeps_files uc dt sd w) as [Hf Hc].
  split; [exact Hf|]. split; [exact Hc|].
  destruct (generate_document uc dt sd w) as [[[doc fn]|e] w'] eqn:Hrun;
    cbn [fst snd]; [|exact I].
  apply generate_document_inv in Hrun as (_ & -> & _).
  unfold draw, tick. cbn [ticks draws]. split; lia.
Qed.

(* ===================================================================== *)
(** * File names: when two of them are equal *)
(* ===================================================================== *)

Lemma timestamp_form_length (s : pystr) :
  timestamp_form s = true -> length s = 15.
Proof.
  unfold timestamp_form. intros H.
  apply andb_true_iff in H as [H _]. apply andb_true_iff in H as [H _].
  apply andb_true_iff in H as [H _]. now apply bool_decide_eq_true in H.
Qed.

Lemma filename_stem (dt n p ts id : pystr) :
  dt ++ py "_" ++ sanitize n ++ py "_" ++ firstn 20 (sanitize p) ++ py "_" ++
  ts ++ py "_" ++ id ++ py ".docx" =
  stem dt n p ++ py "_" ++ ts ++ py "_" ++ id ++ py ".docx".
Proof. unfold stem. now rewrite <- !app_assoc. Qed.

(** The stem does not tell where the name ends and the purpose begins. *)
Lemma stem_joined (dt : pystr) :
  stem dt (py "A") (py "B C") = stem dt (py "A B") (py "C").
Proof. unfold stem. f_equal. Qed.

(** X5.  Two file names that [generate_unique_filename] builds, at clock
    readings that are valid dates, are equal exactly when their stems are
    equal, the two timestamps (to the second) are equal and the first
    eight hexadecimal digits of the two random identifiers are equal.  The
    stem is one string: the type code, an underscore, the sanitised name,
    an underscore and the first twenty characters of the sanitised
    purpose.  Equal stems need not come from equal parts, since the
    underscore that joins the parts is also what a space and a slash
    become: the name "A" with the purpose "B C" and the name "A B" with
    the purpose "C" have one stem.  So the names of two calls with the
    same arguments within one second differ only by those eight digits. *)
Theorem generate_unique_filename_equal (dt1 n1 p1 dt2 n2 p2 : pystr)
    (w1 w2 : world) :
  valid_datetime (fromtimestamp w1 (clock w1 (ticks w1))) ->
  valid_datetime (fromtimestamp w2 (clock w2 (ticks w2))) ->
  fst (generate_unique_filename dt1 n1 p1 w1) =
  fst (generate_unique_filename dt2 n2 p2 w2) <->
  stem dt1 n1 p1 = stem dt2 n2 p2 /\
  timestamp_of w1 = timestamp_of w2 /\
  unique_id_of w1 = unique_id_of w2.
Proof.
  intros H1 H2.
  rewrite !generate_unique_filename_run. cbn [fst]. rewrite !filename_stem.
  pose proof (timestamp_form_length _ (timestamp_of_form w1 H1)) as L1.
  pose proof (timestamp_form_length _ (timestamp_of_form w2 H2)) as L2.
  destruct (unique_id_of_hex w1) as [I1 _].
  destruct (unique_id_of_hex w2) as [I2 _].
  split.
  - intros E.
    assert (stem dt1 n1 p1 ++
            (py "_" ++ timestamp_of w1 ++ py "_" ++ unique_id_of w1 ++ py ".docx") =
            stem dt2 n2 p2 ++
            (py "_" ++ timestamp_of w2 ++ py "_" ++ unique_id_of w2 ++ py ".docx"))
      as E' by congruence.
    apply app_inj_2 in E' as [Es Et].
    2: { rewrite !length_app, L1, L2, I1, I2. reflexivity. }
    split; [exact Es|].
    apply (app_inj_1 (py "_") (py "_")) in Et as [_ Et]; [|reflexivity].
    apply app_inj_1 in Et as [Et Ei]; [|congruence].
    split; [exact Et|].
    apply (app_inj_1 (py "_") (py "_")) in Ei as [_ Ei]; [|reflexivity].
    apply app_inj_1 in Ei as [Ei _]; [exact Ei | congruence].
  - intros (-> & -> & ->). reflexivity.
Qed.

Lemma generate_unique_filename_equal_witness :
  valid_datetime
    (fromtimestamp sample_world (clock sample_world (ticks sample_world))) /\
  valid_datetime
    (fromtimestamp (draw sample_world)
       (clock (draw sample_world) (ticks (draw sample_world)))) /\
  (fst (generate_unique_filename (py "noc") (py "A B") (py "job") sample_world) =
   fst (generate_unique_filename (py "noc") (py "A/B") (py "job")
          (draw sample_world)) <->
   stem (py "noc") (py "A B") (py "job") = stem (py "noc") (py "A/B") (py "job") /\
   timestamp_of sample_world = timestamp_of (draw sample_world) /\
   unique_id_of sample_world = unique_id_of (draw sample_world)).
Proof.
  assert (valid_datetime
            (fromtimestamp sample_world (clock sample_world (ticks sample_world))))
    as H1 by (vm_compute; repeat split; discriminate).
  assert (valid_datetime
            (fromtimestamp (draw sample_world)
               (clock (draw sample_world) (ticks (draw sample_world)))))
    as H2 by (vm_compute; repeat split; discriminate).
  split; [exact H1|]. split; [exact H2|].
  exact (generate_unique_filename_equal (py "noc") (py "A B") (py "job")
           (py "noc") (py "A/B") (py "job") sample_world (draw sample_world)
           H1 H2).
Defined.

(** X6.  At a clock reading that is a valid date, the file name is as
    long as the type code and the student name together, plus at most
    twenty characters of the purpose, plus 32: the name is kept entire,
    whatever its length, and the purpose is cut. *)
Theorem generate_unique_filename_length (document_type student_name purpose : pystr)
    (w w' : world) (f : pystr) :
  valid_datetime (fromtimestamp w (clock w (ticks w))) ->
  generate_unique_filename document_type student_name purpose w = (Return f, w') ->
  length f =
  length document_type + length student_name + Nat.min 20 (length purpose) + 32.
Proof.
  intros Hv Hrun. rewrite generate_unique_filename_run in Hrun.
  assert (f = document_type ++ py "_" ++ sanitize student_name ++ py "_" ++
              firstn 20 (sanitize purpose) ++ py "_" ++ timestamp_of w ++
              py "_" ++ unique_id_of w ++ py ".docx") as -> by congruence.
  pose proof (timestamp_form_length _ (timestamp_of_form w Hv)) as L.
  destruct (unique_id_of_hex w) as [I _].
  rewrite !length_app, length_take, !sanitize_length, L, I.
  change (length (py "_")) with 1. change (length (py ".docx")) with 5. lia.
Qed.

Lemma generate_unique_filename_length_witness :
  valid_datetime
    (fromtimestamp sample_world (clock sample_world (ticks sample_world))) /\
  generate_unique_filename (py "noc") (py "Ann Lee")
    (py "a purpose of more than twenty characters") sample_world =
  (Return (py "noc_Ann_Lee_a_purpose_of_more_th_20250304_102030_3f2a9c41.docx"),
   draw (tick sample_world)) /\
  length (py "noc_Ann_Lee_a_purpose_of_more_th_20250304_102030_3f2a9c41.docx") =
  length (py "noc") + length (py "Ann Lee") +
  Nat.min 20 (length (py "a purpose of more than twenty characters")) + 32.
Proof.
  assert (valid_datetime
            (fromtimestamp sample_world (clock sample_world (ticks sample_world))))
    as H1 by (vm_compute; repeat split; discriminate).
  assert (generate_unique_filename (py "noc") (py "Ann Lee")
            (py "a purpose of more than twenty characters") sample_world =
          (Return (py "noc_Ann_Lee_a_purpose_of_more_th_20250304_102030_3f2a9c41.docx"),
           draw (tick sample_world))) as H2.
  { rewrite generate_unique_filename_run.
    apply (f_equal (fun s : pystr => (Return s, draw (tick sample_world)))).
    vm_compute. reflexivity. }
  split; [exact H1|]. split; [exact H2|].
  exact (generate_unique_filename_length _ _ _ _ _ _ H1 H2).
Defined.

(* ===================================================================== *)
(** * Saving: the entry written, the entries kept, the blocked store *)
(* ===================================================================== *)

(** What the store holds under a plain name is what the joined path
    denotes. *)
Lemma lookup_path_stored (w : world) (f : pystr) :
  plain f = true ->
  lookup_path w (os_path_join (py "generated") f) = stored w f.
Proof.
  intros Hf. pose proof (proj1 (plain_spec f) Hf) as (Hne & _ & _ & Hsl).
  unfold os_path_join. rewrite plain_not_absolute by assumption.
  change (bool_decide (py "generated" = []) || endswith (py "generated") (py "/"))
    with false. cbv iota.
  unfold lookup_path, stored, resolve.
  change (py "generated" ++ py "/" ++ f) with (py "generated" ++ ord "/" :: f).
  assert (start_of w (py "generated" ++ ord "/" :: f) = start_of w (py "generated"))
    as -> by reflexivity.
  change (py "generated" ++ ord "/" :: f)
    with (ord "g" :: (py "enerated" ++ ord "/" :: f)) at 1.
  change (py "generated") with (ord "g" :: py "enerated") at 3.
  cbv iota.
  change (ord "g" :: (py "enerated" ++ ord "/" :: f))
    with (py "generated" ++ ord "/" :: f).
  change (ord "g" :: py "enerated") with (py "generated").
  rewrite split_on_app, (split_on_without _ f) by assumption.
  change (split_on (ord "/") (py "generated")) with [py "generated"].
  rewrite (namei_app _ _ [py "generated"] f).
  destruct (namei (files w) (start_of w (py "generated")) [py "generated"])
    as [e|t]; [reflexivity|].
  destruct (files w !! t) as [[st c|st]|] eqn:E; cbn [is_directory];
    try reflexivity.
  now rewrite step_plain by assumption.
Qed.

Lemma stored_Some (w : world) (f : pystr) (i : inode) :
  stored w f = Some i ->
  exists t,
    resolve w (py "generated") = inr t /\
    is_directory (files w !! t) = true /\
    files w !! (t ++ [f]) = Some i.
Proof.
  unfold stored. destruct (resolve w (py "generated")) as [e|t]; [discriminate|].
  destruct (is_directory (files w !! t)) eqn:E; [|discriminate].
  eauto.
Qed.

Lemma removelast_snoc (t : list pystr) (f : pystr) : removelast (t ++ [f]) = t.
Proof. apply removelast_last. Qed.

Lemma snoc_ne (t : list pystr) (f : pystr) : t ++ [f] <> t.
Proof.
  intros H. apply (f_equal (@length _)) in H. rewrite length_app in H.
  cbn in H. lia.
Qed.

Lemma docx_save_inv (doc : document) (path : pystr) (w w' : world) :
  docx_save doc path w = (Return tt, w') ->
  exists t,
    resolve w path = inr t /\
    resolve w' path = inr t /\
    files w' !! t = Some (new_file w doc (clock w (ticks w))) /\
    (forall q, q <> t -> q <> removelast t -> files w' !! q = files w !! q) /\
    (forall q, is_directory (files w !! q) = true ->
               is_directory (files w' !! q) = true) /\
    cwd w' = cwd w.
Proof.
  intros H. pose proof (docx_save_directory _ _ _ _ H) as Hd.
  pose proof (docx_save_openable _ _ _ _ H) as Ho.
  rewrite (docx_save_resolve doc path w Ho) in H.
  unfold path_isdir, lookup_path in Hd.
  destruct (resolve w path) as [e|t] eqn:Hr; [discriminate H|].
  destruct (docx_save_run doc path w t Ho Hr Hd)
    as (w'' & Heq & Hlook & Hdirs & Hcwd & _).
  rewrite (docx_save_resolve doc path w Ho), Hr in Heq.
  rewrite H in Heq. injection Heq as <-.
  exists t. split; [reflexivity|].
  split; [exact (resolve_directories w w' path t Hdirs Hcwd Hr)|].
  split; [exact Hlook|]. split; [|split; assumption].
  intros q Hq1 Hq2.
  destruct (files w !! t) as [[st c|st]|] eqn:E; [|discriminate|].
  - injection H as <-. cbn [files tick with_files].
    now rewrite lookup_insert_ne.
  - injection H as <-. rewrite create_lookup.
    destruct (decide (t = q)); [congruence|].
    destruct (decide (removelast t = q)); [congruence | reflexivity].
Qed.



Lemma makedirs_from_file (w : world) (cs : list pystr) :
  forall (cur t : list pystr) (st : stat_result) (c : option document),
    namei (files w) cur cs = inr t ->
    files w !! t = Some (File st c) ->
    makedirs_from w cur cs = (Some FileExistsError, w).
Proof.
  induction cs as [|x cs IH]; intros cur t st c Hn Ht; cbn [namei makedirs_from] in *.
  - injection Hn as <-. now rewrite Ht.
  - destruct (files w !! cur) as [[st' c'|st']|] eqn:E; try discriminate Hn.
    cbv zeta.
    destruct (files w !! step cur x) as [i|] eqn:E'.
    + exact (IH _ _ _ _ Hn Ht).
    + destruct cs as [|y cs]; cbn [namei] in Hn.
      * injection Hn as <-. congruence.
      * rewrite E' in Hn. discriminate Hn.
Qed.

(** X8.  When the path given as output directory denotes a regular file,
    [save_document] raises FileExistsError for that path and writes
    nothing. *)
Theorem save_document_blocked (doc : document) (filename output_dir : pystr)
    (w : world) (st : stat_result) (c : option document) :
  lookup_path w output_dir = Some (File st c) ->
  save_document doc filename output_dir w =
  (Raise (OSError FileExistsError output_dir), w).
Proof.
  unfold lookup_path. intros H.
  destruct (resolve w output_dir) as [e|t] eqn:Hr; [discriminate H|].
  unfold save_document, bind, os_makedirs.
  unfold resolve in Hr. destruct output_dir as [|x d]; [discriminate Hr|].
  now rewrite (makedirs_from_file w _ _ t st c Hr H).
Qed.

Lemma save_document_blocked_witness :
  lookup_path sample_blocked (py "generated") =
  Some (File {| st_size := 7; st_ctime := 5 |} None) /\
  save_document Document (py "a.docx") (py "generated") sample_blocked =
  (Raise (OSError FileExistsError (py "generated")), sample_blocked).
Proof.
  assert (lookup_path sample_blocked (py "generated") =
          Some (File {| st_size := 7; st_ctime := 5 |} None)) as H
    by (vm_compute; reflexivity).
  split; [exact H|].
  exact (save_document_blocked Document (py "a.docx") (py "generated")
           sample_blocked _ _ H).
Defined.

(** X9.  When [generate_and_save] returns, for whatever output directory,
    its record says success, the file path is the output directory joined
    with the file name, the download URL is "/download/" and the file
    name, and the message names the file; and the file path then denotes
    a regular file that holds the very document that [generate_document]
    composed, with the size of its package. *)
Theorem generate_and_save_result (uc dt : pystr) (sd : gmap pystr pystr)
    (output_dir : pystr) (w w1 : world) (r : result) :
  generate_and_save uc dt sd output_dir w = (Return r, w1) ->
  success r = true /\
  file_path r = os_path_join output_dir (filename r) /\
  download_url r = py "/download/" ++ filename r /\
  message r = py "Document generated successfully: " ++ filename r /\
  exists doc w0 ctime,
    generate_document uc dt sd w = (Return (doc, filename r), w0) /\
    lookup_path w1 (file_path r) =
    Some (File {| st_size := package_size w doc; st_ctime := ctime |} (Some doc)).
Proof.
  intros H. unfold generate_and_save in H.
  apply bind_inv in H as ([doc fn] & w0 & Hgen & H).
  apply bind_inv in H as (path & w1' & Hsave & H).
  injection H as <- <-. cbn [success filename file_path download_url message].
  unfold save_document in Hsave.
  apply bind_inv in Hsave as ([] & wa & Hmk & Hsave).
  apply bind_inv in Hsave as ([] & wb & Hdoc & Hret).
  injection Hret as <- <-.
  repeat (split; [reflexivity|]).
  exists doc, w0. eexists. split; [exact Hgen|].
  destruct (docx_save_inv _ _ _ _ Hdoc) as (t & _ & Hr & Hlook & _).
  unfold lookup_path. rewrite Hr, Hlook. unfold new_file.
  apply os_makedirs_made in Hmk as (_ & _ & _ & _ & -> & _).
  apply generate_document_inv in Hgen as (_ & -> & _).
  reflexivity.
Qed.

Lemma generate_and_save_result_witness :
  generate_and_save (py "harvard") (py "bonafide") sample_student
    default_output_dir sample_world = (Return sample_result, snd sample_saved) /\
  success sample_result = true /\
  file_path sample_result = os_path_join default_output_dir (filename sample_result) /\
  download_url sample_result = py "/download/" ++ filename sample_result /\
  message sample_result =
  py "Document generated successfully: " ++ filename sample_result /\
  exists doc w0 ctime,
    generate_document (py "harvard") (py "bonafide") sample_student sample_world =
    (Return (doc, filename sample_result), w0) /\
    lookup_path (snd sample_saved) (file_path sample_result) =
    Some (File {| st_size := package_size sample_world doc; st_ctime := ctime |}
            (Some doc)).
Proof.
  split; [exact sample_saved_eq|].
  exact (generate_and_save_result (py "harvard") (py "bonafide") sample_student
           default_output_dir sample_world (snd sample_saved) sample_result
           sample_saved_eq).
Defined.

(* ===================================================================== *)
(** * The routes on the content store *)
(* ===================================================================== *)

Lemma try_except_inv {A} (m : M A) (h : exn -> M A) (w w' : world) (a : A) :
  try_except m h w = (Return a, w') ->
  (forall e w1 b w2, h e w1 <> (Return b, w2)) ->
  m w = (Return a, w').
Proof.
  unfold try_except. intros H Hh.
  destruct (m w) as [[b|e] w1]; [exact H|].
  now apply Hh in H.
Qed.

(** What a returning run of the route POST /generate-document tells. *)
Lemma route_generate_document_inv (request : enhanced_main.DocumentRequest)
    (w w' : world) (resp : enhanced_main.DocumentResponse) :
  enhanced_main.generate_document request w = (Return resp, w') ->
  exists r w1,
    generate_and_save (enhanced_main.university_code request)
      (enhanced_main.document_type request)
      (enhanced_main.student_dict (enhanced_main.student_data request))
      default_output_dir w = (Return r, w1) /\
    w' = tick w1 /\
    resp =
    {| enhanced_main.success := success r;
       enhanced_main.filename := filename r;
       enhanced_main.download_url := download_url r;
       enhanced_main.message := message r;
       enhanced_main.generated_at :=
         isoformat (fromtimestamp w1 (clock w1 (ticks w1))) |}.
Proof.
  intros H. unfold enhanced_main.generate_document in H.
  apply try_except_inv in H; [|intros e w1 b w2; discriminate].
  destruct (negb (bool_decide (is_Some (universities !! _)))); [discriminate H|].
  destruct (negb (bool_decide (is_Some (document_templates !! _))));
    [discriminate H|].
  apply bind_inv in H as (r & w1 & Hgen & H).
  exists r, w1. split; [exact Hgen|].
  unfold datetime_now, time_time, gets, bind, ret in H.
  injection H as <- <-. split; reflexivity.
Qed.

Lemma generate_and_save_fields (uc dt : pystr) (sd : gmap pystr pystr)
    (output_dir : pystr) (w w1 : world) (r : result) :
  generate_and_save uc dt sd output_dir w = (Return r, w1) ->
  success r = true /\
  file_path r = os_path_join output_dir (filename r) /\
  download_url r = py "/download/" ++ filename r /\
  message r = py "Document generated successfully: " ++ filename r.
Proof.
  intros H. unfold generate_and_save in H.
  apply bind_inv in H as ([doc fn] & w0 & Hgen & H).
  apply bind_inv in H as (path & w1' & Hsave & H).
  injection H as <- <-. cbn [success filename file_path download_url message].
  unfold save_document in Hsave.
  apply bind_inv in Hsave as ([] & wa & Hmk & Hsave).
  apply bind_inv in Hsave as ([] & wb & Hdoc & Hret).
  injection Hret as <- <-. repeat split.
Qed.

(** The route GET /download/{filename} on a plain name. *)
Lemma download_document_run (f : pystr) (w : world) :
  plain f = true ->
  enhanced_main.download_document f w =
  (match stored w f with
   | Some _ =>
       Return
         {| enhanced_main.path := os_path_join (py "generated") f;
            enhanced_main.response_filename := f;
            enhanced_main.media_type :=
              py "application/vnd.openxmlformats-officedocument.wordprocessingml.document" |}
   | None => Raise (HTTPException 404 (py "Document not found"))
   end, w).
Proof.
  intros Hf. unfold enhanced_main.download_document, try_except, bind,
    os_path_exists, gets, path_exists.
  rewrite (lookup_path_stored w f Hf).
  destruct (stored w f) as [i|].
  - rewrite bool_decide_eq_true_2 by eauto. reflexivity.
  - rewrite bool_decide_eq_false_2 by (intros [? ?]; discriminate). reflexivity.
Qed.

(** The three cases of DELETE /documents/{filename} on a plain name. *)
Lemma delete_document_File (f : pystr) (w : world) (st : stat_result)
    (c : option document) :
  plain f = true ->
  stored w f = Some (File st c) ->
  exists w2,
    enhanced_main.delete_document f w =
    (Return (py "Document " ++ f ++ py " deleted successfully"), w2) /\
    stored w2 f = None /\
    (forall g, g <> f -> stored w2 g = stored w g).
Proof.
  intros Hf Hs. apply stored_Some in Hs as (t & Hr & Ht & Hlook).
  exists (unlink (t ++ [f]) w).
  split; [exact (delete_document_run w t f st c Hr Ht Hf Hlook)|].
  assert (is_directory (files w !! (t ++ [f])) = false) as Hnd by now rewrite Hlook.
  assert (resolve (unlink (t ++ [f]) w) (py "generated") = inr t) as Hr2.
  { apply (resolve_directories w (unlink (t ++ [f]) w) _ t);
      [|reflexivity|exact Hr].
    intros q. now apply unlink_keeps_directories. }
  pose proof (unlink_keeps_directories _ w t Hnd Ht) as Ht2.
  split.
  - rewrite (stored_spec _ t f Hr2 Ht2), unlink_lookup, removelast_snoc.
    destruct (decide (t = t ++ [f])) as [E|_];
      [symmetry in E; now apply snoc_ne in E|].
    now rewrite decide_True by reflexivity.
  - intros g Hg.
    rewrite (stored_spec _ t g Hr2 Ht2), (stored_spec w t g Hr Ht),
      unlink_lookup, removelast_snoc.
    destruct (decide (t = t ++ [g])) as [E|_];
      [symmetry in E; now apply snoc_ne in E|].
    destruct (decide (t ++ [f] = t ++ [g])) as [E|_]; [|reflexivity].
    apply app_inj_tail in E as [_ E]. congruence.
Qed.

Lemma delete_document_Directory (f : pystr) (w : world) (st : stat_result) :
  plain f = true ->
  stored w f = Some (Directory st) ->
  enhanced_main.delete_document f w =
  (Raise (HTTPException 500
            (py "Error deleting document: " ++
             str_exn (OSError IsADirectoryError (os_path_join (py "generated") f)))),
   w).
Proof.
  intros Hf Hs. pose proof (lookup_path_stored w f Hf) as Hl. rewrite Hs in Hl.
  unfold enhanced_main.delete_document, try_except, bind, os_path_exists, gets,
    path_exists.
  rewrite Hl, bool_decide_eq_true_2 by eauto. cbn [negb].
  unfold os_remove. unfold lookup_path in Hl.
  destruct (resolve w (os_path_join (py "generated") f)) as [e|t];
    [discriminate Hl|].
  rewrite Hl. reflexivity.
Qed.

Lemma delete_document_None (f : pystr) (w : world) :
  plain f = true ->
  stored w f = None ->
  enhanced_main.delete_document f w =
  (Raise (HTTPException 404 (py "Document not found")), w).
Proof.
  intros Hf Hs. pose proof (lookup_path_stored w f Hf) as Hl. rewrite Hs in Hl.
  unfold enhanced_main.delete_document, try_except, bind, os_path_exists, gets,
    path_exists.
  rewrite Hl, bool_decide_eq_false_2 by (intros [? ?]; discriminate).
  reflexivity.
Qed.

(** X10.  DELETE /documents/{filename} on a plain name has three cases.
    When the store holds a regular file of that name, the route returns
    its message, the entry is gone and every other entry is what it was.
    When the store holds a directory of that name, the route answers 500
    and changes nothing.  When the store holds nothing of that name, or
    there is no store, the route answers 404 and changes nothing. *)
Theorem delete_document_cases (f : pystr) (w : world) :
  plain f = true ->
  match stored w f with
  | Some (File _ _) =>
      exists w2,
        enhanced_main.delete_document f w =
        (Return (py "Document " ++ f ++ py " deleted successfully"), w2) /\
        stored w2 f = None /\
        (forall g, g <> f -> stored w2 g = stored w g)
  | Some (Directory _) =>
      exists detail,
        enhanced_main.delete_document f w =
        (Raise (HTTPException 500 (py "Error deleting document: " ++ detail)), w)
  | None =>
      enhanced_main.delete_document f w =
      (Raise (HTTPException 404 (py "Document not found")), w)
  end.
Proof.
  intros Hf. destruct (stored w f) as [[st c|st]|] eqn:Hs.
  - exact (delete_document_File f w st c Hf Hs).
  - eexists. exact (delete_document_Directory f w st Hf Hs).
  - exact (delete_document_None f w Hf Hs).
Qed.

Lemma delete_document_cases_witness :
  plain (py "a.docx") = true /\
  exists w2,
    enhanced_main.delete_document (py "a.docx") sample_store =
    (Return (py "Document " ++ py "a.docx" ++ py " deleted successfully"), w2) /\
    stored w2 (py "a.docx") = None /\
    (forall g, g <> py "a.docx" -> stored w2 g = stored sample_store g).
Proof.
  assert (plain (py "a.docx") = true) as H by (vm_compute; reflexivity).
  split; [exact H|].
  exact (delete_document_cases (py "a.docx") sample_store H).
Defined.

(** X11.  When POST /generate-document returns a response, the response
    says success, its file name ends in ".docx" and is a plain name, its
    download URL is "/download/" and the file name, and its timestamp is
    the ISO form of the last clock reading; the store then holds a
    regular file of that name, and GET /download/ with that name returns
    the file of the store under the docx media type, changing nothing. *)
Theorem route_generate_document_response
    (request : enhanced_main.DocumentRequest) (w w' : world)
    (resp : enhanced_main.DocumentResponse) :
  plain_names w ->
  enhanced_main.generate_document request w = (Return resp, w') ->
  enhanced_main.success resp = true /\
  is_docx (enhanced_main.filename resp) = true /\
  plain (enhanced_main.filename resp) = true /\
  enhanced_main.download_url resp =
  py "/download/" ++ enhanced_main.filename resp /\
  enhanced_main.message resp =
  py "Document generated successfully: " ++ enhanced_main.filename resp /\
  (exists w1,
     w' = tick w1 /\
     enhanced_main.generated_at resp =
     isoformat (fromtimestamp w1 (clock w1 (ticks w1)))) /\
  (exists st c, stored w' (enhanced_main.filename resp) = Some (File st c)) /\
  enhanced_main.download_document (enhanced_main.filename resp) w' =
  (Return
     {| enhanced_main.path :=
          os_path_join (py "generated") (enhanced_main.filename resp);
        enhanced_main.response_filename := enhanced_main.filename resp;
        enhanced_main.media_type :=
          py "application/vnd.openxmlformats-officedocument.wordprocessingml.document" |},
   w').
Proof.
  intros Hw H.
  apply route_generate_document_inv in H as (r & w1 & Hgen & -> & ->).
  cbn [enhanced_main.success enhanced_main.filename enhanced_main.download_url
       enhanced_main.message enhanced_main.generated_at].
  destruct (generate_and_save_fields _ _ _ _ _ _ _ Hgen) as (Hs & _ & Hd & Hm).
  destruct (generate_and_save_stored _ _ _ _ _ _ Hw Hgen)
    as (Hplain & Hdocx & _ & t & st & c & Hr & Ht & Hlook).
  assert (stored (tick w1) (filename r) = Some (File st c)) as Hst.
  { change (stored (tick w1) (filename r)) with (stored w1 (filename r)).
    now rewrite (stored_spec w1 t _ Hr Ht). }
  repeat (split; [assumption|]).
  split; [now exists w1|]. split; [now exists st, c|].
  rewrite (download_document_run _ _ Hplain), Hst. reflexivity.
Qed.

Lemma sample_served_eq :
  enhanced_main.generate_document (sample_request None None (py "1st Year"))
    sample_world = (Return sample_response, snd sample_served).
Proof.
  apply (run_Return
           (enhanced_main.generate_document
              (sample_request None None (py "1st Year")))).
  vm_compute. reflexivity.
Qed.

Lemma route_generate_document_response_witness :
  plain_names sample_world /\
  enhanced_main.generate_document (sample_request None None (py "1st Year"))
    sample_world = (Return sample_response, snd sample_served) /\
  enhanced_main.filename sample_response =
  py "transcript_Sarah_Johnson_Study_abroad_program_20250304_102033_3f2a9c41.docx" /\
  enhanced_main.download_document (enhanced_main.filename sample_response)
    (snd sample_served) =
  (Return
     {| enhanced_main.path :=
          os_path_join (py "generated") (enhanced_main.filename sample_response);
        enhanced_main.response_filename := enhanced_main.filename sample_response;
        enhanced_main.media_type :=
          py "application/vnd.openxmlformats-officedocument.wordprocessingml.document" |},
   snd sample_served).
Proof.
  split; [exact sample_world_plain_names|].
  split; [exact sample_served_eq|].
  split; [reflexivity|].
  apply (route_generate_document_response
           (sample_request None None (py "1st Year")) sample_world
           (snd sample_served) sample_response sample_world_plain_names
           sample_served_eq).
Defined.

(** X12.  GET /download/{filename} on a plain name changes nothing: it
    returns a response that names the joined path, the file name and the
    docx media type when the store holds an entry of that name, and
    answers 404 when it does not.  After DELETE /documents/ has returned
    for a name, the download of that name answers 404. *)
Theorem download_document_cases (f : pystr) (w : world) :
  plain f = true ->
  enhanced_main.download_document f w =
  (match stored w f with
   | Some _ =>
       Return
         {| enhanced_main.path := os_path_join (py "generated") f;
            enhanced_main.response_filename := f;
            enhanced_main.media_type :=
              py "application/vnd.openxmlformats-officedocument.wordprocessingml.document" |}
   | None => Raise (HTTPException 404 (py "Document not found"))
   end, w) /\
  forall message w2,
    enhanced_main.delete_document f w = (Return message, w2) ->
    enhanced_main.download_document f w2 =
    (Raise (HTTPException 404 (py "Document not found")), w2).
Proof.
  intros Hf. split; [exact (download_document_run f w Hf)|].
  intros message w2 Hdel.
  destruct (stored w f) as [[st c|st]|] eqn:Hs.
  - destruct (delete_document_File f w st c Hf Hs) as (w2' & Heq & Hnone & _).
    rewrite Heq in Hdel. injection Hdel as _ <-.
    now rewrite (download_document_run f w2' Hf), Hnone.
  - rewrite (delete_document_Directory f w st Hf Hs) in Hdel. discriminate Hdel.
  - rewrite (delete_document_None f w Hf Hs) in Hdel. discriminate Hdel.
Qed.

Lemma download_document_cases_witness :
  plain (py "b.docx") = true /\
  enhanced_main.download_document (py "b.docx") sample_store =
  (Return
     {| enhanced_main.path := py "generated/b.docx";
        enhanced_main.response_filename := py "b.docx";
        enhanced_main.media_type :=
          py "application/vnd.openxmlformats-officedocument.wordprocessingml.document" |},
   sample_store) /\
  forall message w2,
    enhanced_main.delete_document (py "b.docx") sample_store =
    (Return message, w2) ->
    enhanced_main.download_document (py "b.docx") w2 =
    (Raise (HTTPException 404 (py "Document not found")), w2).
Proof.
  assert (plain (py "b.docx") = true) as H by (vm_compute; reflexivity).
  split; [exact H|].
  exact (download_document_cases (py "b.docx") sample_store H).
Defined.

Lemma list_step_world (d : pystr) (acc : list enhanced_main.document_entry)
    (c : pystr) (w : world) :
  snd (enhanced_main.list_step d acc c w) = w.
Proof.
  unfold enhanced_main.list_step.
  destruct (endswith c (py ".docx")); [|reflexivity].
  unfold bind, os_stat, gets, ret.
  destruct (resolve w (os_path_join d c)) as [e|t]; [reflexivity|].
  destruct (files w !! t); reflexivity.
Qed.

Lemma for_each_list_step_world (d : pystr) (names : list pystr) :
  forall (acc : list enhanced_main.document_entry) (w : world),
    snd (for_each names (enhanced_main.list_step d) acc w) = w.
Proof.
  induction names as [|c names IH]; intros acc w; [reflexivity|].
  cbn [for_each]. unfold bind.
  pose proof (list_step_world d acc c w) as H.
  destruct (enhanced_main.list_step d acc c w) as [[acc'|e] w1]; cbn [snd] in H;
    subst w1; [apply IH | reflexivity].
Qed.

(** X13.  GET /documents only reads: whatever it returns or raises, it
    leaves the world as it was; and the only error it answers with is a
    500 whose detail begins with "Error listing documents: ". *)
Theorem list_documents_reads_only (w : world) :
  snd (enhanced_main.list_documents w) = w /\
  forall e,
    fst (enhanced_main.list_documents w) = Raise e ->
    exists detail,
      e = HTTPException 500 (py "Error listing documents: " ++ detail).
Proof.
  unfold enhanced_main.list_documents, try_except.
  set (body := bind _ _).
  assert (snd (body w) = w) as Hbody.
  { subst body. unfold bind at 1. unfold os_path_exists, gets.
    destruct (negb (path_exists w (py "generated"))); [reflexivity|].
    unfold bind at 1. unfold os_listdir.
    destruct (resolve w (py "generated")) as [e|t]; [reflexivity|].
    destruct (files w !! t) as [[st c|st]|]; try reflexivity.
    unfold bind, ret.
    pose proof (for_each_list_step_world (py "generated") (entries (files w) t)
                  [] w) as H.
    destruct (for_each _ _ _ w) as [[docs|e] w1]; exact H. }
  destruct (body w) as [[docs|e] w1]; cbn [snd] in Hbody; subst w1.
  - split; [reflexivity|]. intros e He. discriminate He.
  - split; [reflexivity|]. intros e' He. cbn [raise fst] in He.
    injection He as <-. eauto.
Qed.

(** X14.  When the name of the store denotes a regular file, GET
    /documents answers 500 and changes nothing. *)
Theorem list_documents_store_is_file (w : world) (st : stat_result)
    (c : option document) :
  lookup_path w (py "generated") = Some (File st c) ->
  exists detail,
    enhanced_main.list_documents w =
    (Raise (HTTPException 500 (py "Error listing documents: " ++ detail)), w).
Proof.
  intros H. unfold enhanced_main.list_documents, try_except, bind,
    os_path_exists, gets, path_exists.
  rewrite H, bool_decide_eq_true_2 by eauto. cbn [negb].
  unfold os_listdir. unfold lookup_path in H.
  destruct (resolve w (py "generated")) as [e|t]; [discriminate H|].
  rewrite H. eexists. reflexivity.
Qed.

Lemma list_documents_store_is_file_witness :
  lookup_path sample_blocked (py "generated") =
  Some (File {| st_size := 7; st_ctime := 5 |} None) /\
  exists detail,
    enhanced_main.list_documents sample_blocked =
    (Raise (HTTPException 500 (py "Error listing documents: " ++ detail)),
     sample_blocked).
Proof.
  assert (lookup_path sample_blocked (py "generated") =
          Some (File {| st_size := 7; st_ctime := 5 |} None)) as H
    by (vm_compute; reflexivity).
  split; [exact H|].
  exact (list_documents_store_is_file sample_blocked _ _ H).
Defined.

Lemma list_documents_reads_only_witness :
  snd (enhanced_main.list_documents sample_blocked) = sample_blocked /\
  fst (enhanced_main.list_documents sample_blocked) =
  Raise (HTTPException 500
           (py "Error listing documents: [Errno 20] Not a directory: 'generated'")) /\
  exists detail,
    HTTPException 500
      (py "Error listing documents: [Errno 20] Not a directory: 'generated'") =
    HTTPException 500 (py "Error listing documents: " ++ detail).
Proof.
  assert (fst (enhanced_main.list_documents sample_blocked) =
          Raise (HTTPException 500
                   (py "Error listing documents: [Errno 20] Not a directory: 'generated'")))
    as H by (vm_compute; reflexivity).
  split; [exact (proj1 (list_documents_reads_only sample_blocked))|].
  split; [exact H|].
  exact (proj2 (list_documents_reads_only sample_blocked) _ H).
Defined.

(** X15.  POST /generate-document never answers 400: the HTTPException
    of status 400 that it raises for an unknown code is caught by its own
    handler, so that every error of the route is a 500 whose detail begins
    with "Error generating document: ".  For an unknown university code,
    and for a known one with an unknown document type, the route answers
    so without reading the clock and without writing; and when the name
    of the store denotes a regular file, a request with known codes is
    answered so too, and no file is written. *)
Theorem route_generate_document_errors
    (request : enhanced_main.DocumentRequest) (w : world) :
  (forall e,
     fst (enhanced_main.generate_document request w) = Raise e ->
     exists detail,
       e = HTTPException 500 (py "Error generating document: " ++ detail)) /\
  (universities !! enhanced_main.university_code request = None \/
   document_templates !! enhanced_main.document_type request = None ->
   exists detail,
     enhanced_main.generate_document request w =
     (Raise (HTTPException 500 (py "Error generating document: " ++ detail)), w)) /\
  (forall st c,
     lookup_path w (py "generated") = Some (File st c) ->
     exists e w',
       enhanced_main.generate_document request w = (Raise e, w') /\
       files w' = files w).
Proof.
  split; [|split].
  - unfold enhanced_main.generate_document, try_except.
    destruct (_ w) as [[resp|e0] w1]; intros e He; [discriminate He|].
    cbn [raise fst] in He. injection He as <-. eauto.
  - intros H. unfold enhanced_main.generate_document, try_except.
    destruct (universities !! enhanced_main.university_code request) as [u|] eqn:Hu.
    + destruct H as [H|H]; [discriminate H|]. rewrite H.
      rewrite bool_decide_eq_true_2 by eauto.
      rewrite bool_decide_eq_false_2 by (intros [? ?]; discriminate).
      cbn [negb raise]. eauto.
    + rewrite bool_decide_eq_false_2 by (intros [? ?]; discriminate).
      cbn [negb raise]. eauto.
  - intros st c Hl.
    unfold enhanced_main.generate_document, try_except.
    destruct (universities !! enhanced_main.university_code request) as [u|] eqn:Hu.
    2: { rewrite bool_decide_eq_false_2 by (intros [? ?]; discriminate).
         cbn [negb raise]. eauto. }
    rewrite bool_decide_eq_true_2 by eauto.
    destruct (document_templates !! enhanced_main.document_type request)
      as [tpl|] eqn:Ht.
    2: { rewrite bool_decide_eq_false_2 by (intros [? ?]; discriminate).
         cbn [negb raise]. eauto. }
    rewrite bool_decide_eq_true_2 by eauto. cbn [negb].
    unfold bind at 1. unfold generate_and_save. unfold bind at 1.
    pose proof (generate_document_keeps_files
                  (enhanced_main.university_code request)
                  (enhanced_main.document_type request)
                  (enhanced_main.student_dict (enhanced_main.student_data request))
                  w) as [Hfiles Hcwd].
    destruct (generate_document _ _ _ w) as [[[doc fn]|e0] w0];
      cbn [fst snd] in Hfiles, Hcwd.
    + assert (lookup_path w0 (py "generated") = Some (File st c)) as Hl0.
      { unfold lookup_path, resolve, start_of in *. now rewrite Hfiles, Hcwd. }
      unfold bind, default_output_dir.
      rewrite (save_document_blocked doc fn _ w0 st c Hl0).
      cbn [raise]. eauto.
    + cbn [raise]. eauto.
Qed.

Lemma route_generate_document_errors_witness :
  (universities !! enhanced_main.university_code unknown_request = None \/
   document_templates !! enhanced_main.document_type unknown_request = None) /\
  exists detail,
    enhanced_main.generate_document unknown_request sample_world =
    (Raise (HTTPException 500 (py "Error generating document: " ++ detail)),
     sample_world).
Proof.
  assert (universities !! enhanced_main.university_code unknown_request = None \/
          document_templates !! enhanced_main.document_type unknown_request = None)
    as H by (left; vm_compute; reflexivity).
  split; [exact H|].
  exact (proj1 (proj2 (route_generate_document_errors unknown_request sample_world))
           H).
Defined.

(* ===================================================================== *)
(** * Validation of a request *)
(* ===================================================================== *)

Lemma lstrip_nil (s : pystr) : lstrip s = [] <-> blank_string s = true.
Proof.
  unfold blank_string. induction s as [|c s IH]; [easy|].
  cbn [lstrip forallb]. destruct (is_space c); cbn [andb]; [exact IH | easy].
Qed.

Lemma lstrip_blank (s : pystr) : blank_string (lstrip s) = blank_string s.
Proof.
  unfold blank_string. induction s as [|c s IH]; [reflexivity|].
  cbn [lstrip forallb]. destruct (is_space c) eqn:E; cbn [andb]; [exact IH|].
  cbn [forallb]. now rewrite E.
Qed.

Lemma blank_string_rev (s : pystr) : blank_string (rev s) = blank_string s.
Proof.
  unfold blank_string. induction s as [|c s IH]; [reflexivity|].
  cbn [rev forallb]. rewrite forallb_app, IH. cbn [forallb].
  rewrite andb_true_r. apply andb_comm.
Qed.

(** [not s.strip()]: the string is white space only. *)
Lemma strip_nil (s : pystr) : strip s = [] <-> blank_string s = true.
Proof.
  unfold strip.
  rewrite <- (lstrip_blank s), <- (blank_string_rev (lstrip s)), <- lstrip_nil.
  split; intros H.
  - apply (f_equal (@rev _)) in H. now rewrite rev_involutive in H.
  - now rewrite H.
Qed.

Lemma length_eqb_nil {A} (l : list A) : Nat.eqb (length l) 0 = true <-> l = [].
Proof. destruct l; cbn; split; congruence. Qed.

Lemma append_if (b : bool) (l : list pystr) (x : pystr) :
  (if b then l ++ [x] else l) = l ++ (if b then [x] else []).
Proof. destruct b; [reflexivity | now rewrite app_nil_r]. Qed.

Lemma if_nil (b : bool) (x : pystr) :
  (if b then [x] else []) = [] <-> b = false.
Proof. destruct b; split; congruence. Qed.

(** The complaints of [validate_document_request], one after the other. *)
Lemma validate_errors (request : enhanced_main.DocumentRequest) :
  enhanced_main.errors (enhanced_main.validate_document_request request) =
  (if negb (bool_decide
              (is_Some (universities !! enhanced_main.university_code request)))
   then [py "Invalid university code: " ++ enhanced_main.university_code request]
   else []) ++
  (if negb (bool_decide
              (is_Some (document_templates !! enhanced_main.document_type request)))
   then [py "Invalid document type: " ++ enhanced_main.document_type request]
   else []) ++
  (if bool_decide
        (strip (enhanced_main.student_name (enhanced_main.student_data request)) = [])
   then [py "Student name is required"] else []) ++
  (if bool_decide
        (strip (enhanced_main.roll_number (enhanced_main.student_data request)) = [])
   then [py "Roll number is required"] else []) ++
  (if bool_decide (enhanced_main.course (enhanced_main.student_data request) = [])
   then [py "Course is required"] else []) ++
  (if bool_decide (enhanced_main.department (enhanced_main.student_data request) = [])
   then [py "Department is required"] else []) ++
  (if bool_decide
        (enhanced_main.admission_date (enhanced_main.student_data request) = [])
   then [py "Admission date is required"] else []) ++
  (if bool_decide
        (strip (enhanced_main.purpose (enhanced_main.student_data request)) = [])
   then [py "Purpose is required"] else []) ++
  (if match enhanced_main.email (enhanced_main.student_data request) with
      | Some e => negb (bool_decide (e = [])) && negb (contains e (py "@"))
      | None => false
      end
   then [py "Invalid email format"] else []).
Proof.
  unfold enhanced_main.validate_document_request. cbv zeta.
  cbn [enhanced_main.errors].
  destruct (enhanced_main.email (enhanced_main.student_data request)) as [e|].
  - rewrite !append_if. cbn [app]. now rewrite <- !app_assoc.
  - rewrite !append_if. cbn [app]. now rewrite <- !app_assoc, app_nil_r.
Qed.

(** X16.  POST /validate-request says valid exactly when it lists no
    error, and that is exactly when: both codes are known; the student
    name, the roll number and the purpose hold a character that is not
    white space; the course, the department and the admission date are
    not empty; and the email, when given and not empty, holds an "@".
    The phone and the year of study are not looked at. *)
Theorem validate_document_request_valid (request : enhanced_main.DocumentRequest) :
  (enhanced_main.valid (enhanced_main.validate_document_request request) = true <->
   enhanced_main.errors (enhanced_main.validate_document_request request) = []) /\
  (enhanced_main.valid (enhanced_main.validate_document_request request) = true <->
   is_Some (universities !! enhanced_main.university_code request) /\
   is_Some (document_templates !! enhanced_main.document_type request) /\
   blank_string (enhanced_main.student_name (enhanced_main.student_data request)) =
   false /\
   blank_string (enhanced_main.roll_number (enhanced_main.student_data request)) =
   false /\
   enhanced_main.course (enhanced_main.student_data request) <> [] /\
   enhanced_main.department (enhanced_main.student_data request) <> [] /\
   enhanced_main.admission_date (enhanced_main.student_data request) <> [] /\
   blank_string (enhanced_main.purpose (enhanced_main.student_data request)) =
   false /\
   forall e,
     enhanced_main.email (enhanced_main.student_data request) = Some e ->
     e = [] \/ contains e (py "@") = true).
Proof.
  assert (enhanced_main.valid (enhanced_main.validate_document_request request) =
          true <->
          enhanced_main.errors (enhanced_main.validate_document_request request) =
          []) as Hv by apply length_eqb_nil.
  split; [exact Hv|]. rewrite Hv, validate_errors. clear Hv.
  assert (forall s, bool_decide (strip s = []) = false <-> blank_string s = false)
    as Hstrip.
  { intros s. rewrite bool_decide_eq_false, strip_nil.
    destruct (blank_string s); split; congruence. }
  assert (forall s : pystr, bool_decide (s = []) = false <-> s <> [])
    as Hnil by (intros s; apply bool_decide_eq_false).
  assert (forall P `{Decision P}, negb (bool_decide P) = false <-> P) as Hneg.
  { intros P HP. rewrite negb_false_iff. apply bool_decide_eq_true. }
  rewrite !app_nil, !if_nil, !Hstrip, !Hnil, !Hneg.
  do 8 (apply and_iff_compat_l).
  destruct (enhanced_main.email _) as [e|].
  - rewrite andb_false_iff, !negb_false_iff, bool_decide_eq_true.
    split; [intros H e' [= <-]; exact H | intros H; now apply H].
  - split; [intros _ e' H; discriminate H | reflexivity].
Qed.

Lemma validate_document_request_valid_witness :
  enhanced_main.valid
    (enhanced_main.validate_document_request
       (sample_request (Some (py "sarah.johnson@university.edu")) None [])) = true.
Proof.
  apply (proj2 (validate_document_request_valid
                  (sample_request (Some (py "sarah.johnson@university.edu"))
                     None []))).
  repeat (split; [first [vm_compute; eauto; fail | discriminate]|]).
  intros e [= <-]. right. vm_compute. reflexivity.
Defined.

(** The dictionary that the route builds has the six fields. *)
Lemma student_dict_complete (s : enhanced_main.StudentData) :
  Forall (fun f => is_Some (enhanced_main.student_dict s !! f)) required_fields /\
  enhanced_main.student_dict s !! py "student_name" =
  Some (enhanced_main.student_name s) /\
  enhanced_main.student_dict s !! py "purpose" = Some (enhanced_main.purpose s).
Proof.
  destruct s as [n r c d y a e ph p].
  split; [|split; vm_compute; reflexivity].
  unfold required_fields. repeat constructor; vm_compute; eauto.
Qed.

Lemma field_messages_prefix (x : pystr) :
  x ∈ field_messages ->
  startswith x (py "Invalid university code: ") = false /\
  startswith x (py "Invalid document type: ") = false.
Proof.
  intros Hx. apply list_elem_of_In in Hx.
  unfold field_messages in Hx. cbn [In] in Hx.
  repeat (destruct Hx as [<-|Hx]; [split; reflexivity|]). destruct Hx.
Qed.

Lemma validate_errors_codes (request : enhanced_main.DocumentRequest) :
  Forall (fun m => m ∈ field_messages)
    (enhanced_main.errors (enhanced_main.validate_document_request request)) ->
  is_Some (universities !! enhanced_main.university_code request) /\
  is_Some (document_templates !! enhanced_main.document_type request).
Proof.
  rewrite validate_errors. intros H.
  apply Forall_app in H as [Hu H]. apply Forall_app in H as [Ht _].
  split.
  - destruct (universities !! enhanced_main.university_code request) as [u|];
      [eauto|exfalso].
    rewrite bool_decide_eq_false_2 in Hu by (intros [? ?]; discriminate).
    cbn [negb] in Hu. apply Forall_cons in Hu as [Hu _].
    apply field_messages_prefix in Hu as [Hu _].
    rewrite startswith_app in Hu. discriminate Hu.
  - destruct (document_templates !! enhanced_main.document_type request) as [t|];
      [eauto|exfalso].
    rewrite bool_decide_eq_false_2 in Ht by (intros [? ?]; discriminate).
    cbn [negb] in Ht. apply Forall_cons in Ht as [Ht _].
    apply field_messages_prefix in Ht as [_ Ht].
    rewrite startswith_app in Ht. discriminate Ht.
Qed.

(** X17.  The validation is not a condition of the generation.  A
    request of which POST /validate-request lists no error, or only
    errors about the student fields and the email, has known codes, and
    the generator is given the six fields it reads, whatever they hold;
    what decides the generation is what the validation does not look at.
    The generator composes the document when the body, which is the
    template of the type with the fields put in, holds only characters
    that XML can hold and the student name has at most 218 characters;
    otherwise it raises a ValueError of the library and writes no file. *)
Theorem validation_not_enforced (request : enhanced_main.DocumentRequest)
    (w : world) :
  Forall (fun m => m ∈ field_messages)
    (enhanced_main.errors (enhanced_main.validate_document_request request)) ->
  exists ts,
    body_tokens !! enhanced_main.document_type request = Some ts /\
    let sd := enhanced_main.student_dict (enhanced_main.student_data request) in
    let n := enhanced_main.student_name (enhanced_main.student_data request) in
    (xml_compatible (substitute ts sd) = true ->
     length n <= longest_name ->
     exists doc filename,
       generate_document (enhanced_main.university_code request)
         (enhanced_main.document_type request) sd w =
       (Return (doc, filename), draw (tick (tick (tick w))))) /\
    (xml_compatible (substitute ts sd) = false \/ longest_name < length n ->
     exists message w',
       generate_document (enhanced_main.university_code request)
         (enhanced_main.document_type request) sd w =
       (Raise (ValueError message), w') /\
       files w' = files w).
Proof.
  intros H. apply validate_errors_codes in H as [[u Hu] [tpl Ht]].
  destruct (student_dict_complete (enhanced_main.student_data request))
    as (Hall & Hn & Hp).
  destruct (template_texts _ tpl Ht) as (_ & _ & _ & _ & ts & Hts & _).
  pose proof (generate_document_cases _ _ _ w u tpl ts _ _ Hu Ht Hts Hall Hn Hp)
    as H.
  exists ts. split; [exact Hts|]. cbv zeta. split.
  - intros Cb L. rewrite Cb, (proj2 (Nat.leb_le _ _) L) in H. eauto.
  - intros C.
    destruct (xml_compatible (substitute ts _)).
    + destruct C as [C|L]; [discriminate C|].
      rewrite (proj2 (Nat.leb_gt _ _) L) in H.
      destruct H as [m [H|H]]; rewrite H; eauto.
    + destruct H as [m H]. rewrite H. eauto.
Qed.

Lemma validation_not_enforced_witness :
  enhanced_main.validate_document_request blank_request =
  {| enhanced_main.valid := false;
     enhanced_main.errors :=
       [py "Student name is required"; py "Invalid email format"] |} /\
  Forall (fun m => m ∈ field_messages)
    (enhanced_main.errors (enhanced_main.validate_document_request blank_request)) /\
  exists doc filename,
    generate_document (enhanced_main.university_code blank_request)
      (enhanced_main.document_type blank_request)
      (enhanced_main.student_dict (enhanced_main.student_data blank_request))
      sample_world =
    (Return (doc, filename), draw (tick (tick (tick sample_world)))).
Proof.
  assert (Forall (fun m => m ∈ field_messages)
            (enhanced_main.errors
               (enhanced_main.validate_document_request blank_request))) as H
    by (apply (bool_decide_unpack _); vm_compute; reflexivity).
  split; [vm_compute; reflexivity|]. split; [exact H|].
  destruct (validation_not_enforced blank_request sample_world H)
    as (ts & Hts & Hreturn & _).
  vm_compute in Hts. injection Hts as <-.
  apply Hreturn; [vm_compute; reflexivity|].
  unfold longest_name, blank_request. cbn. lia.
Defined.

(* ===================================================================== *)
(** * System information *)
(* ===================================================================== *)

(** X18.  GET /system-info offers what the generator accepts: the codes
    of its list of universities are, without repetition, exactly the
    codes that [generate_document] knows, each with the name, address,
    telephone and website of the table; and the values of its list of
    document types are, without repetition, exactly the types that
    [generate_document] knows. *)
Theorem get_system_info_offers :
  NoDup (map enhanced_main.info_code
           (enhanced_main.info_universities enhanced_main.get_system_info)) /\
  NoDup (map enhanced_main.value
           (enhanced_main.info_document_types enhanced_main.get_system_info)) /\
  (forall i,
     In i (enhanced_main.info_universities enhanced_main.get_system_info) <->
     exists u,
       universities !! enhanced_main.info_code i = Some u /\
       enhanced_main.info_name i = name u /\
       enhanced_main.info_address i = address u /\
       enhanced_main.info_phone i = phone u /\
       enhanced_main.info_website i = website u) /\
  (forall v,
     In v (map enhanced_main.value
             (enhanced_main.info_document_types enhanced_main.get_system_info)) <->
     is_Some (document_templates !! v)).
Proof.
  assert (NoDup (map fst university_table)) as Hnd
    by (apply (bool_decide_unpack _); vm_compute; reflexivity).
  assert (map enhanced_main.info_code
            (enhanced_main.info_universities enhanced_main.get_system_info) =
          map fst university_table) as Hcodes.
  { unfold enhanced_main.get_system_info. cbn [enhanced_main.info_universities].
    rewrite map_map. apply map_ext. now intros [c []]. }
  assert (map enhanced_main.value
            (enhanced_main.info_document_types enhanced_main.get_system_info) =
          known_document_types) as Hvalues by (vm_compute; reflexivity).
  split; [now rewrite Hcodes|].
  split; [rewrite Hvalues; apply (bool_decide_unpack _); vm_compute; reflexivity|].
  split.
  - intros [c n a p ws].
    cbn [enhanced_main.info_code enhanced_main.info_name enhanced_main.info_address
         enhanced_main.info_phone enhanced_main.info_website].
    unfold enhanced_main.get_system_info. cbn [enhanced_main.info_universities].
    rewrite in_map_iff. split.
    + intros [[c' [n' a' p' ws' col]] [E Hin]]. injection E as -> -> -> -> ->.
      exists {| name := n; address := a; phone := p; website := ws; color := col |}.
      split; [|repeat split].
      apply elem_of_list_to_map_1; [exact Hnd | now apply list_elem_of_In].
    + intros (u & Hu & -> & -> & -> & ->).
      exists (c, u). split; [now destruct u|].
      apply list_elem_of_In. now apply elem_of_list_to_map_2.
  - intros v. rewrite Hvalues. split.
    + apply document_templates_lookup.
    + intros H. destruct (decide (In v known_document_types)) as [|Hn];
        [assumption|].
      apply document_templates_lookup in Hn. rewrite Hn in H.
      destruct H as [? H]. discriminate H.
Qed.

Lemma get_system_info_offers_witness :
  is_Some (document_templates !! py "transcript") /\
  In (py "transcript")
    (map enhanced_main.value
       (enhanced_main.info_document_types enhanced_main.get_system_info)).
Proof.
  assert (is_Some (document_templates !! py "transcript")) as H
    by (vm_compute; eauto).
  split; [exact H|].
  exact (proj2 (proj2 (proj2 (proj2 get_system_info_offers)) (py "transcript")) H).
Defined.

(* ===================================================================== *)
(** * Records that lack a field *)
(* ===================================================================== *)

Lemma find_first {A} (p : A -> bool) (l : list A) (x : A) :
  List.find p l = Some x ->
  exists l1 l2,
    l = l1 ++ x :: l2 /\ p x = true /\ Forall (fun y => p y = false) l1.
Proof.
  induction l as [|y l IH]; [discriminate|]. cbn [find].
  destruct (p y) eqn:E.
  - intros [= ->]. exists [], l. auto.
  - intros H. destruct (IH H) as (l1 & l2 & -> & Hx & Hl1).
    exists (y :: l1), l2. repeat split; [assumption|]. now constructor.
Qed.

(** X19.  For known codes and a record that lacks some of the six
    fields, [generate_and_save] raises the KeyError of the first field
    that is missing in the order student_name, roll_number, course,
    department, admission_date, purpose, and leaves the world as it was:
    the clock is not read and nothing is written, not even the output
    directory. *)
Theorem generate_and_save_missing_field (uc dt : pystr) (sd : gmap pystr pystr)
    (output_dir : pystr) (w : world) :
  In uc known_university_codes ->
  In dt known_document_types ->
  ~ Forall (fun f => is_Some (sd !! f)) required_fields ->
  exists before f after,
    required_fields = before ++ f :: after /\
    Forall (fun g => is_Some (sd !! g)) before /\
    sd !! f = None /\
    generate_and_save uc dt sd output_dir w = (Raise (KeyError f), w).
Proof.
  intros Hu Ht Hnot.
  pose proof (first_missing_spec sd) as Hm.
  destruct (first_missing sd) as [f|] eqn:Hf; [|contradiction].
  unfold first_missing in Hf.
  destruct (find_first _ _ _ Hf) as (l1 & l2 & Hl & Hx & Hl1).
  exists l1, f, l2. split; [exact Hl|]. split.
  - eapply Forall_impl; [exact Hl1|]. intros g Hg. cbn beta in Hg.
    apply bool_decide_eq_false in Hg. destruct (sd !! g); [eauto | congruence].
  - split; [apply Hm|].
    apply generate_and_save_Raise, generate_document_missing.
    + now apply universities_lookup.
    + now apply document_templates_lookup.
    + exact Hf.
Qed.

Lemma generate_and_save_missing_field_witness :
  In (py "harvard") known_university_codes /\
  In (py "bonafide") known_document_types /\
  ~ Forall (fun f => is_Some (delete (py "course") sample_student !! f))
      required_fields /\
  exists before f after,
    required_fields = before ++ f :: after /\
    Forall (fun g => is_Some (delete (py "course") sample_student !! g)) before /\
    delete (py "course") sample_student !! f = None /\
    generate_and_save (py "harvard") (py "bonafide")
      (delete (py "course") sample_student) default_output_dir sample_world =
    (Raise (KeyError f), sample_world).
Proof.
  assert (In (py "harvard") known_university_codes) as Hu
    by (unfold known_university_codes; cbn [In]; tauto).
  assert (In (py "bonafide") known_document_types) as Ht
    by (unfold known_document_types; cbn [In]; tauto).
  assert (~ Forall (fun f => is_Some (delete (py "course") sample_student !! f))
            required_fields) as Hn.
  { intros H. rewrite Forall_forall in H.
    destruct (H (py "course")) as [x Hx].
    - apply list_elem_of_In. unfold required_fields. cbn [In]. tauto.
    - vm_compute in Hx. discriminate Hx. }
  split; [exact Hu|]. split; [exact Ht|]. split; [exact Hn|].
  exact (generate_and_save_missing_field (py "harvard") (py "bonafide")
           (delete (py "course") sample_student) default_output_dir sample_world
           Hu Ht Hn).
Defined.
